(** * The batch dispatcher and the transport client of the GenAI command line

    A shallow embedding of [cli/client.py] ([GenAIClient.generate_text]) and
    of [cli/commands/batch.py] ([process], [process_prompts_concurrent],
    [process_single_prompt]).

    Python values are the inductive [pyval]; a [dict] is an association list
    in insertion order.  Effects are a writer monad with exceptions: a
    computation yields an [outcome] (a value or a raised exception) and the
    [log] of what it did, one channel per kind of effect (HTTP requests, file
    system, console, sleeps).  What the outside world answers (the backend,
    the file system, the input file) is the record [environment]; what the
    thread pool decides (the order in which units run and are collected, how
    long each call takes) is the record [scheduler].

    Conventions of the model:
    - a unit of work runs as a whole, the units one after another in the
      order [run_order]; [as_completed] yields the futures in the order
      [collect_order].  Both orders range over all permutations of the
      indices, which covers every schedule a pool of any size can produce;
    - the channels of a [log] are ordered each for itself; nothing is said
      about the relative order of entries of two channels;
    - prompts are strings, as the annotations of [process_single_prompt]
      say; logging has no effect that a statement here looks at;
    - exceptions are those deriving from [Exception];
    - paths are those of [pathlib] on a POSIX system;
    - [time.sleep] raises when the clock cannot hold the duration, which the
      environment decides; the sample environments follow CPython, where
      durations are a signed 64-bit count of nanoseconds. *)

From Stdlib Require Import String Ascii List ZArith Lia Bool Arith PeanoNat.
From Stdlib Require Import Permutation Sorted DecimalString.
From Stdlib Require Import Floats.PrimFloat Numbers.Cyclic.Int63.Uint63.
From Stdlib Require Floats.SpecFloat Floats.FloatOps.
From Stdlib Require DecimalNat DecimalFacts.
Import ListNotations.

Set Warnings "-inexact-float,-register-all".
Local Open Scope string_scope.
Local Open Scope list_scope.

(* ================================================================== *)
(** ** Python values *)
(* ================================================================== *)

Inductive pyval : Type :=
| PNone
| PBool (b : bool)
| PInt (z : Z)
| PFloat (f : float)
| PStr (s : string)
| PList (l : list pyval)
| PDict (d : list (string * pyval)).

Definition dict := list (string * pyval).

(** [d.get(k)] as an option; [d.get(k, default)]; [d[k] = v]. *)
Fixpoint dict_get (d : dict) (k : string) : option pyval :=
  match d with
  | [] => None
  | (k', v) :: rest => if String.eqb k' k then Some v else dict_get rest k
  end.

Definition dict_get_default (d : dict) (k : string) (default : pyval) : pyval :=
  match dict_get d k with Some v => v | None => default end.

Fixpoint dict_set (d : dict) (k : string) (v : pyval) : dict :=
  match d with
  | [] => [(k, v)]
  | (k', v') :: rest =>
      if String.eqb k' k then (k', v) :: rest else (k', v') :: dict_set rest k v
  end.

(** Truth value of an object, as [if x:] takes it. *)
Definition truthy (v : pyval) : bool :=
  match v with
  | PNone => false
  | PBool b => b
  | PInt z => negb (z =? 0)%Z
  | PFloat f => negb (PrimFloat.eqb f 0%float)
  | PStr s => negb (String.eqb s EmptyString)
  | PList l => match l with [] => false | _ => true end
  | PDict d => match d with [] => false | _ => true end
  end.

(** [d.get(k)] where the result is only tested for truth: a missing key is
    [None], which is false. *)
Definition dict_truthy (d : dict) (k : string) : bool :=
  truthy (dict_get_default d k PNone).

(** [v == n] for an integer literal [n] (0 <= n < 2^53), and [v == s] for a
    string literal.  Numbers compare by value across bool, int and float. *)
Definition py_eq_int (v : pyval) (n : Z) : bool :=
  match v with
  | PInt z => (z =? n)%Z
  | PBool b => (Z.b2z b =? n)%Z
  | PFloat f => PrimFloat.eqb f (PrimFloat.of_uint63 (Uint63.of_Z n))
  | _ => false
  end.

Definition py_eq_str (v : pyval) (s : string) : bool :=
  match v with
  | PStr s' => String.eqb s' s
  | _ => false
  end.

Definition type_name (v : pyval) : string :=
  match v with
  | PNone => "NoneType"
  | PBool _ => "bool"
  | PInt _ => "int"
  | PFloat _ => "float"
  | PStr _ => "str"
  | PList _ => "list"
  | PDict _ => "dict"
  end.

(* ================================================================== *)
(** ** Exceptions, logs and the monad *)
(* ================================================================== *)

(** The exception classes the two modules can meet.  [Timeout] and
    [ConnectionError] are those of [requests.exceptions]; [OtherError] stands
    for any further subclass of [Exception] that [requests.post] raises. *)
Inductive exn : Type :=
| Timeout
| ConnectionError
| JSONDecodeError (msg : string)
| AttributeError (msg : string)
| KeyError (key : string)
| TypeError (msg : string)
| ValueError (msg : string)
| OSError (msg : string)
| OverflowError (msg : string)
| OtherError (msg : string).

(** [str(e)]. *)
Definition exn_str (e : exn) : string :=
  match e with
  | Timeout => "timeout"
  | ConnectionError => "connection error"
  | JSONDecodeError msg => msg
  | AttributeError msg => msg
  | KeyError key => ("'" ++ key ++ "'")%string
  | TypeError msg => msg
  | ValueError msg => msg
  | OSError msg => msg
  | OverflowError msg => msg
  | OtherError msg => msg
  end.

Inductive outcome (A : Type) : Type :=
| Ok (a : A)
| Raise (e : exn).
Arguments Ok {A} a.
Arguments Raise {A} e.

(** A path is the text [str] gives for a [pathlib.Path] on a POSIX system. *)
Definition path := string.

(** The pieces of a text between its slashes. *)
Fixpoint components (s : string) : list string :=
  match s with
  | EmptyString => [EmptyString]
  | String c rest =>
      if Ascii.eqb c "/"%char then EmptyString :: components rest
      else match components rest with
           | [] => [String c EmptyString]
           | piece :: more => String c piece :: more
           end
  end.

(** [Path(s)]: empty pieces and single dots are dropped, a leading slash is
    kept, two leading slashes are kept as two and three or more as one; the
    path without any piece is the dot. *)
Definition Path (s : string) : path :=
  let parts :=
    filter (fun piece => negb (String.eqb piece EmptyString)
                         && negb (String.eqb piece "."))
           (components s) in
  let root :=
    if String.prefix "//" s && negb (String.prefix "///" s) then "//"
    else if String.prefix "/" s then "/"
    else EmptyString in
  match parts with
  | [] => if String.eqb root EmptyString then "." else root
  | _ => (root ++ String.concat "/" parts)%string
  end.

(** [p / name] for a path [p] and a file name [name], one piece that is
    neither empty nor a dot. *)
Definition path_join (p : path) (name : string) : path :=
  if String.eqb p "." then name
  else if String.eqb p "/" || String.eqb p "//" then (p ++ name)%string
  else (p ++ "/" ++ name)%string.

(** What a file receives: text from [f.write], or the document handed to
    [json.dump]. *)
Inductive content : Type :=
| Text (s : string)
| Json (v : pyval).

Inductive fs_event : Type :=
| Mkdir (p : path)
| Created (p : path)              (* open(p, 'w'): created or truncated *)
| Wrote (p : path) (c : content).

(** One POST to [{base_url}/generate]. *)
Record request : Type := mk_request {
  req_base : pyval;
  req_json : dict;
  req_timeout : pyval
}.

(** An f-string, kept as its pieces. *)
Inductive piece : Type :=
| Lit (s : string)
| Num (z : Z)
| Flt (f : float).

Record echo_line : Type := mk_echo {
  to_stderr : bool;
  pieces : list piece
}.

Record log : Type := mk_log {
  requests : list request;
  fs_log : list fs_event;
  echoes : list echo_line;
  sleeps : list float
}.

Definition log_empty : log := mk_log [] [] [] [].

Definition log_app (a b : log) : log :=
  mk_log (requests a ++ requests b) (fs_log a ++ fs_log b)
         (echoes a ++ echoes b) (sleeps a ++ sleeps b).

Definition M (A : Type) : Type := (outcome A * log)%type.

Definition ret {A} (a : A) : M A := (Ok a, log_empty).

Definition raise {A} (e : exn) : M A := (Raise e, log_empty).

Definition bind {A B} (c : M A) (k : A -> M B) : M B :=
  match c with
  | (Ok a, l) => let (o, l') := k a in (o, log_app l l')
  | (Raise e, l) => (Raise e, l)
  end.

(** [try: c  except Exception as e: h e]. *)
Definition try_except {A} (c : M A) (h : exn -> M A) : M A :=
  match c with
  | (Ok a, l) => (Ok a, l)
  | (Raise e, l) => let (o, l') := h e in (o, log_app l l')
  end.

Definition lift {A} (o : outcome A) : M A := (o, log_empty).

Declare Scope monad_scope.
Delimit Scope monad_scope with monad.
Notation "x <- c ;; k" := (bind c (fun x => k))
  (at level 61, c at next level, right associativity) : monad_scope.
Notation "c ;; k" := (bind c (fun _ => k))
  (at level 61, right associativity) : monad_scope.
Local Open Scope monad_scope.

Definition tell_request (r : request) : M unit :=
  (Ok tt, mk_log [r] [] [] []).
Definition tell_fs (e : fs_event) : M unit :=
  (Ok tt, mk_log [] [e] [] []).
Definition echo (ps : list piece) : M unit :=
  (Ok tt, mk_log [] [] [mk_echo false ps] []).
Definition echo_err (ps : list piece) : M unit :=
  (Ok tt, mk_log [] [] [mk_echo true ps] []).
Definition tell_sleep (d : float) : M unit :=
  (Ok tt, mk_log [] [] [] [d]).

(** [v.get(k, default)] on an arbitrary object: only a dict has [get]. *)
Definition py_get (v : pyval) (k : string) (default : pyval) : M pyval :=
  match v with
  | PDict d => ret (dict_get_default d k default)
  | _ => raise (AttributeError
                  ("'" ++ type_name v ++ "' object has no attribute 'get'")%string)
  end.

(** [d[k]] on a dict. *)
Definition dict_item (d : dict) (k : string) : M pyval :=
  match dict_get d k with
  | Some v => ret v
  | None => raise (KeyError k)
  end.

(** [v[k]] for a string key on an arbitrary object. *)
Definition py_item (v : pyval) (k : string) : M pyval :=
  match v with
  | PDict d => dict_item d k
  | PStr _ => raise (TypeError "string indices must be integers")
  | PList _ => raise (TypeError "list indices must be integers or slices, not str")
  | _ => raise (TypeError
                  ("'" ++ type_name v ++ "' object is not subscriptable")%string)
  end.

(* ================================================================== *)
(** ** The outside world *)
(* ================================================================== *)

(** A [requests.Response]: its status, its raw body, and what
    [response.json()] gives (the parsed document, or the decode error). *)
Record response : Type := mk_response {
  status_code : Z;
  resp_content : string;
  resp_json : outcome pyval
}.

Record environment : Type := mk_env {
  (** [requests.post]: a response, or the exception it raises. *)
  http_post : request -> outcome response;
  (** [load_prompts(input)]: the prompts read from the input file, or the
      exception raised while reading it. *)
  load_prompts : string -> outcome (list string);
  (** [Path.mkdir(exist_ok=True)], [open(p, 'w')] and [f.write]: the
      message of the [OSError] when the call fails. *)
  mkdir_error : path -> option string;
  open_error : path -> option string;
  write_error : path -> option string;
  (** [time.sleep(d)]: the message of the [OverflowError] when the clock
      cannot hold the duration. *)
  sleep_error : float -> option string
}.

(** The choices of the thread pool and of the clock during one batch. *)
Record scheduler : Type := mk_sched {
  (** order in which the submitted units run *)
  run_order : list nat;
  (** order in which [as_completed] yields the futures *)
  collect_order : list nat;
  (** [time.time() - start_time] of the unit with the given index *)
  elapsed : nat -> float
}.

(* ================================================================== *)
(** ** cli/client.py *)
(* ================================================================== *)

Record GenAIClient : Type := mk_client {
  config : dict;
  base_url : pyval;
  timeout : pyval
}.

(** [GenAIClient.__init__]. *)
Definition GenAIClient_init (config : dict) : GenAIClient :=
  mk_client config
    (dict_get_default config "api_endpoint"
       (PStr "https://2i9yquihz5.execute-api.us-east-2.amazonaws.com/Prod"))
    (dict_get_default config "timeout" (PInt 30)).

Section Transport.

Variable env : environment.

Definition requests_post (r : request) : M response :=
  tell_request r ;; lift (http_post env r).

Definition response_json (r : response) : M pyval := lift (resp_json r).

Definition generate_text_payload (self : GenAIClient) (prompt : string)
    (kwargs : dict) : dict :=
  [ ("prompt", PStr prompt);
    ("max_tokens",
      dict_get_default kwargs "max_tokens"
        (dict_get_default (config self) "default_max_tokens" (PInt 1000)));
    ("temperature",
      dict_get_default kwargs "temperature"
        (dict_get_default (config self) "default_temperature" (PFloat 0.7%float)));
    ("user_id",
      dict_get_default kwargs "user_id"
        (dict_get_default (config self) "default_user_id" (PStr "cli_user"))) ].

(** The body of the [try] block of [generate_text]. *)
Definition generate_text_try (self : GenAIClient) (payload : dict) : M dict :=
  response <- requests_post (mk_request (base_url self) payload (timeout self)) ;;
  if (status_code response =? 200)%Z then
    result <- response_json response ;;
    ret [ ("success", PBool true);
          ("data", result);
          ("status_code", PInt (status_code response)) ]
  else if (status_code response =? 400)%Z then
    error_data <- response_json response ;;
    err <- py_get error_data "error" (PStr "Bad request") ;;
    details <- py_get error_data "details" (PDict []) ;;
    message <- py_get error_data "message" (PStr "") ;;
    ret [ ("success", PBool false);
          ("error", err);
          ("details", details);
          ("message", message);
          ("status_code", PInt (status_code response)) ]
  else
    error_data <- (if String.eqb (resp_content response) EmptyString
                   then ret (PDict [])
                   else response_json response) ;;
    err <- py_get error_data "error" (PStr "Unknown API error") ;;
    ret [ ("success", PBool false);
          ("error", err);
          ("status_code", PInt (status_code response)) ].

(** The [except] clauses of [generate_text], in their order. *)
Definition generate_text_except (e : exn) : M dict :=
  match e with
  | Timeout =>
      ret [ ("success", PBool false);
            ("error", PStr "Request timeout - API took too long to respond");
            ("status_code", PInt 408) ]
  | ConnectionError =>
      ret [ ("success", PBool false);
            ("error", PStr "Connection error - Could not reach API");
            ("status_code", PInt 503) ]
  | JSONDecodeError msg =>
      ret [ ("success", PBool false);
            ("error", PStr ("Invalid JSON response: " ++ msg)%string);
            ("status_code", PInt 500) ]
  | _ =>
      ret [ ("success", PBool false);
            ("error", PStr ("Unexpected error: " ++ exn_str e)%string);
            ("status_code", PInt 500) ]
  end.

Definition generate_text (self : GenAIClient) (prompt : string)
    (kwargs : dict) : M dict :=
  let payload := generate_text_payload self prompt kwargs in
  try_except (generate_text_try self payload) generate_text_except.

End Transport.

(* ================================================================== *)
(** ** cli/commands/batch.py *)
(* ================================================================== *)

(** [str(n)] and the format [{n:04d}] for a natural number. *)
Definition str_nat (n : nat) : string :=
  NilZero.string_of_uint (Nat.to_uint n).

Fixpoint zeros (k : nat) : string :=
  match k with
  | O => EmptyString
  | S k' => String "0"%char (zeros k')
  end.

Definition format_04d (n : nat) : string :=
  (zeros (4 - String.length (str_nat n)) ++ str_nat n)%string.

(** [prompt[:100] + '...' if len(prompt) > 100 else prompt]. *)
Definition prompt_preview (prompt : string) : string :=
  if (100 <? String.length prompt)%nat
  then (substring 0 100 prompt ++ "...")%string
  else prompt.

(** [int] to [float], for the numbers that meet in a sum: the nearest
    float, ties to even, and none when that lies beyond the largest one. *)
Definition float_of_Z (z : Z) : option float :=
  match SpecFloat.binary_normalize FloatOps.prec FloatOps.emax z 0 false with
  | SpecFloat.S754_infinity _ => None
  | nearest => Some (FloatOps.SF2Prim nearest)
  end.

Definition int_too_large : exn :=
  OverflowError "int too large to convert to float".

(** [a + b] on numbers. *)
Definition py_add (a b : pyval) : M pyval :=
  let num v :=
    match v with
    | PInt z => Some (inl z)
    | PBool b => Some (inl (Z.b2z b))
    | PFloat f => Some (inr f)
    | _ => None
    end in
  match num a, num b with
  | Some (inl x), Some (inl y) => ret (PInt (x + y))
  | Some (inl x), Some (inr g) =>
      match float_of_Z x with
      | Some f => ret (PFloat (PrimFloat.add f g))
      | None => raise int_too_large
      end
  | Some (inr f), Some (inl y) =>
      match float_of_Z y with
      | Some g => ret (PFloat (PrimFloat.add f g))
      | None => raise int_too_large
      end
  | Some (inr f), Some (inr g) => ret (PFloat (PrimFloat.add f g))
  | _, _ => raise (TypeError "unsupported operand type(s) for +")
  end.

(** [sum(xs)], which starts from the integer 0. *)
Fixpoint py_sum (acc : pyval) (xs : list pyval) : M pyval :=
  match xs with
  | [] => ret acc
  | x :: rest => acc' <- py_add acc x ;; py_sum acc' rest
  end.

(** The key of [results.sort(key=lambda x: x.get('index', 0))].  Every record
    built by [process_single_prompt] carries an integer there. *)
Definition index_key (x : dict) : Z :=
  match dict_get_default x "index" (PInt 0) with
  | PInt z => z
  | PBool b => Z.b2z b
  | _ => 0%Z
  end.

(** [list.sort] is stable; so is insertion before the first greater-or-equal
    key, folding from the right. *)
Fixpoint insert_by_key (x : dict) (l : list dict) : list dict :=
  match l with
  | [] => [x]
  | y :: rest =>
      if (index_key x <=? index_key y)%Z then x :: l
      else y :: insert_by_key x rest
  end.

Definition sort_by_index (l : list dict) : list dict :=
  fold_right insert_by_key [] l.

(** A future holds what its unit returned or raised. *)
Definition future : Type := outcome dict.

Definition capture {A} (c : M A) : M (outcome A) := (Ok (fst c), snd c).

Fixpoint future_of (futures : list (nat * future)) (i : nat) : option future :=
  match futures with
  | [] => None
  | (j, f) :: rest => if Nat.eqb j i then Some f else future_of rest i
  end.

Section Batch.

Variable env : environment.
Variable sch : scheduler.

Definition mkdir (p : path) : M unit :=
  match mkdir_error env p with
  | Some msg => raise (OSError msg)
  | None => tell_fs (Mkdir p)
  end.

Definition sleep (d : float) : M unit :=
  match sleep_error env d with
  | Some msg => raise (OverflowError msg)
  | None => tell_sleep d
  end.

Definition open_w (p : path) : M unit :=
  match open_error env p with
  | Some msg => raise (OSError msg)
  | None => tell_fs (Created p)
  end.

(** [f.write(v)] on a text file. *)
Definition file_write (p : path) (v : pyval) : M unit :=
  match v with
  | PStr s =>
      match write_error env p with
      | Some msg => raise (OSError msg)
      | None => tell_fs (Wrote p (Text s))
      end
  | _ => raise (TypeError
                  ("write() argument must be str, not " ++ type_name v)%string)
  end.

(** [json.dump(v, f)]. *)
Definition json_dump (p : path) (v : pyval) : M unit :=
  match write_error env p with
  | Some msg => raise (OSError msg)
  | None => tell_fs (Wrote p (Json v))
  end.

Definition build_params (max_tokens temperature user_id : pyval) : dict :=
  let params : dict := [] in
  let params :=
    if truthy max_tokens then dict_set params "max_tokens" max_tokens else params in
  let params :=
    if truthy temperature then dict_set params "temperature" temperature else params in
  let params :=
    if truthy user_id then dict_set params "user_id" user_id else params in
  params.

Definition item_file (output_path : path) (index : nat) : path :=
  path_join output_path ("result_" ++ format_04d (index + 1) ++ ".txt")%string.

Definition process_single_prompt (prompt : string) (index : nat)
    (client : GenAIClient) (max_tokens temperature user_id : pyval)
    (output_path : path) : M dict :=
  let params := build_params max_tokens temperature user_id in
  result <- generate_text env client prompt params ;;
  let processing_time := PFloat (elapsed sch index) in
  if dict_truthy result "success" then
    let output_file := item_file output_path index in
    open_w output_file ;;
    data <- dict_item result "data" ;;
    text <- py_item data "generated_text" ;;
    file_write output_file text ;;
    data <- dict_item result "data" ;;
    metadata <- py_get data "metadata" (PDict []) ;;
    ret [ ("success", PBool true);
          ("index", PInt (Z.of_nat index));
          ("prompt", PStr (prompt_preview prompt));
          ("output_file", PStr output_file);
          ("processing_time", processing_time);
          ("metadata", metadata) ]
  else
    is_content_filtered <-
      (if py_eq_int (dict_get_default result "status_code" PNone) 400
       then reason <- py_get (dict_get_default result "details" (PDict []))
                             "reason" PNone ;;
            ret (py_eq_str reason "Content policy violation")
       else ret false) ;;
    ret [ ("success", PBool false);
          ("content_filtered", PBool is_content_filtered);
          ("index", PInt (Z.of_nat index));
          ("prompt", PStr (prompt_preview prompt));
          ("error", dict_get_default result "error" (PStr "Unknown error"));
          ("processing_time", processing_time) ].

(** The submission loop: one future per prompt, and a pause after each
    submission but the last.  It yields the number of units submitted and
    how it ended: a pause that raises ends it, with the units up to that
    one submitted. *)
Fixpoint submit_all (delay : float) (total : nat) (i : nat)
    (prompts : list string) : M (nat * outcome unit) :=
  match prompts with
  | [] => ret (i, Ok tt)
  | _ :: rest =>
      paused <- capture
                  (if PrimFloat.ltb 0%float delay
                      && (Z.of_nat i <? Z.of_nat total - 1)%Z
                   then sleep delay else ret tt) ;;
      match paused with
      | Ok _ => submit_all delay total (S i) rest
      | Raise e => ret (S i, Raise e)
      end
  end.

(** The pool runs every submitted unit, here one after another in the order
    [order]; what a unit raises stays in its future.  An index that names no
    prompt names no unit. *)
Fixpoint run_units (prompts : list string) (client : GenAIClient)
    (max_tokens temperature user_id : pyval) (output_path : path)
    (order : list nat) : M (list (nat * future)) :=
  match order with
  | [] => ret []
  | i :: rest =>
      match nth_error prompts i with
      | Some prompt =>
          f <- capture (process_single_prompt prompt i client max_tokens
                          temperature user_id output_path) ;;
          fs <- run_units prompts client max_tokens temperature user_id
                  output_path rest ;;
          ret ((i, f) :: fs)
      | None =>
          run_units prompts client max_tokens temperature user_id
            output_path rest
      end
  end.

(** The loop over [as_completed(future_to_index)]: [future.result()] returns
    the unit's record or raises what the unit raised. *)
Fixpoint collect (futures : list (nat * future)) (total : nat)
    (order : list nat) (results : list dict) (completed : nat)
    : M (list dict) :=
  match order with
  | [] => ret results
  | index :: rest =>
      match future_of futures index with
      | None => collect futures total rest results completed
      | Some (Raise e) => raise e
      | Some (Ok result) =>
          let results := results ++ [result] in
          let completed := completed + 1 in
          let status := if dict_truthy result "success" then "✅" else "❌" in
          let status :=
            if dict_truthy result "content_filtered" then "🛡️" else status in
          echo [Lit status; Lit " ["; Num (Z.of_nat completed); Lit "/";
                Num (Z.of_nat total); Lit "] Prompt ";
                Num (Z.of_nat index + 1)] ;;
          collect futures total rest results completed
      end
  end.

Definition process_prompts_concurrent (prompts : list string)
    (client : GenAIClient) (max_tokens temperature user_id : pyval)
    (max_workers : Z) (delay : float) (output_path : path) : M (list dict) :=
  let total := List.length prompts in
  echo [Lit "🚀 Starting batch processing with "; Num max_workers;
        Lit " workers..."] ;;
  echo [Lit "⏱️  Delay between requests: "; Flt delay; Lit "s"] ;;
  (* ThreadPoolExecutor(max_workers=max_workers) *)
  (if (max_workers <=? 0)%Z
   then raise (ValueError "max_workers must be greater than 0")
   else ret tt) ;;
  submission <- submit_all delay total 0 prompts ;;
  (* leaving the [with] block waits for the units submitted so far *)
  futures <- run_units prompts client max_tokens temperature user_id
               output_path
               (filter (fun i => (i <? fst submission)%nat) (run_order sch)) ;;
  match snd submission with
  | Raise e => raise e
  | Ok _ =>
      results <- collect futures total (collect_order sch) [] 0 ;;
      ret (sort_by_index results)
  end.

Definition count_truthy (k : string) (results : list dict) : Z :=
  Z.of_nat (List.length (filter (fun r => dict_truthy r k) results)).

Definition summary_file (output : string) : path :=
  path_join (Path output) "batch_summary.json".

Definition process (config : dict) (input output : string)
    (max_tokens temperature user_id : pyval) (max_workers : Z)
    (delay : float) : M unit :=
  let client := GenAIClient_init config in
  prompts <- lift (load_prompts env input) ;;
  echo [Lit "📂 Loaded "; Num (Z.of_nat (List.length prompts));
        Lit " prompts from "; Lit input] ;;
  if (List.length prompts =? 0)%nat then
    echo_err [Lit "❌ No prompts found in input file"]
  else
    let output_path : path := Path output in
    mkdir output_path ;;
    echo [Lit "📁 Output directory: "; Lit output] ;;
    results <- process_prompts_concurrent prompts client max_tokens
                 temperature user_id max_workers delay output_path ;;
    let successful := count_truthy "success" results in
    let failed := (Z.of_nat (List.length results) - successful)%Z in
    let content_filtered := count_truthy "content_filtered" results in
    processing_time <-
      py_sum (PInt 0)
        (map (fun r => dict_get_default r "processing_time" (PInt 0)) results) ;;
    let summary : dict :=
      [ ("input_file", PStr input);
        ("total_prompts", PInt (Z.of_nat (List.length prompts)));
        ("successful", PInt successful);
        ("failed", PInt failed);
        ("content_filtered", PInt content_filtered);
        ("output_directory", PStr output);
        ("processing_time", processing_time);
        ("results", PList (map PDict results)) ] in
    open_w (summary_file output) ;;
    json_dump (summary_file output) (PDict summary) ;;
    echo [Lit "
📊 Batch Processing Complete!"] ;;
    echo [Lit "✅ Successful: "; Num successful] ;;
    echo [Lit "❌ Failed: "; Num failed] ;;
    (if (0 <? content_filtered)%Z
     then echo [Lit "🛡️  Content Filtered: "; Num content_filtered]
     else ret tt) ;;
    echo [Lit "📄 Summary saved to: "; Lit (summary_file output)] ;;
    (if (0 <? successful)%Z
     then echo [Lit "📁 Generated files saved to: "; Lit output]
     else ret tt).

End Batch.

(* ================================================================== *)
(** ** Vocabulary of the statements *)
(* ================================================================== *)

(** The request [generate_text] sends. *)
Definition request_of (self : GenAIClient) (prompt : string) (kwargs : dict)
    : request :=
  mk_request (base_url self) (generate_text_payload self prompt kwargs)
             (timeout self).

(** The record [generate_text] returns. *)
Definition transport_result (env : environment) (self : GenAIClient)
    (prompt : string) (kwargs : dict) : dict :=
  match fst (generate_text env self prompt kwargs) with
  | Ok r => r
  | Raise _ => []
  end.


(** The clock refuses a pause of the submission loop: there is one, after
    the first of two or more prompts when the delay is positive, and
    [time.sleep] raises on it. *)
Definition pause_refused (env : environment) (delay : float) (total : nat)
    : bool :=
  PrimFloat.ltb 0%float delay && (2 <=? total)%nat
  && match sleep_error env delay with Some _ => true | None => false end.

(** The shape every failure of [generate_text] has. *)
Definition uniform_failure (r : dict) : Prop :=
  dict_get r "success" = Some (PBool false)
  /\ (exists e, dict_get r "error" = Some e)
  /\ (exists z, dict_get r "status_code" = Some (PInt z)).

(** The three kinds of outcome record, told apart the way the progress line
    of [process_prompts_concurrent] and the counts of [process] do. *)
Inductive kind : Type := Success | ContentFiltered | Failure.

Definition kind_of (rec : dict) : kind :=
  if dict_truthy rec "success" then Success
  else if dict_truthy rec "content_filtered" then ContentFiltered
  else Failure.

(** A schedule of [n] units names each of them once. *)
Definition valid_schedule (n : nat) (order : list nat) : bool :=
  (List.length order =? n)%nat
  && forallb (fun i => existsb (Nat.eqb i) order) (seq 0 n).

Definition valid_scheduler (n : nat) (sch : scheduler) : bool :=
  valid_schedule n (run_order sch) && valid_schedule n (collect_order sch).

(** An outcome list in input order: one record per prompt, the record at
    position [i] carrying index [i]. *)
Definition ordered_outcomes (n : nat) (results : list dict) : Prop :=
  List.length results = n
  /\ forall i, i < n ->
       exists rec, nth_error results i = Some rec
                   /\ dict_get rec "index" = Some (PInt (Z.of_nat i)).

(** A record without its elapsed time. *)
Definition strip_time (rec : dict) : dict :=
  filter (fun kv => negb (String.eqb (fst kv) "processing_time")) rec.

(** What the future of unit [i] holds, and its record when it returned. *)
Definition unit_future (env : environment) (sch : scheduler)
    (prompts : list string) (client : GenAIClient)
    (max_tokens temperature user_id : pyval) (output_path : path) (i : nat)
    : option future :=
  match nth_error prompts i with
  | Some prompt =>
      Some (fst (process_single_prompt env sch prompt i client max_tokens
                   temperature user_id output_path))
  | None => None
  end.

Definition unit_record (env : environment) (sch : scheduler)
    (prompts : list string) (client : GenAIClient)
    (max_tokens temperature user_id : pyval) (output_path : path) (i : nat)
    : dict :=
  match unit_future env sch prompts client max_tokens temperature user_id
          output_path i with
  | Some (Ok rec) => rec
  | _ => []
  end.

(** The records [future.result()] hands over, in the order of collection. *)
Fixpoint gather (futures : list (nat * future)) (order : list nat)
    : outcome (list dict) :=
  match order with
  | [] => Ok []
  | i :: rest =>
      match future_of futures i with
      | None => gather futures rest
      | Some (Raise e) => Raise e
      | Some (Ok rec) =>
          match gather futures rest with
          | Ok l => Ok (rec :: l)
          | Raise e => Raise e
          end
      end
  end.

(** The values [+] accepts. *)
Definition is_float (v : pyval) : bool :=
  match v with
  | PFloat _ => true
  | _ => false
  end.

(** The same insertion on bare indices. *)
Fixpoint insert_nat (x : nat) (l : list nat) : list nat :=
  match l with
  | [] => [x]
  | y :: rest => if (x <=? y)%nat then x :: l else y :: insert_nat x rest
  end.

Definition sort_nat (l : list nat) : list nat := fold_right insert_nat [] l.

(** *** Sample worlds *)

Definition no_fs_error : path -> option string := fun _ => None.

(** The clock of CPython: durations are kept as a signed 64-bit number of
    nanoseconds. *)
Definition clock_limit (d : float) : option string :=
  if PrimFloat.ltb (PrimFloat.mul d 1000000000%float)
                   9223372036854775808%float
  then None
  else Some "timestamp too large to convert to C _PyTime_t".

Definition generated (text : string) : response :=
  mk_response 200 "{...}"
    (Ok (PDict [("generated_text", PStr text);
                ("metadata", PDict [("output_tokens", PInt 3)])])).

Definition rejected (reason : string) : response :=
  mk_response 400 "{...}"
    (Ok (PDict [("error", PStr "Request blocked");
                ("details", PDict [("reason", PStr reason);
                                   ("severity", PStr "high")]);
                ("message", PStr "Please rephrase")])).

(** A backend that generates text for every prompt but three: one is
    rejected by the content policy, one times out, and one is answered with
    a 400 whose [details] is [null]. *)
Definition sample_backend (r : request) : outcome response :=
  match dict_get (req_json r) "prompt" with
  | Some (PStr "blocked") => Ok (rejected "Content policy violation")
  | Some (PStr "blocked, lower case") => Ok (rejected "content policy violation")
  | Some (PStr "slow") => Raise Timeout
  | Some (PStr "null details") =>
      Ok (mk_response 400 "{...}"
            (Ok (PDict [("error", PStr "Bad request"); ("details", PNone)])))
  | _ => Ok (generated "Once upon a time")
  end.

Definition sample_prompts : list string :=
  ["tell a story"; "blocked"; "slow"; "write a haiku"].

Definition sample_env : environment :=
  mk_env sample_backend (fun _ => Ok sample_prompts)
         no_fs_error no_fs_error no_fs_error clock_limit.

(** The same world with an empty input file. *)
Definition empty_input_env : environment :=
  mk_env sample_backend (fun _ => Ok []) no_fs_error no_fs_error no_fs_error
         clock_limit.

(** The same world where the second item file cannot be opened. *)
Definition read_only_env : environment :=
  mk_env sample_backend (fun _ => Ok ["tell a story"; "write a haiku"])
         no_fs_error
         (fun p => if String.eqb p "out/result_0002.txt"
                   then Some "Permission denied" else None)
         no_fs_error clock_limit.

Definition sample_sched : scheduler :=
  mk_sched [2; 0; 3; 1] [3; 1; 0; 2] (fun _ => 1.5%float).

Definition sequential_sched : scheduler :=
  mk_sched [0; 1; 2; 3] [0; 1; 2; 3] (fun _ => 0.25%float).

Definition two_unit_sched : scheduler :=
  mk_sched [1; 0] [1; 0] (fun _ => 1.5%float).

Definition sample_client : GenAIClient := GenAIClient_init [].

(** The documents [json.dump] wrote, oldest first, and the summary of the
    sample batch. *)
Definition written_summaries (l : list fs_event) : list dict :=
  flat_map (fun ev => match ev with
                      | Wrote _ (Json (PDict d)) => [d]
                      | _ => []
                      end) l.

Definition sample_summary : dict :=
  Eval vm_compute in
    hd [] (written_summaries
             (fs_log (snd (process sample_env sample_sched [] "prompts.txt"
                             "out" PNone PNone PNone 3 1%float)))).

(** One hundred letters followed by three dots: 103 characters. *)
Definition dotted_prompt : string :=
  (string_of_list_ascii (repeat "a"%char 100) ++ "...")%string.

(** A batch of that single prompt. *)
Definition dotted_env : environment :=
  mk_env sample_backend (fun _ => Ok [dotted_prompt])
         no_fs_error no_fs_error no_fs_error clock_limit.

Definition one_unit_sched : scheduler :=
  mk_sched [0] [0] (fun _ => 1.5%float).

Definition dotted_summary : dict :=
  Eval vm_compute in
    hd [] (written_summaries
             (fs_log (snd (process dotted_env one_unit_sched [] "prompts.txt"
                             "out" PNone PNone PNone 1 0%float)))).


(* ================================================================== *)
(** ** The single-threaded commands: traces *)
(* ================================================================== *)

(** The functions below run on one thread: what they do is one trace of
    events, in the order of execution.  They catch exceptions only as
    [Exception], so an exception is kept as the name of its class and its
    text, [str(e)].

    They are the other commands of the tool: [load_prompts] of
    [cli/commands/batch.py]; [get_usage_stats] and [health_check] of
    [cli/client.py]; [get], [set], [display] and [save_config] of
    [cli/config.py]; [show], [set], [get], [test], [reset] and [init] of
    [cli/commands/config.py]; [text] and [file] of
    [cli/commands/generate.py]; [stats], [report], [summary] and
    [generate_usage_report] of [cli/commands/usage.py]; [status] and [quick]
    of [cli/main.py].

    Conventions of this part:
    - what the libraries answer is the record [world]: the usage endpoint,
      the files read, [json.loads], [str.isspace], [str.lower], [str.upper],
      [int], [float], the prompts of [click] and the writing of the
      configuration file;
    - the configuration is a dictionary with strings as keys;
    - a printed line is the list of the parts of its f-string, a part being
      a literal, an object as [str] prints it, or an object under a format
      ([{:,}], [.title()], [json.dumps]); a report is the list of the parts
      of its text. *)

Record error : Type := mk_error {
  error_class : string;
  error_text : string
}.

Definition class_name (e : exn) : string :=
  match e with
  | Timeout => "Timeout"
  | ConnectionError => "ConnectionError"
  | JSONDecodeError _ => "JSONDecodeError"
  | AttributeError _ => "AttributeError"
  | KeyError _ => "KeyError"
  | TypeError _ => "TypeError"
  | ValueError _ => "ValueError"
  | OSError _ => "OSError"
  | OverflowError _ => "OverflowError"
  | OtherError _ => "Exception"
  end.

Definition error_of (e : exn) : error := mk_error (class_name e) (exn_str e).

Inductive result (A : Type) : Type :=
| Done (a : A)
| Failed (e : error).
Arguments Done {A} a.
Arguments Failed {A} e.

Definition result_of {A} (o : outcome A) : result A :=
  match o with
  | Ok a => Done a
  | Raise e => Failed (error_of e)
  end.

(** The pieces of a printed or written text: a literal, [str(v)] of an
    object, [format(v, ',')] of a number, [s.title()], [json.dumps(v,
    indent=2)], and the timestamp of [datetime.now()]. *)
Inductive part : Type :=
| Str (s : string)
| Obj (v : pyval)
| Thousands (v : pyval)
| Titled (s : string)
| Dumps (v : pyval)
| Timestamp.

(** One GET to [{base_url}/usage/{user_id}] with its query parameters. *)
Record usage_request : Type := mk_usage_request {
  get_base : pyval;
  get_user : pyval;
  get_params : dict;
  get_timeout : pyval
}.

Inductive event : Type :=
| Posted (r : request)
| Got (g : usage_request)
| Filed (e : fs_event)
| Reported (p : path) (text : list part)   (* f.write of a built report *)
| Echoed (to_err : bool) (text : list part)
| Saved (config : dict)                    (* yaml.dump into the config file *)
| Slept (d : float).

Definition Cmd (A : Type) : Type := (result A * list event)%type.

Definition done {A} (a : A) : Cmd A := (Done a, []).

Definition fail {A} (e : error) : Cmd A := (Failed e, []).

Definition and_then {A B} (c : Cmd A) (k : A -> Cmd B) : Cmd B :=
  match c with
  | (Done a, t) => let (r, t') := k a in (r, t ++ t')
  | (Failed e, t) => (Failed e, t)
  end.

(** [try: c  except Exception as e: h e]. *)
Definition try_catch {A} (c : Cmd A) (h : error -> Cmd A) : Cmd A :=
  match c with
  | (Done a, t) => (Done a, t)
  | (Failed e, t) => let (r, t') := h e in (r, t ++ t')
  end.

Definition tell (ev : event) : Cmd unit := (Done tt, [ev]).

Definition say (text : list part) : Cmd unit := tell (Echoed false text).

Definition say_err (text : list part) : Cmd unit := tell (Echoed true text).

Definition part_of_piece (p : piece) : part :=
  match p with
  | Lit s => Str s
  | Num z => Obj (PInt z)
  | Flt f => Obj (PFloat f)
  end.

Definition events_of (l : log) : list event :=
  map Posted (requests l)
  ++ map Filed (fs_log l)
  ++ map (fun e => Echoed (to_stderr e) (map part_of_piece (pieces e)))
         (echoes l)
  ++ map Slept (sleeps l).

(** A computation of the batch model, run inside a command.  The ones used
    below write on one channel only, so the order inside the trace is the
    order of that channel. *)
Definition run {A} (c : M A) : Cmd A :=
  (result_of (fst c), events_of (snd c)).

Definition lift_result {A} (r : result A) : Cmd A := (r, []).

Declare Scope cmd_scope.
Delimit Scope cmd_scope with cmd.
Notation "x <- c ;; k" := (and_then c (fun x => k))
  (at level 61, c at next level, right associativity) : cmd_scope.
Notation "c ;; k" := (and_then c (fun _ => k))
  (at level 61, right associativity) : cmd_scope.

(** What the commands ask of the world besides the backend and the file
    writes of [environment]: the usage endpoint, the files read, the
    answers typed at the console, and the library functions on text whose
    tables are not part of the program. *)
Record world : Type := mk_world {
  net : environment;
  (** [requests.get]: a response, or the exception it raises. *)
  http_get : usage_request -> result response;
  (** [Path.exists], [Path.suffix], and opening and reading a text file. *)
  path_exists : string -> bool;
  path_suffix : string -> string;
  read_text : string -> result string;
  (** [json.loads] on the text of a file. *)
  json_loads : string -> result pyval;
  (** [str.isspace] on one character, [str.lower], [str.upper]. *)
  isspace : ascii -> bool;
  str_lower : string -> string;
  str_upper : string -> string;
  (** [int(s)] and [float(s)] on a string. *)
  parse_int : string -> result Z;
  parse_float : string -> result float;
  (** [click.confirm(question)]. *)
  confirm : string -> result bool;
  (** [click.prompt(question, default=..., type=...)]: the answer, already
      converted to the type asked for. *)
  ask : string -> pyval -> result pyval;
  (** Writing [~/.genai-bot/config.yaml]: the text of the exception when it
      fails. *)
  save_error : option string
}.

(* ------------------------------------------------------------------ *)
(** *** Text *)

(** The lines a text file yields when iterated: each keeps its newline. *)
Fixpoint file_lines (s : string) : list string :=
  match s with
  | EmptyString => []
  | String c rest =>
      if Ascii.eqb c "010"%char then String c EmptyString :: file_lines rest
      else match file_lines rest with
           | [] => [String c EmptyString]
           | line :: more => String c line :: more
           end
  end.

Section Strip.

Variable space : ascii -> bool.

Fixpoint lstrip (s : string) : string :=
  match s with
  | EmptyString => EmptyString
  | String c rest => if space c then lstrip rest else s
  end.

Fixpoint rstrip (s : string) : string :=
  match s with
  | EmptyString => EmptyString
  | String c rest =>
      match rstrip rest with
      | EmptyString => if space c then EmptyString else String c EmptyString
      | kept => String c kept
      end
  end.

(** [s.strip()]. *)
Definition strip (s : string) : string := rstrip (lstrip s).

End Strip.

Definition nonempty (s : string) : bool := negb (String.eqb s EmptyString).

Fixpoint last_char (s : string) : option ascii :=
  match s with
  | EmptyString => None
  | String c EmptyString => Some c
  | String _ rest => last_char rest
  end.

Definition first_char (s : string) : option ascii :=
  match s with
  | EmptyString => None
  | String c _ => Some c
  end.

(** [sub in s]. *)
Fixpoint contains (sub s : string) : bool :=
  String.prefix sub s
  || match s with
     | EmptyString => false
     | String _ rest => contains sub rest
     end.

(** [sep.join(items)]. *)
Fixpoint join (sep : string) (items : list string) : string :=
  match items with
  | [] => EmptyString
  | [x] => x
  | x :: rest => (x ++ sep ++ join sep rest)%string
  end.

(** [s.replace('_', ' ')]. *)
Fixpoint replace_underscores (s : string) : string :=
  match s with
  | EmptyString => EmptyString
  | String c rest =>
      String (if Ascii.eqb c "_"%char then " "%char else c)
             (replace_underscores rest)
  end.

(** [c * n] for a one-character string. *)
Fixpoint repeat_char (c : ascii) (n : nat) : string :=
  match n with
  | O => EmptyString
  | S n' => String c (repeat_char c n')
  end.

(** The format [{n:03d}] for a natural number. *)
Definition format_03d (n : nat) : string :=
  (zeros (3 - String.length (str_nat n)) ++ str_nat n)%string.

(* ------------------------------------------------------------------ *)
(** *** Operators on objects *)

Definition quote_mark : string := String (Ascii.ascii_of_nat 34) EmptyString.

(** [a + b]: numbers add, strings and lists concatenate. *)
Definition py_plus (a b : pyval) : result pyval :=
  let num v :=
    match v with
    | PInt z => Some (inl z)
    | PBool b => Some (inl (Z.b2z b))
    | PFloat f => Some (inr f)
    | _ => None
    end in
  let unsupported :=
    Failed (mk_error "TypeError"
              ("unsupported operand type(s) for +: '" ++ type_name a
               ++ "' and '" ++ type_name b ++ "'")%string) in
  let concatenate kind :=
    Failed (mk_error "TypeError"
              ("can only concatenate " ++ kind ++ " (not " ++ quote_mark
               ++ type_name b ++ quote_mark ++ ") to " ++ kind)%string) in
  match a, b with
  | PStr x, PStr y => Done (PStr (x ++ y)%string)
  | PStr _, _ => concatenate "str"
  | PList x, PList y => Done (PList (x ++ y))
  | PList _, _ => concatenate "list"
  | _, _ =>
      match num a, num b with
      | Some (inl x), Some (inl y) => Done (PInt (x + y))
      | Some (inl x), Some (inr g) =>
          match float_of_Z x with
          | Some f => Done (PFloat (PrimFloat.add f g))
          | None => Failed (error_of int_too_large)
          end
      | Some (inr f), Some (inl y) =>
          match float_of_Z y with
          | Some g => Done (PFloat (PrimFloat.add f g))
          | None => Failed (error_of int_too_large)
          end
      | Some (inr f), Some (inr g) => Done (PFloat (PrimFloat.add f g))
      | _, _ => unsupported
      end
  end.

(** [v > n], [v < n] and [v >= n] for an integer literal [n]
    (0 <= n < 2^53). *)
Definition py_compare_int (op : string) (on_int : Z -> Z -> bool)
    (on_float : float -> float -> bool) (v : pyval) (n : Z) : result bool :=
  match v with
  | PInt z => Done (on_int z n)
  | PBool b => Done (on_int (Z.b2z b) n)
  | PFloat f => Done (on_float f (PrimFloat.of_uint63 (Uint63.of_Z n)))
  | _ => Failed (mk_error "TypeError"
                   ("'" ++ op ++ "' not supported between instances of '"
                    ++ type_name v ++ "' and 'int'")%string)
  end.



Definition py_ge_int : pyval -> Z -> result bool :=
  py_compare_int ">=" Z.geb (fun f g => PrimFloat.leb g f).

(** The part [{v:,}] of an f-string: only numbers take the format. *)
Definition thousands (v : pyval) : result part :=
  match v with
  | PInt _ | PBool _ | PFloat _ => Done (Thousands v)
  | PStr _ => Failed (mk_error "ValueError" "Cannot specify ',' with 's'.")
  | _ => Failed (mk_error "TypeError"
                   ("unsupported format string passed to " ++ type_name v
                    ++ ".__format__")%string)
  end.

(** [v.title()] inside an f-string. *)
Definition titled (v : pyval) : result part :=
  match v with
  | PStr s => Done (Titled s)
  | _ => Failed (mk_error "AttributeError"
                   ("'" ++ type_name v
                    ++ "' object has no attribute 'title'")%string)
  end.

(* ------------------------------------------------------------------ *)
(** *** cli/commands/batch.py: load_prompts *)

Module Batch.
Section WithWorld.
Local Open Scope cmd_scope.

Variable w : world.

Definition load_prompts (input_file : string) : Cmd pyval :=
  if negb (path_exists w input_file) then
    fail (mk_error "FileNotFoundError"
            ("Input file not found: " ++ input_file)%string)
  else if String.eqb (str_lower w (path_suffix w input_file)) ".json" then
    text <- lift_result (read_text w input_file) ;;
    data <- lift_result (json_loads w text) ;;
    match data with
    | PList _ => done data
    | PDict d =>
        match dict_get d "prompts" with
        | Some prompts => done prompts
        | None =>
            fail (mk_error "ValueError"
                    "JSON file must contain a list or have a 'prompts' key")
        end
    | _ =>
        fail (mk_error "ValueError"
                "JSON file must contain a list or have a 'prompts' key")
    end
  else
    text <- lift_result (read_text w input_file) ;;
    done (PList (map PStr
                   (filter nonempty
                      (map (strip (isspace w)) (file_lines text))))).

End WithWorld.
End Batch.

(** The environment of [process] hands over what the loader returns for
    this input file, when that is a list of strings. *)
Definition environment_loads (env : environment) (w : world)
    (input_file : string) : Prop :=
  forall prompts,
    fst (Batch.load_prompts w input_file) = Done (PList (map PStr prompts)) ->
    load_prompts env input_file = Ok prompts.

(* ------------------------------------------------------------------ *)
(** *** cli/client.py: get_usage_stats, health_check *)

Module Client.
Section WithWorld.
Local Open Scope cmd_scope.

Variable w : world.

Definition requests_get (g : usage_request) : Cmd response :=
  tell (Got g) ;; lift_result (http_get w g).

Definition get_usage_stats (self : GenAIClient) (user_id days : pyval)
    : Cmd dict :=
  let user_id :=
    if truthy user_id then user_id
    else dict_get_default (config self) "default_user_id" (PStr "cli_user") in
  let params : dict :=
    if negb (py_eq_int days 7) then [("days", days)] else [] in
  try_catch
    (response <- requests_get (mk_usage_request (base_url self) user_id
                                 params (timeout self)) ;;
     if (status_code response =? 200)%Z then
       data <- lift_result (result_of (resp_json response)) ;;
       done [ ("success", PBool true);
              ("data", data);
              ("status_code", PInt (status_code response)) ]
     else
       error_data <- (if String.eqb (resp_content response) EmptyString
                      then done (PDict [])
                      else lift_result (result_of (resp_json response))) ;;
       err <- run (py_get error_data "error"
                     (PStr "Could not fetch usage statistics")) ;;
       done [ ("success", PBool false);
              ("error", err);
              ("status_code", PInt (status_code response)) ])
    (fun e =>
       done [ ("success", PBool false);
              ("error", PStr ("Error fetching stats: " ++ error_text e)%string);
              ("status_code", PInt 500) ]).

Definition health_check (self : GenAIClient) : Cmd pyval :=
  try_catch
    (result <- run (generate_text (net w) self "test"
                      [("max_tokens", PInt 10)]) ;;
     run (dict_item result "success"))
    (fun _ => done (PBool false)).

End WithWorld.
End Client.

(* ------------------------------------------------------------------ *)
(** *** cli/config.py: CLIConfig *)

Module CLIConfig.

(** [get], [set] and [display] on the dictionary the object holds. *)
Definition get (config : dict) (key : string) (default : pyval) : pyval :=
  dict_get_default config key default.

Definition set (config : dict) (key : string) (value : pyval) : dict :=
  dict_set config key value.

Definition display (config : dict) : dict := config.

(** [save_config]: a failure is printed, not raised. *)
Definition save_config (w : world) (config : dict) : Cmd unit :=
  match save_error w with
  | None => tell (Saved config)
  | Some msg => say [Str "Error saving config: "; Str msg]
  end.

End CLIConfig.

(* ------------------------------------------------------------------ *)
(** *** cli/commands/config.py *)

Module ConfigCmd.
Section WithWorld.
Local Open Scope cmd_scope.

Variable w : world.

Definition valid_keys : list string :=
  [ "api_endpoint"; "default_user_id"; "default_max_tokens";
    "default_temperature"; "output_format"; "log_level"; "timeout" ].

Definition member (s : string) (l : list string) : bool :=
  existsb (String.eqb s) l.

(** The loop of [show] over the items of the configuration. *)
Fixpoint show_items (items : dict) : Cmd unit :=
  match items with
  | [] => done tt
  | (key, value) :: rest =>
      let formatted_key := Titled (replace_underscores key) in
      (if String.eqb key "api_endpoint" then
         say [Str "📡 "; formatted_key; Str ": "; Obj value]
       else if String.eqb key "default_user_id" then
         say [Str "👤 "; formatted_key; Str ": "; Obj value]
       else if contains "token" key then
         value_part <- lift_result (thousands value) ;;
         say [Str "🔢 "; formatted_key; Str ": "; value_part]
       else if String.eqb key "timeout" then
         say [Str "⏱️  "; formatted_key; Str ": "; Obj value; Str "s"]
       else
         say [Str "   "; formatted_key; Str ": "; Obj value]) ;;
      show_items rest
  end.

(** [show]. *)
Definition show (config : dict) : Cmd unit :=
  say [Str "🔧 Current Configuration"] ;;
  say [Str (repeat_char "="%char 50)] ;;
  show_items (CLIConfig.display config).

(** What [set] has decided about the value: store it, or return early. *)
Inductive checked : Type :=
| Accept (value : pyval)
| Reject.

(** The conversion and the range checks of [set], by key. *)
Definition check_value (key value : string) : Cmd checked :=
  if member key ["default_max_tokens"; "timeout"] then
    n <- lift_result (parse_int w value) ;;
    if String.eqb key "default_max_tokens" && ((n <? 1)%Z || (4000 <? n)%Z)
    then say_err [Str "❌ Error: max_tokens must be between 1 and 4000"] ;;
         done Reject
    else if String.eqb key "timeout" && ((n <? 1)%Z || (300 <? n)%Z)
    then say_err [Str "❌ Error: timeout must be between 1 and 300 seconds"] ;;
         done Reject
    else done (Accept (PInt n))
  else if member key ["default_temperature"] then
    f <- lift_result (parse_float w value) ;;
    if PrimFloat.ltb f 0%float || PrimFloat.ltb 1%float f
    then say_err [Str "❌ Error: temperature must be between 0.0 and 1.0"] ;;
         done Reject
    else done (Accept (PFloat f))
  else if String.eqb key "output_format" then
    if negb (member value ["text"; "json"])
    then say_err [Str "❌ Error: output_format must be one of: text, json"] ;;
         done Reject
    else done (Accept (PStr value))
  else if String.eqb key "log_level" then
    if negb (member (str_upper w value) ["DEBUG"; "INFO"; "WARNING"; "ERROR"])
    then say_err [Str "❌ Error: log_level must be one of: DEBUG, INFO, WARNING, ERROR"] ;;
         done Reject
    else done (Accept (PStr (str_upper w value)))
  else done (Accept (PStr value)).

(** The checks of [set] on an API endpoint.  Only a string reaches them:
    the key [api_endpoint] takes none of the conversions. *)
Definition check_endpoint (value : string) : Cmd bool :=
  if negb (String.prefix "https://" value) then
    say_err [Str "❌ Error: api_endpoint must start with https://"] ;;
    done false
  else if negb (contains "amazonaws.com" value || contains "localhost" value)
  then
    say [Str "⚠️  Warning: API endpoint doesn't look like an AWS API Gateway URL"] ;;
    go_on <- lift_result (confirm w "Continue anyway?") ;;
    done go_on
  else done true.

(** [set]: the configuration after the command. *)
Definition set (config : dict) (key value : string) : Cmd dict :=
  go_on <- (if negb (member key valid_keys) then
              say [Str "⚠️  Warning: '"; Str key;
                   Str "' is not a recognized configuration key"] ;;
              say [Str "Valid keys: "; Str (join ", " valid_keys)] ;;
              lift_result (confirm w "Continue anyway?")
            else done true) ;;
  if negb go_on then done config else
  c <- check_value key value ;;
  match c with
  | Reject => done config
  | Accept v =>
      go_on <- (if String.eqb key "api_endpoint"
                then check_endpoint value else done true) ;;
      if negb go_on then done config else
      let config := CLIConfig.set config key v in
      CLIConfig.save_config w config ;;
      say [Str "✅ Configuration updated: "; Str key; Str " = "; Obj v] ;;
      done config
  end.

(** [get]. *)
Definition get (config : dict) (key : string) : Cmd unit :=
  match CLIConfig.get config key PNone with
  | PNone =>
      say_err [Str "❌ Configuration key '"; Str key; Str "' not found"] ;;
      say [Str "Use 'genai config show' to see all available keys"]
  | value => say [Str key; Str ": "; Obj value]
  end.

Definition defaults : dict :=
  [ ("api_endpoint",
      PStr "https://2i9yquihz5.execute-api.us-east-2.amazonaws.com/Prod");
    ("default_user_id", PStr "cli_user");
    ("default_max_tokens", PInt 1000);
    ("default_temperature", PFloat 0.7%float);
    ("output_format", PStr "text");
    ("log_level", PStr "INFO");
    ("timeout", PInt 30) ].

(** [reset]: the configuration after the command. *)
Definition reset (config : dict) : Cmd dict :=
  let config :=
    fold_left (fun c kv => CLIConfig.set c (fst kv) (snd kv)) defaults config in
  CLIConfig.save_config w config ;;
  say [Str "Configuration reset to defaults"] ;;
  say [Str "Use 'genai config test' to verify the connection"] ;;
  done config.

(** [test]. *)
Definition test (config : dict) : Cmd unit :=
  let client := GenAIClient_init config in
  let api_endpoint := CLIConfig.get config "api_endpoint" PNone in
  say [Str "🔍 Testing connection to: "; Obj api_endpoint] ;;
  say [Str "📡 Sending test request..."] ;;
  result <- run (generate_text (net w) client "Hello, this is a test message"
                   [("max_tokens", PInt 50)]) ;;
  if dict_truthy result "success" then
    say [Str "✅ Connection successful!"] ;;
    data <- run (dict_item result "data") ;;
    metadata <- run (py_get data "metadata" (PDict [])) ;;
    mock_mode <- run (py_get metadata "mock_mode" PNone) ;;
    (if truthy mock_mode then
       say [Str "ℹ️ API is running in mock mode"] ;;
       say [Str "💡 Enable Bedrock Claude 4 Sonnet access for real AI responses"]
     else say [Str "🤖 Real AI responses are enabled"]) ;;
    response_time <- run (py_get metadata "response_time_ms" (PInt 0)) ;;
    say [Str "⚡ Response time: "; Obj response_time; Str "ms"]
  else
    say_err [Str "❌ Connection failed"] ;;
    say [Str "Error: ";
         Obj (dict_get_default result "error" (PStr "Unknown error"))] ;;
    let status_code := dict_get_default result "status_code" (PInt 0) in
    (if py_eq_int status_code 403 then
       say [Str "💡 This might be an authentication or permission issue"]
     else if py_eq_int status_code 404 then
       say [Str "💡 Check if your API endpoint URL is correct"]
     else
       server_side <- lift_result (py_ge_int status_code 500) ;;
       if server_side then
         say [Str "💡 This appears to be a server-side issue"]
       else done tt) ;;
    say [Str "
🔧 Troubleshooting:"] ;;
    say [Str "1. Verify your API endpoint with 'genai config show'"] ;;
    say [Str "2. Check if your AWS GenAI Bot service is deployed"] ;;
    say [Str "3. Ensure the API Gateway is properly configured"].

(** [init]: the configuration after the command. *)
Definition init (config : dict) : Cmd dict :=
  say [Str "🚀 Welcome to AWS GenAI Bot CLI Setup!"] ;;
  say [Str "This will help you configure the CLI to work with your API."] ;;
  say [] ;;
  let current_endpoint := CLIConfig.get config "api_endpoint" PNone in
  say [Str "Current API endpoint: "; Obj current_endpoint] ;;
  change <- lift_result
              (confirm w "Do you want to change the API endpoint?") ;;
  config <-
    (if change then
       new_endpoint <- lift_result
                         (ask w "Enter your API Gateway endpoint"
                            current_endpoint) ;;
       done (CLIConfig.set config "api_endpoint" new_endpoint)
     else done config) ;;
  let current_user := CLIConfig.get config "default_user_id" PNone in
  new_user <- lift_result (ask w "Enter your default user ID" current_user) ;;
  let config := CLIConfig.set config "default_user_id" new_user in
  custom <- lift_result
              (confirm w "Do you want to set custom default parameters?") ;;
  config <-
    (if custom then
       max_tokens <- lift_result
                       (ask w "Default max tokens"
                          (CLIConfig.get config "default_max_tokens" PNone)) ;;
       let config := CLIConfig.set config "default_max_tokens" max_tokens in
       temperature <- lift_result
                        (ask w "Default temperature (0.0-1.0)"
                           (CLIConfig.get config "default_temperature"
                              PNone)) ;;
       done (CLIConfig.set config "default_temperature" temperature)
     else done config) ;;
  CLIConfig.save_config w config ;;
  say [Str "
Configuration saved!"] ;;
  now <- lift_result (confirm w "Test the connection now?") ;;
  if now then
    say [] ;;
    test config ;;
    done config
  else done config.

End WithWorld.
End ConfigCmd.

(* ------------------------------------------------------------------ *)
(** *** cli/commands/generate.py: text, file *)

Module Generate.
Section WithWorld.
Local Open Scope cmd_scope.

Variable w : world.

(** [for key, value in metadata.items(): ...] of [text]. *)
Definition say_metadata (metadata : pyval) : Cmd unit :=
  match metadata with
  | PDict items =>
      fold_left
        (fun (so_far : Cmd unit) (kv : string * pyval) =>
           so_far ;;
           say [Titled (replace_underscores (fst kv)); Str ": ";
                Obj (snd kv)])
        items (done tt)
  | _ => fail (mk_error "AttributeError"
                 ("'" ++ type_name metadata
                  ++ "' object has no attribute 'items'")%string)
  end.

(** [text].  [save] is the path given with [--save], if any. *)
Definition text (config : dict) (prompt : string)
    (max_tokens temperature user_id : pyval) (output_format : string)
    (save : option string) : Cmd unit :=
  let client := GenAIClient_init config in
  let params := build_params max_tokens temperature user_id in
  try_catch
    (result <- run (generate_text (net w) client prompt params) ;;
     violation <-
       (if negb (dict_truthy result "success")
           && py_eq_int (dict_get_default result "status_code" PNone) 400
        then
          let details := dict_get_default result "details" (PDict []) in
          reason <- run (py_get details "reason" PNone) ;;
          if py_eq_str reason "Content policy violation" then
            say_err [Str "❌ Content Policy Violation"] ;;
            severity <- run (py_get details "severity" (PStr "Unknown")) ;;
            say [Str "Severity: "; Obj severity] ;;
            say [Str "Message: ";
                 Obj (dict_get_default result "message"
                        (PStr "No additional details"))] ;;
            done true
          else done false
        else done false) ;;
     if violation then done tt
     else if dict_truthy result "success" then
       data <- run (dict_item result "data") ;;
       generated_text <- run (py_item data "generated_text") ;;
       metadata <- run (py_get data "metadata" (PDict [])) ;;
       (if String.eqb output_format "json" then say [Dumps data]
        else
          say [Obj generated_text] ;;
          if truthy metadata then
            say [Str "
--- Response Details ---"] ;;
            say_metadata metadata
          else done tt) ;;
       match save with
       | Some file =>
           if nonempty file then
             try_catch
               (run (open_w (net w) file) ;;
                (if String.eqb output_format "json"
                 then run (json_dump (net w) file data)
                 else run (file_write (net w) file generated_text)) ;;
                say [Str "
✅ Generated text saved to "; Str file])
               (fun e => say_err [Str "❌ Error saving file: ";
                                  Str (error_text e)])
           else done tt
       | None => done tt
       end
     else
       say_err [Str "❌ Error: ";
                Obj (dict_get_default result "error" (PStr "Unknown error"))] ;;
       let message := dict_get_default result "message" PNone in
       if truthy message then say [Str "💡 "; Obj message] else done tt)
    (fun e => say_err [Str "❌ Error: "; Str (error_text e)]).

Definition output_file (output_path : path) (i : nat) : path :=
  path_join output_path ("output_" ++ format_03d i ++ ".txt")%string.

(** The loop of [file] over the prompts from position [i] on, with the two
    counters. *)
Fixpoint file_loop (client : GenAIClient) (params : dict) (output_path : path)
    (total : nat) (prompts : list string) (i : nat) (successful failed : Z)
    : Cmd (Z * Z) :=
  match prompts with
  | [] => done (successful, failed)
  | prompt :: rest =>
      say [Str "🔄 Processing prompt "; Obj (PInt (Z.of_nat i)); Str "/";
           Obj (PInt (Z.of_nat total))] ;;
      result <- run (generate_text (net w) client prompt params) ;;
      counts <-
        (if dict_truthy result "success" then
           try_catch
             (run (open_w (net w) (output_file output_path i)) ;;
              data <- run (dict_item result "data") ;;
              generated_text <- run (py_item data "generated_text") ;;
              run (file_write (net w) (output_file output_path i)
                     generated_text) ;;
              say [Str "  ✅ Saved to "; Str (output_file output_path i)] ;;
              done ((successful + 1)%Z, failed))
             (fun e =>
                say [Str "  ❌ Error saving: "; Str (error_text e)] ;;
                done (successful, (failed + 1)%Z))
         else
           say [Str "  ❌ Generation failed: ";
                Obj (dict_get_default result "error" PNone)] ;;
           done (successful, (failed + 1)%Z)) ;;
      file_loop client params output_path total rest (S i)
                (fst counts) (snd counts)
  end.

(** The prompts of a text: its lines, stripped, the empty ones left out. *)
Definition prompts_of_text (content : string) : list string :=
  filter nonempty (map (strip (isspace w)) (file_lines content)).

(** [file]. *)
Definition file (config : dict) (file : string) (output_dir : string)
    (max_tokens temperature user_id : pyval) : Cmd unit :=
  let client := GenAIClient_init config in
  let output_path := Path output_dir in
  run (mkdir (net w) output_path) ;;
  content <- lift_result (read_text w file) ;;
  let prompts := prompts_of_text content in
  say [Str "📄 Processing "; Obj (PInt (Z.of_nat (List.length prompts)));
       Str " prompts from "; Str file] ;;
  let params := build_params max_tokens temperature user_id in
  counts <- file_loop client params output_path (List.length prompts)
              prompts 1 0 0 ;;
  say [Str "
📊 File processing completed!"] ;;
  say [Str "✅ Successful: "; Obj (PInt (fst counts))] ;;
  say [Str "❌ Failed: "; Obj (PInt (snd counts))] ;;
  say [Str "📁 Results saved to: "; Str output_dir].

End WithWorld.
End Generate.

(* ------------------------------------------------------------------ *)
(** *** cli/main.py: quick, status *)

Module Main.
Section WithWorld.
Local Open Scope cmd_scope.

Variable w : world.

(** [quick]. *)
Definition quick (config : dict) (prompt : string) : Cmd unit :=
  let client := GenAIClient_init config in
  result <- run (generate_text (net w) client prompt []) ;;
  if dict_truthy result "success" then
    data <- run (dict_item result "data") ;;
    generated_text <- run (py_item data "generated_text") ;;
    say [Obj generated_text] ;;
    data <- run (dict_item result "data") ;;
    metadata <- run (py_get data "metadata" (PDict [])) ;;
    mock_mode <- run (py_get metadata "mock_mode" PNone) ;;
    if truthy mock_mode then
      say [Str "
ℹ️  (Mock mode - enable Bedrock for real AI responses)"]
    else done tt
  else
    say_err [Str "Error: "; Obj (dict_get_default result "error" PNone)].

(** [status]. *)
Definition status (config : dict) : Cmd unit :=
  let client := GenAIClient_init config in
  say [Str "🤖 AWS GenAI Bot CLI Status"] ;;
  say [Str (repeat_char "="%char 40)] ;;
  let api_endpoint := CLIConfig.get config "api_endpoint" PNone in
  let user_id := CLIConfig.get config "default_user_id" PNone in
  say [Str "API Endpoint: "; Obj api_endpoint] ;;
  say [Str "User ID: "; Obj user_id] ;;
  say [Str "
Testing API connection..."] ;;
  healthy <- Client.health_check w client ;;
  if truthy healthy then
    say [Str "API is accessible"] ;;
    stats_result <- Client.get_usage_stats w client user_id (PInt 7) ;;
    if dict_truthy stats_result "success" then
      stats <- run (dict_item stats_result "data") ;;
      requests <- run (py_get stats "total_requests" (PInt 0)) ;;
      say [Str "Requests (7 days): "; Obj requests] ;;
      input_tokens <- run (py_get stats "total_input_tokens" (PInt 0)) ;;
      output_tokens <- run (py_get stats "total_output_tokens" (PInt 0)) ;;
      tokens <- lift_result (py_plus input_tokens output_tokens) ;;
      say [Str "Total tokens: "; Obj tokens]
    else done tt
  else
    say [Str "API connection failed"] ;;
    say [Str "Run 'genai config test' for detailed diagnostics"].

End WithWorld.
End Main.

(* ------------------------------------------------------------------ *)
(** *** cli/commands/usage.py: report, generate_usage_report *)


(** What [for x in v] goes through. *)
Definition iterate (v : pyval) : result (list pyval) :=
  match v with
  | PList l => Done l
  | PStr s => Done (map (fun c => PStr (String c EmptyString))
                        (list_ascii_of_string s))
  | PDict d => Done (map (fun kv => PStr (fst kv)) d)
  | _ => Failed (mk_error "TypeError"
                   ("'" ++ type_name v ++ "' object is not iterable")%string)
  end.

Module Usage.
Section WithWorld.
Local Open Scope cmd_scope.

Variable w : world.

(** A text under construction and the exception that may interrupt it. *)
Definition Text (A : Type) : Type := result A.












(** The lines of the daily breakdown of [stats]. *)
Fixpoint say_days (days : list pyval) : Cmd unit :=
  match days with
  | [] => done tt
  | day_stats :: rest =>
      date <- run (py_item day_stats "date") ;;
      requests <- run (py_item day_stats "requests") ;;
      tokens <- run (py_item day_stats "tokens") ;;
      tokens_part <- lift_result (thousands tokens) ;;
      say [Str "  "; Obj date; Str ": "; Obj requests; Str " requests, ";
           tokens_part; Str " tokens"] ;;
      say_days rest
  end.

(** [stats]. *)
Definition stats (config : dict) (user_id : pyval) (days : Z)
    (output_format : string) : Cmd unit :=
  let client := GenAIClient_init config in
  let target_user_id :=
    if truthy user_id then user_id
    else CLIConfig.get config "default_user_id" (PStr "cli_user") in
  try_catch
    (result <- Client.get_usage_stats w client target_user_id (PInt days) ;;
     if dict_truthy result "success" then
       stats <- run (dict_item result "data") ;;
       if String.eqb output_format "json" then say [Dumps stats]
       else
         say [Str "Usage Statistics for "; Obj target_user_id] ;;
         say [Str (repeat_char "="%char 50)] ;;
         period <- run (py_get stats "period_days" (PStr "N/A")) ;;
         say [Str "Period: "; Obj period; Str " days"] ;;
         requests <- run (py_get stats "total_requests" (PInt 0)) ;;
         requests_part <- lift_result (thousands requests) ;;
         say [Str "Total Requests: "; requests_part] ;;
         input <- run (py_get stats "total_input_tokens" (PInt 0)) ;;
         input_part <- lift_result (thousands input) ;;
         say [Str "Total Input Tokens: "; input_part] ;;
         output <- run (py_get stats "total_output_tokens" (PInt 0)) ;;
         output_part <- lift_result (thousands output) ;;
         say [Str "Total Output Tokens: "; output_part] ;;
         time <- run (py_get stats "average_response_time_ms" (PInt 0)) ;;
         say [Str "Average Response Time: "; Obj time; Str "ms"] ;;
         events <- run (py_get stats "content_filter_events" (PInt 0)) ;;
         say [Str "Content Filter Events: "; Obj events] ;;
         status <- run (py_get stats "status" (PStr "Unknown")) ;;
         say [Str "Status: "; Obj status] ;;
         last <- run (py_get stats "last_request" (PStr "N/A")) ;;
         say [Str "Last Request: "; Obj last] ;;
         by_day <- run (py_get stats "requests_by_day" (PList [])) ;;
         if truthy by_day then
           say [Str "
Daily Breakdown:"] ;;
           days <- lift_result (iterate by_day) ;;
           say_days days
         else done tt
     else
       say_err [Str "❌ Error fetching usage stats: ";
                Obj (dict_get_default result "error" PNone)])
    (fun e => say_err [Str "❌ Error: "; Str (error_text e)]).

(** [summary]. *)
Definition summary (config : dict) (user_id : pyval) : Cmd unit :=
  let client := GenAIClient_init config in
  let target_user_id :=
    if truthy user_id then user_id
    else CLIConfig.get config "default_user_id" (PStr "cli_user") in
  try_catch
    (result <- Client.get_usage_stats w client target_user_id (PInt 7) ;;
     if dict_truthy result "success" then
       stats <- run (dict_item result "data") ;;
       say [Str "📊 Quick Summary for "; Obj target_user_id] ;;
       say [Str (repeat_char "="%char 40)] ;;
       requests <- run (py_get stats "total_requests" (PInt 0)) ;;
       requests_part <- lift_result (thousands requests) ;;
       say [Str "🔢 Total Requests (7 days): "; requests_part] ;;
       input <- run (py_get stats "total_input_tokens" (PInt 0)) ;;
       input_part <- lift_result (thousands input) ;;
       say [Str "📝 Input Tokens: "; input_part] ;;
       output <- run (py_get stats "total_output_tokens" (PInt 0)) ;;
       output_part <- lift_result (thousands output) ;;
       say [Str "📤 Output Tokens: "; output_part] ;;
       time <- run (py_get stats "average_response_time_ms" (PInt 0)) ;;
       say [Str "⚡ Avg Response Time: "; Obj time; Str "ms"] ;;
       events <- run (py_get stats "content_filter_events" (PInt 0)) ;;
       say [Str "🛡️  Filter Events: "; Obj events] ;;
       last <- run (py_get stats "last_request" (PStr "N/A")) ;;
       say [Str "📅 Last Request: "; Obj last] ;;
       status <- run (py_get stats "status" (PStr "unknown")) ;;
       let status_emoji :=
         if py_eq_str status "active" then "✅" else "⚠️" in
       status_part <- lift_result (titled status) ;;
       say [Str status_emoji; Str " Status: "; status_part]
     else
       say_err [Str "❌ Error: ";
                Obj (dict_get_default result "error" PNone)])
    (fun e => say_err [Str "❌ Error: "; Str (error_text e)]).

End WithWorld.
End Usage.

(* ------------------------------------------------------------------ *)
(** *** Vocabulary and sample worlds for the commands *)

(** The request [get_usage_stats] sends. *)
Definition usage_request_of (self : GenAIClient) (user_id days : pyval)
    : usage_request :=
  mk_usage_request (base_url self)
    (if truthy user_id then user_id
     else dict_get_default (config self) "default_user_id" (PStr "cli_user"))
    (if negb (py_eq_int days 7) then [("days", days)] else [])
    (timeout self).

(** The record [get_usage_stats] returns. *)
Definition usage_result (w : world) (self : GenAIClient)
    (user_id days : pyval) : dict :=
  match fst (Client.get_usage_stats w self user_id days) with
  | Done r => r
  | Failed _ => []
  end.

(** The test request of [health_check]. *)
Definition health_request (self : GenAIClient) : request :=
  request_of self "test" [("max_tokens", PInt 10)].

Definition posts (t : list event) : list request :=
  flat_map (fun ev => match ev with Posted r => [r] | _ => [] end) t.

Definition gets (t : list event) : list usage_request :=
  flat_map (fun ev => match ev with Got g => [g] | _ => [] end) t.

Definition files (t : list event) : list fs_event :=
  flat_map (fun ev => match ev with Filed e => [e] | _ => [] end) t.

Definition saves (t : list event) : list dict :=
  flat_map (fun ev => match ev with Saved c => [c] | _ => [] end) t.

Definition printed (to_err : bool) (t : list event) : list (list part) :=
  flat_map (fun ev => match ev with
                      | Echoed e text => if Bool.eqb e to_err then [text] else []
                      | _ => []
                      end) t.

(** The paths that received a text or a document. *)
Definition written (l : list fs_event) : list path :=
  flat_map (fun e => match e with Wrote p _ => [p] | _ => [] end) l.

(** A trace that sends nothing, touches no file and writes nothing on the
    error stream. *)
Definition quiet (t : list event) : Prop :=
  posts t = [] /\ files t = [] /\ printed true t = [].

(** White space of the ASCII range, as [str.isspace] has it. *)
Definition ascii_space (c : ascii) : bool :=
  let n := nat_of_ascii c in
  ((9 <=? n) && (n <=? 13) || (28 <=? n) && (n <=? 32))%nat.

Definition usage_reply (g : usage_request) : result response :=
  match get_user g with
  | PStr "nobody" =>
      Done (mk_response 404 "{...}" (Ok (PDict [("error", PStr "No such user")])))
  | PStr "offline" => Failed (mk_error "ConnectionError" "Connection refused")
  | _ =>
      Done (mk_response 200 "{...}"
              (Ok (PDict [("total_requests", PInt 1200);
                          ("total_input_tokens", PInt 3000);
                          ("total_output_tokens", PInt 4500);
                          ("status", PStr "active")])))
  end.

Definition sample_text : string :=
  "  tell a story  
   
write a haiku
".

Definition sample_world : world :=
  mk_world sample_env usage_reply
    (fun p => negb (String.eqb p "missing.txt"))
    (fun p => if String.eqb p "prompts.json" then ".json" else ".txt")
    (fun p => if String.eqb p "blank.txt" then Done "  
	
" else Done sample_text)
    (fun _ => Done (PDict [("prompts", PList [PStr "from json"; PStr EmptyString])]))
    ascii_space
    (fun s => s) (fun s => if String.eqb s "debug" then "DEBUG" else s)
    (fun s => if String.eqb s "1500" then Done 1500%Z
              else if String.eqb s "9000" then Done 9000%Z
              else Failed (mk_error "ValueError"
                             ("invalid literal for int() with base 10: '"
                              ++ s ++ "'")%string))
    (fun s => if String.eqb s "0.8" then Done 0.8%float
              else if String.eqb s "nan" then Done PrimFloat.nan
              else Failed (mk_error "ValueError"
                             ("could not convert string to float: '"
                              ++ s ++ "'")%string))
    (fun question =>
       Done (negb (String.eqb question
                     "Do you want to set custom default parameters?")))
    (fun question default =>
       if String.eqb question "Enter your API Gateway endpoint"
       then Done (PStr "http://example.org/api")
       else Done default)
    None.

(** The sample world behind another backend. *)
Definition with_backend (backend : request -> outcome response) : world :=
  mk_world
    (mk_env backend (fun _ => Ok []) no_fs_error no_fs_error no_fs_error
       clock_limit)
    (http_get sample_world) (path_exists sample_world)
    (path_suffix sample_world) (read_text sample_world)
    (json_loads sample_world) (isspace sample_world)
    (str_lower sample_world) (str_upper sample_world)
    (parse_int sample_world) (parse_float sample_world)
    (confirm sample_world) (ask sample_world) (save_error sample_world).

(** A machine without network, and a backend that answers 200 with an
    empty document. *)
Definition offline_world : world := with_backend (fun _ => Raise ConnectionError).

Definition odd_world : world :=
  with_backend (fun _ => Ok (mk_response 200 "{}" (Ok (PDict [])))).
(* ================================================================== *)
(** ** The monad *)
(* ================================================================== *)

Lemma fst_bind {A B} (c : M A) (k : A -> M B) :
  fst (bind c k)
  = match fst c with Ok a => fst (k a) | Raise e => Raise e end.
Proof.
  destruct c as [[a | e] l]; simpl; [ destruct (k a) | ]; reflexivity.
Qed.

Lemma snd_bind {A B} (c : M A) (k : A -> M B) :
  snd (bind c k)
  = match fst c with
    | Ok a => log_app (snd c) (snd (k a))
    | Raise _ => snd c
    end.
Proof.
  destruct c as [[a | e] l]; simpl; [ destruct (k a) | ]; reflexivity.
Qed.

Lemma log_app_empty_l (l : log) : log_app log_empty l = l.
Proof. destruct l; reflexivity. Qed.

Lemma log_app_empty_r (l : log) : log_app l log_empty = l.
Proof. destruct l; unfold log_app; simpl; rewrite !app_nil_r; reflexivity. Qed.

Lemma log_app_assoc (a b c : log) :
  log_app a (log_app b c) = log_app (log_app a b) c.
Proof. unfold log_app; simpl; rewrite !app_assoc; reflexivity. Qed.

Lemma bind_ok {A B} (a : A) (l : log) (k : A -> M B) :
  bind (Ok a, l) k = (fst (k a), log_app l (snd (k a))).
Proof. simpl; destruct (k a); reflexivity. Qed.

(* ================================================================== *)
(** ** The transport client *)
(* ================================================================== *)

(** Whatever [requests.post] answers, [generate_text] returns a record and
    has sent exactly one request. *)
Lemma generate_text_returns (env : environment) (self : GenAIClient)
    (prompt : string) (kwargs : dict) :
  exists r,
    generate_text env self prompt kwargs
    = (Ok r, mk_log [request_of self prompt kwargs] [] [] []).
Proof.
  unfold generate_text, generate_text_try, requests_post, response_json.
  fold (request_of self prompt kwargs).
  destruct (http_post env (request_of self prompt kwargs)) as [resp | e];
    simpl.
  - destruct (status_code resp =? 200)%Z.
    + destruct (resp_json resp) as [v | e]; simpl;
        [ | destruct e ]; simpl; eauto.
    + destruct (status_code resp =? 400)%Z.
      * destruct (resp_json resp) as [v | e]; simpl;
          [ destruct v | destruct e ]; simpl; eauto.
      * destruct (String.eqb (resp_content resp) EmptyString); simpl; eauto.
        destruct (resp_json resp) as [v | e]; simpl;
          [ destruct v | destruct e ]; simpl; eauto.
  - destruct e; simpl; eauto.
Qed.

Lemma generate_text_eq (env : environment) (self : GenAIClient)
    (prompt : string) (kwargs : dict) :
  generate_text env self prompt kwargs
  = (Ok (transport_result env self prompt kwargs),
     mk_log [request_of self prompt kwargs] [] [] []).
Proof.
  destruct (generate_text_returns env self prompt kwargs) as [r Hr].
  unfold transport_result; rewrite Hr; reflexivity.
Qed.

Ltac split_all := repeat match goal with |- _ /\ _ => split end.

Ltac failure_shape :=
  unfold uniform_failure; simpl; repeat split; eauto.

Ltac transport_cases env self prompt kwargs :=
  unfold transport_result, generate_text, generate_text_try, requests_post,
    response_json;
  fold (request_of self prompt kwargs);
  destruct (http_post env (request_of self prompt kwargs)) as [resp | e];
  simpl.

(** C6.  [generate_text] never raises and posts exactly one request: a
    timeout gives the 408 record, a connection failure the 503 record, an
    undecodable body the 500 record, any other exception and any status
    other than 200 a record with [success] false, an error and a status
    code; a 200 answer with a decodable body gives [success] true with the
    parsed payload. *)
Theorem generate_text_uniform_result (env : environment) (self : GenAIClient)
    (prompt : string) (kwargs : dict) :
  let req := request_of self prompt kwargs in
  let r := transport_result env self prompt kwargs in
  generate_text env self prompt kwargs = (Ok r, mk_log [req] [] [] [])
  /\ List.length (requests (snd (generate_text env self prompt kwargs))) <= 1
  /\ (http_post env req = Raise Timeout ->
       r = [ ("success", PBool false);
             ("error", PStr "Request timeout - API took too long to respond");
             ("status_code", PInt 408) ])
  /\ (http_post env req = Raise ConnectionError ->
       r = [ ("success", PBool false);
             ("error", PStr "Connection error - Could not reach API");
             ("status_code", PInt 503) ])
  /\ (forall resp msg,
        http_post env req = Ok resp ->
        status_code resp = 200%Z \/ status_code resp = 400%Z
          \/ resp_content resp <> EmptyString ->
        resp_json resp = Raise (JSONDecodeError msg) ->
        r = [ ("success", PBool false);
              ("error", PStr ("Invalid JSON response: " ++ msg)%string);
              ("status_code", PInt 500) ])
  /\ (forall resp,
        http_post env req = Ok resp -> status_code resp <> 200%Z ->
        uniform_failure r)
  /\ (forall e, http_post env req = Raise e -> uniform_failure r)
  /\ (forall resp v,
        http_post env req = Ok resp -> status_code resp = 200%Z ->
        resp_json resp = Ok v ->
        r = [ ("success", PBool true); ("data", v); ("status_code", PInt 200) ])
  /\ (dict_get r "success" = Some (PBool true) \/ uniform_failure r).
Proof.
  intros req r.
  split; [ apply generate_text_eq | ].
  split; [ rewrite generate_text_eq; simpl; lia | ].
  subst req r.
  repeat match goal with |- _ /\ _ => split end.
  - intros H. unfold transport_result, generate_text, generate_text_try,
      requests_post. fold (request_of self prompt kwargs). rewrite H.
    reflexivity.
  - intros H. unfold transport_result, generate_text, generate_text_try,
      requests_post. fold (request_of self prompt kwargs). rewrite H.
    reflexivity.
  - intros resp msg H Hs Hj.
    unfold transport_result, generate_text, generate_text_try, requests_post,
      response_json. fold (request_of self prompt kwargs). rewrite H. simpl.
    destruct (Z.eqb_spec (status_code resp) 200) as [E2 | E2].
    + rewrite Hj. reflexivity.
    + destruct (Z.eqb_spec (status_code resp) 400) as [E4 | E4].
      * rewrite Hj. reflexivity.
      * destruct (String.eqb_spec (resp_content resp) EmptyString) as [Ec | Ec].
        -- destruct Hs as [Hs | [Hs | Hs]]; contradiction.
        -- rewrite Hj. reflexivity.
  - intros resp H Hs.
    unfold transport_result, generate_text, generate_text_try, requests_post,
      response_json. fold (request_of self prompt kwargs). rewrite H. simpl.
    destruct (Z.eqb_spec (status_code resp) 200) as [E2 | E2];
      [ contradiction | ].
    destruct (status_code resp =? 400)%Z.
    + destruct (resp_json resp) as [v | e]; simpl;
        [ destruct v | destruct e ]; failure_shape.
    + destruct (String.eqb (resp_content resp) EmptyString); simpl;
        [ failure_shape | ].
      destruct (resp_json resp) as [v | e]; simpl;
        [ destruct v | destruct e ]; failure_shape.
  - intros e H.
    unfold transport_result, generate_text, generate_text_try, requests_post.
    fold (request_of self prompt kwargs). rewrite H.
    destruct e; failure_shape.
  - intros resp v H Hs Hj.
    unfold transport_result, generate_text, generate_text_try, requests_post,
      response_json. fold (request_of self prompt kwargs). rewrite H. simpl.
    rewrite Hs, Hj. reflexivity.
  - transport_cases env self prompt kwargs.
    + destruct (status_code resp =? 200)%Z.
      * destruct (resp_json resp) as [v | e]; simpl;
          [ left; reflexivity | right; destruct e; failure_shape ].
      * right. destruct (status_code resp =? 400)%Z.
        -- destruct (resp_json resp) as [v | e]; simpl;
             [ destruct v | destruct e ]; failure_shape.
        -- destruct (String.eqb (resp_content resp) EmptyString); simpl;
             [ failure_shape | ].
           destruct (resp_json resp) as [v | e]; simpl;
             [ destruct v | destruct e ]; failure_shape.
    + right. destruct e; failure_shape.
Qed.

(* ================================================================== *)
(** ** One unit of work *)
(* ================================================================== *)

Ltac break_match :=
  match goal with
  | |- context [match ?x with _ => _ end] =>
      lazymatch x with
      | context [match _ with _ => _ end] => fail
      | _ => first [ is_var x; destruct x | destruct x eqn:? ]
      end
  end.

(** Runs [process_single_prompt] symbolically: one goal per path through
    its body, the transport result kept abstract. *)
Ltac run_worker :=
  unfold process_single_prompt;
  rewrite generate_text_eq;
  match goal with
  | |- context [transport_result ?e ?c ?p ?k] =>
      let r := fresh "result" in remember (transport_result e c p k) as r
  end;
  unfold open_w, py_item, file_write, py_get, dict_item;
  simpl;
  repeat (break_match; simpl).

Section Worker.

Variable env : environment.
Variable sch : scheduler.
Variables (prompt : string) (index : nat) (client : GenAIClient).
Variables (max_tokens temperature user_id : pyval) (output_path : path).

Local Abbreviation worker :=
  (process_single_prompt env sch prompt index client max_tokens temperature
     user_id output_path).
Local Abbreviation result :=
  (transport_result env client prompt
     (build_params max_tokens temperature user_id)).

(** A unit posts one request and neither prints nor sleeps. *)
Lemma worker_channels :
  requests (snd worker)
  = [request_of client prompt (build_params max_tokens temperature user_id)]
  /\ echoes (snd worker) = [] /\ sleeps (snd worker) = [].
Proof.
  run_worker; auto.
Qed.

(** What a returned record holds, and what the unit did to the files. *)
Lemma worker_record (rec : dict) :
  fst worker = Ok rec ->
  dict_get rec "index" = Some (PInt (Z.of_nat index))
  /\ dict_get rec "prompt" = Some (PStr (prompt_preview prompt))
  /\ dict_get rec "processing_time" = Some (PFloat (elapsed sch index))
  /\ ((dict_truthy result "success" = true
       /\ dict_get rec "success" = Some (PBool true)
       /\ dict_get rec "content_filtered" = None
       /\ exists text,
            fs_log (snd worker)
            = [Created (item_file output_path index);
               Wrote (item_file output_path index) (Text text)])
      \/ (dict_truthy result "success" = false
          /\ dict_get rec "success" = Some (PBool false)
          /\ (exists b, dict_get rec "content_filtered" = Some (PBool b))
          /\ fs_log (snd worker) = [])).
Proof.
  run_worker; try discriminate.
  all: intros H; injection H as <-; simpl; split_all; auto.
  all: first [ left; split_all; eauto; fail | right; split_all; eauto ].
Qed.

(** The file events of a unit, whether it returns or raises. *)
Lemma worker_fs_log :
  (fs_log (snd worker) = [] /\ dict_truthy result "success" = false)
  \/ (dict_truthy result "success" = true
      /\ (exists e, fst worker = Raise e)
      /\ (fs_log (snd worker) = []
          \/ fs_log (snd worker) = [Created (item_file output_path index)]))
  \/ (dict_truthy result "success" = true
      /\ (exists rec, fst worker = Ok rec)
      /\ exists text,
           fs_log (snd worker)
           = [Created (item_file output_path index);
              Wrote (item_file output_path index) (Text text)]).
Proof.
  run_worker.
  all: first
    [ left; split; reflexivity
    | right; left; split_all; eauto; fail
    | right; right; split_all; eauto ].
Qed.

End Worker.

(** The clock only shows in the [processing_time] field: under two
    schedulers a unit raises the same exception, or returns records that
    agree once the elapsed time is taken out. *)
Lemma worker_time_independent (env : environment) (sch1 sch2 : scheduler)
    (prompt : string) (index : nat) (client : GenAIClient)
    (max_tokens temperature user_id : pyval) (output_path : path) :
  match fst (process_single_prompt env sch1 prompt index client max_tokens
               temperature user_id output_path),
        fst (process_single_prompt env sch2 prompt index client max_tokens
               temperature user_id output_path) with
  | Ok a, Ok b => strip_time a = strip_time b
  | Raise e1, Raise e2 => e1 = e2
  | _, _ => False
  end.
Proof.
  run_worker; reflexivity.
Qed.

(* ================================================================== *)
(** ** Sorting by index *)
(* ================================================================== *)

Lemma insert_nat_in (x y : nat) (l : list nat) :
  In y (insert_nat x l) <-> y = x \/ In y l.
Proof.
  induction l as [| z l IH]; simpl.
  - intuition congruence.
  - destruct (x <=? z)%nat; simpl; rewrite ?IH; intuition congruence.
Qed.

Lemma sort_nat_in (y : nat) (l : list nat) : In y (sort_nat l) <-> In y l.
Proof.
  induction l as [| x l IH]; simpl; [ tauto | ].
  rewrite insert_nat_in, IH. intuition congruence.
Qed.

Lemma insert_nat_sorted (x : nat) (l : list nat) :
  StronglySorted lt l -> ~ In x l -> StronglySorted lt (insert_nat x l).
Proof.
  induction l as [| y l IH]; simpl; intros Hs Hn.
  - constructor; constructor.
  - inversion Hs as [| ? ? Hs' Hall]; subst.
    destruct (Nat.leb_spec x y) as [Hle | Hgt].
    + assert (x <> y) by (intros ->; apply Hn; left; reflexivity).
      assert (x < y) by lia.
      constructor; [ assumption | ].
      constructor; [ assumption | ].
      eapply Forall_impl; [ | exact Hall ]. simpl. intros; lia.
    + constructor.
      * apply IH; tauto.
      * apply Forall_forall. intros z Hz.
        apply insert_nat_in in Hz. destruct Hz as [-> | Hz]; [ lia | ].
        rewrite Forall_forall in Hall. auto.
Qed.

Lemma sort_nat_sorted (l : list nat) :
  NoDup l -> StronglySorted lt (sort_nat l).
Proof.
  induction 1 as [| x l Hn Hd IH]; simpl.
  - constructor.
  - apply insert_nat_sorted; [ assumption | ].
    rewrite sort_nat_in. assumption.
Qed.

(** Two increasing lists with the same elements are the same list. *)
Lemma sorted_unique (l l' : list nat) :
  StronglySorted lt l -> StronglySorted lt l' ->
  (forall x, In x l <-> In x l') -> l = l'.
Proof.
  intros Hs. revert l'.
  induction Hs as [| a l Hs IH Ha]; intros l' Hs' Heq.
  - destruct l' as [| b l']; [ reflexivity | ].
    exfalso. apply (Heq b). left; reflexivity.
  - destruct Hs' as [| b l' Hs' Hb].
    + exfalso. apply (Heq a). left; reflexivity.
    + rewrite Forall_forall in Ha, Hb.
      assert (a = b).
      { destruct (proj1 (Heq a) (or_introl eq_refl)) as [E | Hin]; [ auto | ].
        destruct (proj2 (Heq b) (or_introl eq_refl)) as [E | Hin']; [ auto | ].
        apply Hb in Hin. apply Ha in Hin'. lia. }
      subst b. f_equal. apply IH; [ assumption | ].
      intros x; split; intros Hx.
      * destruct (proj1 (Heq x) (or_intror Hx)) as [E | Hin]; [ | assumption ].
        subst x. apply Ha in Hx. lia.
      * destruct (proj2 (Heq x) (or_intror Hx)) as [E | Hin]; [ | assumption ].
        subst x. apply Hb in Hx. lia.
Qed.

Lemma seq_sorted (n start : nat) : StronglySorted lt (seq start n).
Proof.
  revert start. induction n as [| n IH]; intros start; simpl.
  - constructor.
  - constructor; [ apply IH | ].
    apply Forall_forall. intros x Hx. apply in_seq in Hx. lia.
Qed.

Lemma sort_nat_permutation_seq (n : nat) (l : list nat) :
  Permutation l (seq 0 n) -> sort_nat l = seq 0 n.
Proof.
  intros Hp. apply sorted_unique.
  - apply sort_nat_sorted.
    apply (Permutation_NoDup (Permutation_sym Hp)), seq_NoDup.
  - apply seq_sorted.
  - intros x. rewrite sort_nat_in. split; apply Permutation_in;
      [ assumption | apply Permutation_sym; assumption ].
Qed.

(** Sorting records whose key is their own index sorts the indices. *)
Lemma insert_by_key_map (f : nat -> dict) (x : nat) (l : list nat) :
  (forall i, In i (x :: l) -> index_key (f i) = Z.of_nat i) ->
  insert_by_key (f x) (map f l) = map f (insert_nat x l).
Proof.
  induction l as [| y l IH]; intros Hk; simpl; [ reflexivity | ].
  rewrite (Hk x), (Hk y) by (simpl; auto).
  destruct (Nat.leb_spec x y) as [Hle | Hgt].
  - destruct (Z.leb_spec (Z.of_nat x) (Z.of_nat y)); [ reflexivity | lia ].
  - destruct (Z.leb_spec (Z.of_nat x) (Z.of_nat y)); [ lia | ].
    simpl. f_equal. apply IH. intros i [-> | Hi]; apply Hk; simpl; auto.
Qed.

Lemma sort_by_index_map (f : nat -> dict) (l : list nat) :
  (forall i, In i l -> index_key (f i) = Z.of_nat i) ->
  sort_by_index (map f l) = map f (sort_nat l).
Proof.
  unfold sort_by_index, sort_nat.
  induction l as [| x l IH]; intros Hk; simpl; [ reflexivity | ].
  rewrite IH by (intros; apply Hk; simpl; auto).
  apply insert_by_key_map.
  intros i [-> | Hi]; apply Hk; simpl; auto.
  right. apply (proj1 (sort_nat_in i l)). exact Hi.
Qed.

Lemma valid_schedule_permutation (n : nat) (order : list nat) :
  valid_schedule n order = true -> Permutation order (seq 0 n).
Proof.
  unfold valid_schedule. intros H.
  apply andb_prop in H. destruct H as [Hlen Hall].
  apply Nat.eqb_eq in Hlen.
  apply Permutation_sym, NoDup_Permutation_bis.
  - apply seq_NoDup.
  - rewrite length_seq. lia.
  - intros i Hi. rewrite forallb_forall in Hall.
    specialize (Hall i Hi). apply existsb_exists in Hall.
    destruct Hall as [j [Hj Hij]]. apply Nat.eqb_eq in Hij. subst j. exact Hj.
Qed.

(* ================================================================== *)
(** ** The pool *)
(* ================================================================== *)

Section Pool.

Variable env : environment.
Variable sch : scheduler.
Variables (prompts : list string) (client : GenAIClient).
Variables (max_tokens temperature user_id : pyval) (output_path : path).

Local Abbreviation worker i prompt :=
  (process_single_prompt env sch prompt i client max_tokens temperature
     user_id output_path).
Local Abbreviation future_at :=
  (unit_future env sch prompts client max_tokens temperature user_id
     output_path).
Local Abbreviation record_at :=
  (unit_record env sch prompts client max_tokens temperature user_id
     output_path).
Local Abbreviation run order :=
  (run_units env sch prompts client max_tokens temperature user_id
     output_path order).

Lemma run_units_cons (a : nat) (order : list nat) :
  run (a :: order)
  = match nth_error prompts a with
    | Some prompt =>
        bind (capture (worker a prompt))
             (fun f => bind (run order) (fun fs => ret ((a, f) :: fs)))
    | None => run order
    end.
Proof. reflexivity. Qed.

(** The pool never raises: every unit that was scheduled has its future. *)
Lemma run_units_futures (order : list nat) :
  exists futures,
    fst (run order) = Ok futures
    /\ forall i, future_of futures i
                 = if existsb (Nat.eqb i) order then future_at i else None.
Proof.
  induction order as [| a order [futures [Hrun Hfut]]].
  - exists []. split; reflexivity.
  - rewrite run_units_cons.
    destruct (nth_error prompts a) as [prompt |] eqn:Hp.
    + exists ((a, fst (worker a prompt)) :: futures). split.
      * rewrite fst_bind. unfold capture at 1. cbn [fst].
        rewrite fst_bind, Hrun. reflexivity.
      * intros i. simpl. rewrite Hfut, (Nat.eqb_sym a i).
        destruct (Nat.eqb_spec i a) as [-> | Hne]; simpl; [ | reflexivity ].
        unfold unit_future. rewrite Hp. reflexivity.
    + exists futures. split; [ assumption | ].
      intros i. rewrite Hfut. simpl.
      destruct (Nat.eqb_spec i a) as [-> | Hne]; simpl; [ | reflexivity ].
      unfold unit_future. rewrite Hp.
      destruct (existsb (Nat.eqb a) order); reflexivity.
Qed.

(** The file events of the pool are those of its units, one after another. *)
Lemma run_units_fs_log (order : list nat) :
  fs_log (snd (run order))
  = flat_map (fun i => match nth_error prompts i with
                       | Some prompt => fs_log (snd (worker i prompt))
                       | None => []
                       end) order.
Proof.
  induction order as [| a order IH]; [ reflexivity | ].
  rewrite run_units_cons. cbn [flat_map].
  destruct (nth_error prompts a) as [prompt |] eqn:Hp; [ | assumption ].
  rewrite snd_bind. unfold capture at 1 2. cbn [fst snd].
  rewrite snd_bind.
  destruct (run_units_futures order) as [futures [Hrun _]]. rewrite Hrun.
  cbn [log_app fs_log snd ret log_empty]. rewrite app_nil_r, IH. reflexivity.
Qed.

Lemma run_units_requests (order : list nat) :
  requests (snd (run order))
  = flat_map (fun i => match nth_error prompts i with
                       | Some prompt =>
                           [request_of client prompt
                              (build_params max_tokens temperature user_id)]
                       | None => []
                       end) order.
Proof.
  induction order as [| a order IH]; [ reflexivity | ].
  rewrite run_units_cons. cbn [flat_map].
  destruct (nth_error prompts a) as [prompt |] eqn:Hp; [ | assumption ].
  rewrite snd_bind. unfold capture at 1 2. cbn [fst snd].
  rewrite snd_bind.
  destruct (run_units_futures order) as [futures [Hrun _]]. rewrite Hrun.
  cbn [log_app requests snd ret log_empty]. rewrite app_nil_r, IH.
  destruct (worker_channels env sch prompt a client max_tokens temperature
              user_id output_path) as [-> _].
  reflexivity.
Qed.

Lemma collect_cons (futures : list (nat * future)) (total index : nat)
    (order : list nat) (results : list dict) (completed : nat) :
  collect futures total (index :: order) results completed
  = match future_of futures index with
    | None => collect futures total order results completed
    | Some (Raise e) => raise e
    | Some (Ok rec) =>
        bind (echo [Lit (if dict_truthy rec "content_filtered" then "🛡️"
                         else if dict_truthy rec "success" then "✅" else "❌");
                    Lit " ["; Num (Z.of_nat (completed + 1)); Lit "/";
                    Num (Z.of_nat total); Lit "] Prompt ";
                    Num (Z.of_nat index + 1)])
             (fun _ => collect futures total order (results ++ [rec])
                         (completed + 1))
    end.
Proof. reflexivity. Qed.

(** Collecting returns the gathered records after those already held, or
    raises what the first raising future holds; it touches no file and
    sends nothing. *)
Lemma collect_gather (futures : list (nat * future)) (total : nat)
    (order : list nat) (results : list dict) (completed : nat) :
  fst (collect futures total order results completed)
  = match gather futures order with
    | Ok l => Ok (results ++ l)
    | Raise e => Raise e
    end
  /\ fs_log (snd (collect futures total order results completed)) = []
  /\ requests (snd (collect futures total order results completed)) = [].
Proof.
  revert results completed.
  induction order as [| i order IH]; intros results completed.
  - simpl. rewrite app_nil_r. auto.
  - rewrite collect_cons. cbn [gather].
    destruct (future_of futures i) as [[rec | e] |]; [ | auto | apply IH ].
    rewrite fst_bind, snd_bind. unfold echo. cbn [fst snd].
    destruct (IH (results ++ [rec]) (completed + 1)) as [-> [Hfs Hreq]].
    cbn [log_app fs_log requests]. rewrite Hfs, Hreq.
    destruct (gather futures order); rewrite <- ?app_assoc; auto.
Qed.

(** The submission loop touches no file and sends nothing. *)
Lemma submit_all_quiet (delay : float) (total i : nat) (ps : list string) :
  fs_log (snd (submit_all env delay total i ps)) = []
  /\ requests (snd (submit_all env delay total i ps)) = [].
Proof.
  revert i. induction ps as [| p ps IH]; intros i; [ split; reflexivity | ].
  cbn [submit_all]. destruct (IH (S i)) as [Hfs Hreq].
  destruct (_ && _).
  - unfold sleep. destruct (sleep_error env delay); [ split; reflexivity | ].
    rewrite snd_bind. simpl. rewrite Hfs, Hreq.
    destruct (fst (submit_all env delay total (S i) ps)); split; reflexivity.
  - rewrite snd_bind. simpl. rewrite Hfs, Hreq.
    destruct (fst (submit_all env delay total (S i) ps)); split; reflexivity.
Qed.

(** It submits every prompt when no pause can raise: the delay is not
    positive, or the clock takes it, or no pause is left. *)
Lemma submit_all_ok (delay : float) (total i : nat) (ps : list string) :
  PrimFloat.ltb 0%float delay = false
  \/ sleep_error env delay = None
  \/ total <= S i ->
  fst (submit_all env delay total i ps) = Ok (i + List.length ps, Ok tt).
Proof.
  revert i. induction ps as [| p ps IH]; intros i Hok.
  - simpl. rewrite Nat.add_0_r. reflexivity.
  - cbn [submit_all List.length]. rewrite fst_bind.
    assert (Hrest : fst (submit_all env delay total (S i) ps)
                    = Ok (i + S (List.length ps), Ok tt)).
    { rewrite IH; [ f_equal; f_equal; lia | ].
      destruct Hok as [H | [H | H]]; [ auto | auto | right; right; lia ]. }
    destruct (PrimFloat.ltb 0%float delay) eqn:Hpos; cbn [andb];
      [ | simpl; exact Hrest ].
    destruct (Z.ltb_spec (Z.of_nat i) (Z.of_nat total - 1)) as [Hlt | Hge];
      [ | simpl; exact Hrest ].
    destruct Hok as [H | [H | H]]; [ discriminate | | lia ].
    unfold sleep. rewrite H. simpl. exact Hrest.
Qed.

(** A refused pause ends it after the first prompt. *)
Lemma submit_all_refused (delay : float) (ps : list string) :
  pause_refused env delay (List.length ps) = true ->
  exists msg,
    sleep_error env delay = Some msg
    /\ fst (submit_all env delay (List.length ps) 0 ps)
       = Ok (1, Raise (OverflowError msg)).
Proof.
  unfold pause_refused. intros H.
  apply andb_prop in H. destruct H as [H Hsleep].
  apply andb_prop in H. destruct H as [Hpos Htwo].
  destruct (sleep_error env delay) as [msg |] eqn:Hmsg; [ | discriminate ].
  exists msg. split; [ reflexivity | ].
  destruct ps as [| p [| q ps]]; try discriminate Htwo.
  cbn [submit_all]. rewrite Hpos. cbn [andb].
  destruct (Z.ltb_spec (Z.of_nat 0) (Z.of_nat (List.length (p :: q :: ps)) - 1))
    as [_ | Hge]; [ | cbn [List.length] in Hge; lia ].
  unfold sleep. rewrite Hmsg. reflexivity.
Qed.

Lemma submit_all_accepted (delay : float) (ps : list string) :
  pause_refused env delay (List.length ps) = false ->
  fst (submit_all env delay (List.length ps) 0 ps)
  = Ok (List.length ps, Ok tt).
Proof.
  unfold pause_refused. intros H.
  rewrite (submit_all_ok delay (List.length ps) 0 ps); [ reflexivity | ].
  destruct (PrimFloat.ltb 0%float delay); [ | auto ].
  destruct (Nat.leb_spec 2 (List.length ps)); [ | right; right; lia ].
  destruct (sleep_error env delay); [ discriminate | auto ].
Qed.

(** Indices that name no prompt name no unit, so leaving them out of the
    order changes nothing. *)
Lemma run_units_in_range (order : list nat) :
  run (filter (fun i => (i <? List.length prompts)%nat) order) = run order.
Proof.
  induction order as [| a order IH]; [ reflexivity | ].
  cbn [filter]. destruct (Nat.ltb_spec a (List.length prompts)) as [Hlt | Hge].
  - rewrite !run_units_cons, IH. reflexivity.
  - rewrite run_units_cons.
    assert (Hnone : nth_error prompts a = None) by (apply nth_error_None; lia).
    rewrite Hnone. exact IH.
Qed.

Lemma futures_in_range (order : list nat) (i : nat) :
  (if existsb (Nat.eqb i)
        (filter (fun j => (j <? List.length prompts)%nat) order)
   then future_at i else None)
  = (if existsb (Nat.eqb i) order then future_at i else None).
Proof.
  destruct (Nat.ltb_spec i (List.length prompts)) as [Hlt | Hge].
  - assert (Heq : existsb (Nat.eqb i)
                    (filter (fun j => (j <? List.length prompts)%nat) order)
                  = existsb (Nat.eqb i) order).
    { induction order as [| a order IH]; [ reflexivity | ].
      cbn [filter existsb].
      destruct (Nat.ltb_spec a (List.length prompts)) as [Ha | Ha];
        cbn [existsb]; rewrite IH; [ reflexivity | ].
      destruct (Nat.eqb_spec i a); [ lia | reflexivity ]. }
    rewrite Heq. reflexivity.
  - assert (Hnone : future_at i = None).
    { unfold unit_future.
      assert (H : nth_error prompts i = None) by (apply nth_error_None; lia).
      rewrite H. reflexivity. }
    rewrite Hnone. destruct (existsb _ _), (existsb _ _); reflexivity.
Qed.

Local Abbreviation batch max_workers delay :=
  (process_prompts_concurrent env sch prompts client max_tokens temperature
     user_id max_workers delay output_path).

(** The batch as a whole.  The pool is refused for a non-positive size.  A
    refused pause ends the batch with its [OverflowError], after the first
    unit, the only one submitted, has run.  Otherwise the result is the
    sorted gathering of the futures, and the files and requests are those of
    the units. *)
Lemma batch_outcome (max_workers : Z) (delay : float) :
  (exists msg,
     pause_refused env delay (List.length prompts) = true
     /\ sleep_error env delay = Some msg
     /\ fst (batch max_workers delay)
        = (if (max_workers <=? 0)%Z
           then Raise (ValueError "max_workers must be greater than 0")
           else Raise (OverflowError msg))
     /\ fs_log (snd (batch max_workers delay))
        = (if (max_workers <=? 0)%Z then []
           else fs_log (snd (run (filter (fun i => (i <? 1)%nat)
                                         (run_order sch)))))
     /\ requests (snd (batch max_workers delay))
        = (if (max_workers <=? 0)%Z then []
           else requests (snd (run (filter (fun i => (i <? 1)%nat)
                                           (run_order sch))))))
  \/ (pause_refused env delay (List.length prompts) = false
      /\ exists futures,
        (forall i, future_of futures i
                   = if existsb (Nat.eqb i) (run_order sch) then future_at i
                     else None)
        /\ fst (batch max_workers delay)
           = (if (max_workers <=? 0)%Z
              then Raise (ValueError "max_workers must be greater than 0")
              else match gather futures (collect_order sch) with
                   | Ok l => Ok (sort_by_index l)
                   | Raise e => Raise e
                   end)
        /\ fs_log (snd (batch max_workers delay))
           = (if (max_workers <=? 0)%Z then []
              else fs_log (snd (run (run_order sch))))
        /\ requests (snd (batch max_workers delay))
           = (if (max_workers <=? 0)%Z then []
              else requests (snd (run (run_order sch))))).
Proof.
  destruct (submit_all_quiet delay (List.length prompts) 0 prompts)
    as [Hsfs Hsreq].
  destruct (pause_refused env delay (List.length prompts)) eqn:Hpause.
  - left. destruct (submit_all_refused delay prompts Hpause) as [msg [Hmsg Hs]].
    exists msg.
    destruct (run_units_futures
                (filter (fun i => (i <? 1)%nat) (run_order sch)))
      as [futures [Hrun _]].
    split; [ reflexivity | ]. split; [ exact Hmsg | ].
    unfold process_prompts_concurrent.
    rewrite !fst_bind, !snd_bind. unfold echo. cbn [fst snd].
    destruct (max_workers <=? 0)%Z; cbn [fst snd raise ret].
    + simpl. auto.
    + rewrite Hs. cbn [fst snd].
      rewrite !fst_bind, !snd_bind, Hrun.
      cbn [log_app fs_log requests log_empty raise fst snd].
      rewrite Hsfs, Hsreq, ?app_nil_r. auto.
  - right. split; [ reflexivity | ].
    pose proof (submit_all_accepted delay prompts Hpause) as Hs.
    destruct (run_units_futures
                (filter (fun i => (i <? List.length prompts)%nat)
                        (run_order sch)))
      as [futures [Hrun Hfut]].
    destruct (collect_gather futures (List.length prompts)
                (collect_order sch) [] 0) as [Hc [Hcfs Hcreq]].
    exists futures.
    split.
    { intros i. rewrite Hfut. apply futures_in_range. }
    unfold process_prompts_concurrent.
    rewrite !fst_bind, !snd_bind. unfold echo. cbn [fst snd].
    destruct (max_workers <=? 0)%Z; cbn [fst snd raise ret].
    + simpl. auto.
    + rewrite Hs. cbn [fst snd].
      rewrite !fst_bind, !snd_bind, Hrun.
      rewrite !fst_bind, !snd_bind, Hc.
      cbn [log_app fs_log requests log_empty]. rewrite Hsfs, Hsreq.
      rewrite <- (run_units_in_range (run_order sch)).
      destruct (gather futures (collect_order sch));
        cbn [log_app fs_log requests log_empty ret fst snd app];
        rewrite ?Hcfs, ?Hcreq, ?app_nil_r; auto.
Qed.

Lemma index_key_of_record (i : nat) (rec : dict) :
  future_at i = Some (Ok rec) -> index_key rec = Z.of_nat i.
Proof.
  unfold unit_future. destruct (nth_error prompts i) as [prompt |];
    [ | discriminate ].
  intros H. injection H as H. apply worker_record in H.
  destruct H as [H _]. unfold index_key, dict_get_default. rewrite H.
  reflexivity.
Qed.

Lemma record_at_future (i : nat) (rec : dict) :
  future_at i = Some (Ok rec) -> record_at i = rec.
Proof. unfold unit_record. intros ->. reflexivity. Qed.

(** Gathering, when every collected index has its future. *)
Lemma gather_records (futures : list (nat * future)) (order : list nat) :
  (forall i, In i order ->
     exists f, future_of futures i = Some f /\ future_at i = Some f) ->
  forall l, gather futures order = Ok l ->
    l = map record_at order
    /\ forall i, In i order -> future_at i = Some (Ok (record_at i)).
Proof.
  induction order as [| a order IH]; intros Hdef l Hg.
  - simpl in Hg. injection Hg as <-. split; [ reflexivity | ].
    intros i [].
  - cbn [gather] in Hg.
    destruct (Hdef a (or_introl eq_refl)) as [f [Hf Hat]].
    rewrite Hf in Hg. destruct f as [rec | e]; [ | discriminate ].
    destruct (gather futures order) as [l' | e] eqn:Hg'; [ | discriminate ].
    injection Hg as <-.
    destruct (IH (fun i Hi => Hdef i (or_intror Hi)) l' eq_refl) as [-> Hall].
    pose proof (record_at_future a rec Hat) as Hrec.
    split.
    + simpl. rewrite Hrec. reflexivity.
    + intros i [<- | Hi]; [ rewrite Hrec; exact Hat | auto ].
Qed.

Lemma gather_returns (futures : list (nat * future)) (order : list nat) :
  (forall i, In i order ->
     exists rec, future_of futures i = Some (Ok rec)) ->
  exists l, gather futures order = Ok l.
Proof.
  induction order as [| a order IH]; intros Hok.
  - exists []. reflexivity.
  - cbn [gather].
    destruct (Hok a (or_introl eq_refl)) as [rec ->].
    destruct (IH (fun i Hi => Hok i (or_intror Hi))) as [l ->].
    eauto.
Qed.

Lemma gather_raises (futures : list (nat * future)) (order : list nat)
    (i : nat) (e : exn) :
  (forall j, In j order -> exists f, future_of futures j = Some f) ->
  In i order -> future_of futures i = Some (Raise e) ->
  exists e', gather futures order = Raise e'.
Proof.
  induction order as [| a order IH]; intros Hdef Hin Hi; [ destruct Hin | ].
  cbn [gather].
  destruct (Hdef a (or_introl eq_refl)) as [[rec | e0] Hf]; rewrite Hf;
    [ | eauto ].
  destruct Hin as [-> | Hin]; [ congruence | ].
  destruct (IH (fun j Hj => Hdef j (or_intror Hj)) Hin Hi) as [e' ->].
  eauto.
Qed.

(** With a valid scheduler every collected index has run. *)
Lemma futures_defined (futures : list (nat * future)) :
  valid_scheduler (List.length prompts) sch = true ->
  (forall i, future_of futures i
             = if existsb (Nat.eqb i) (run_order sch) then future_at i
               else None) ->
  forall i, i < List.length prompts ->
    In i (collect_order sch)
    /\ exists prompt,
         nth_error prompts i = Some prompt
         /\ future_of futures i = Some (fst (worker i prompt))
         /\ future_at i = Some (fst (worker i prompt)).
Proof.
  unfold valid_scheduler. intros Hv Hfut i Hi.
  apply andb_prop in Hv. destruct Hv as [Hrun Hcol].
  apply valid_schedule_permutation in Hrun, Hcol.
  assert (Hseq : In i (seq 0 (List.length prompts))) by (apply in_seq; lia).
  split.
  - apply (Permutation_in _ (Permutation_sym Hcol)). exact Hseq.
  - destruct (nth_error prompts i) as [prompt |] eqn:Hp.
    + exists prompt. split; [ reflexivity | ].
      assert (Hat : future_at i = Some (fst (worker i prompt))).
      { unfold unit_future. rewrite Hp. reflexivity. }
      split; [ | exact Hat ].
      rewrite Hfut, <- Hat.
      assert (Hex : existsb (Nat.eqb i) (run_order sch) = true).
      { apply existsb_exists. exists i. split; [ | apply Nat.eqb_refl ].
        apply (Permutation_in _ (Permutation_sym Hrun)). exact Hseq. }
      rewrite Hex. reflexivity.
    + apply nth_error_None in Hp. lia.
Qed.

Lemma collect_order_bound :
  valid_scheduler (List.length prompts) sch = true ->
  forall i, In i (collect_order sch) -> i < List.length prompts.
Proof.
  unfold valid_scheduler. intros Hv i Hi.
  apply andb_prop in Hv. destruct Hv as [_ Hcol].
  apply valid_schedule_permutation in Hcol.
  apply (Permutation_in _ Hcol) in Hi. apply in_seq in Hi. lia.
Qed.

(** What a batch returns, when it returns: the records of the units in
    input order. *)
Lemma batch_results (max_workers : Z) (delay : float) (results : list dict) :
  valid_scheduler (List.length prompts) sch = true ->
  fst (batch max_workers delay) = Ok results ->
  results = map record_at (seq 0 (List.length prompts))
  /\ forall i, i < List.length prompts ->
       future_at i = Some (Ok (record_at i)).
Proof.
  intros Hv Hb.
  destruct (batch_outcome max_workers delay)
    as [[msg [_ [_ [Hout _]]]] | [_ [futures [Hfut [Hout _]]]]];
    rewrite Hout in Hb; (destruct (max_workers <=? 0)%Z; [ discriminate | ]);
    [ discriminate | ].
  destruct (gather futures (collect_order sch)) as [l |] eqn:Hg;
    [ | discriminate ].
  injection Hb as <-.
  assert (Hdef : forall i, In i (collect_order sch) ->
            exists f, future_of futures i = Some f /\ future_at i = Some f).
  { intros i Hi. apply (collect_order_bound Hv) in Hi.
    destruct (futures_defined futures Hv Hfut i Hi)
      as [_ [prompt [_ [H1 H2]]]]. eauto. }
  destruct (gather_records futures (collect_order sch) Hdef l Hg)
    as [-> Hall].
  split.
  - rewrite sort_by_index_map.
    + rewrite (sort_nat_permutation_seq (List.length prompts)); [ reflexivity | ].
      unfold valid_scheduler in Hv. apply andb_prop in Hv.
      apply valid_schedule_permutation, Hv.
    + intros i Hi. apply index_key_of_record. auto.
  - intros i Hi. apply Hall. apply (futures_defined futures Hv Hfut i Hi).
Qed.

(** A batch returns when the pool can be built, the clock takes the pause
    and every unit returns. *)
Lemma batch_returns (max_workers : Z) (delay : float) :
  valid_scheduler (List.length prompts) sch = true ->
  (0 < max_workers)%Z ->
  pause_refused env delay (List.length prompts) = false ->
  (forall i prompt, nth_error prompts i = Some prompt ->
     exists rec, fst (worker i prompt) = Ok rec) ->
  exists results, fst (batch max_workers delay) = Ok results.
Proof.
  intros Hv Hw Hpause Hall.
  destruct (batch_outcome max_workers delay)
    as [[msg [Hrefused _]] | [_ [futures [Hfut [Hout _]]]]];
    [ congruence | ].
  rewrite Hout.
  destruct (Z.leb_spec max_workers 0) as [Hle | _]; [ lia | ].
  destruct (gather_returns futures (collect_order sch)) as [l ->]; [ | eauto ].
  intros i Hi. apply (collect_order_bound Hv) in Hi.
  destruct (futures_defined futures Hv Hfut i Hi)
    as [_ [prompt [Hp [H1 _]]]].
  destruct (Hall i prompt Hp) as [rec Hrec].
  exists rec. rewrite H1, Hrec. reflexivity.
Qed.

(** A batch raises as soon as one unit raises. *)
Lemma batch_raises (max_workers : Z) (delay : float) (i : nat)
    (prompt : string) (e : exn) :
  valid_scheduler (List.length prompts) sch = true ->
  nth_error prompts i = Some prompt ->
  fst (worker i prompt) = Raise e ->
  exists e', fst (batch max_workers delay) = Raise e'.
Proof.
  intros Hv Hp Hraise.
  destruct (batch_outcome max_workers delay)
    as [[msg [_ [_ [Hout _]]]] | [_ [futures [Hfut [Hout _]]]]];
    rewrite Hout; (destruct (max_workers <=? 0)%Z; [ eauto | ]);
    [ eauto | ].
  assert (Hi : i < List.length prompts).
  { apply nth_error_Some. congruence. }
  destruct (futures_defined futures Hv Hfut i Hi)
    as [Hin [prompt' [Hp' [H1 _]]]].
  assert (prompt' = prompt) by congruence. subst prompt'.
  destruct (gather_raises futures (collect_order sch) i e) as [e' ->];
    [ | exact Hin | rewrite H1, Hraise; reflexivity | eauto ].
  intros j Hj. apply (collect_order_bound Hv) in Hj.
  destruct (futures_defined futures Hv Hfut j Hj)
    as [_ [pj [_ [H _]]]]. eauto.
Qed.

(** A batch that returns was not refused a pause, and a refused pause makes
    the batch raise. *)
Lemma batch_ok_accepted (max_workers : Z) (delay : float)
    (results : list dict) :
  fst (batch max_workers delay) = Ok results ->
  pause_refused env delay (List.length prompts) = false.
Proof.
  intros Hb.
  destruct (batch_outcome max_workers delay)
    as [[msg [_ [_ [Hout _]]]] | [Hpause _]]; [ | exact Hpause ].
  rewrite Hout in Hb. destruct (max_workers <=? 0)%Z; discriminate.
Qed.

Lemma batch_refused (max_workers : Z) (delay : float) :
  (0 < max_workers)%Z ->
  pause_refused env delay (List.length prompts) = true ->
  exists msg,
    sleep_error env delay = Some msg
    /\ fst (batch max_workers delay) = Raise (OverflowError msg).
Proof.
  intros Hw Hpause.
  destruct (batch_outcome max_workers delay)
    as [[msg [_ [Hmsg [Hout _]]]] | [Haccepted _]]; [ | congruence ].
  exists msg. split; [ exact Hmsg | ].
  rewrite Hout. destruct (Z.leb_spec max_workers 0); [ lia | reflexivity ].
Qed.

End Pool.

(* ================================================================== *)
(** ** The command *)
(* ================================================================== *)

Lemma in_fs_bind {A B} (c : M A) (k : A -> M B) (ev : fs_event) :
  In ev (fs_log (snd (bind c k))) ->
  In ev (fs_log (snd c))
  \/ exists a, fst c = Ok a /\ In ev (fs_log (snd (k a))).
Proof.
  rewrite snd_bind. destruct (fst c) as [a | e] eqn:Hc; [ | auto ].
  cbn [log_app fs_log]. intros H. apply in_app_or in H.
  destruct H; eauto.
Qed.

Lemma in_fs_bind_l {A B} (c : M A) (k : A -> M B) (ev : fs_event) :
  In ev (fs_log (snd c)) -> In ev (fs_log (snd (bind c k))).
Proof.
  rewrite snd_bind. destruct (fst c); [ | auto ].
  cbn [log_app fs_log]. intros H. apply in_or_app. auto.
Qed.

Lemma in_fs_bind_r {A B} (c : M A) (k : A -> M B) (ev : fs_event) (a : A) :
  fst c = Ok a -> In ev (fs_log (snd (k a))) ->
  In ev (fs_log (snd (bind c k))).
Proof.
  rewrite snd_bind. intros -> H.
  cbn [log_app fs_log]. apply in_or_app. auto.
Qed.

Lemma fst_bind_ok {A B} (c : M A) (k : A -> M B) (b : B) :
  fst (bind c k) = Ok b -> exists a, fst c = Ok a /\ fst (k a) = Ok b.
Proof.
  rewrite fst_bind. destruct (fst c) as [a | e]; [ eauto | discriminate ].
Qed.

Lemma fst_bind_step {A B} (c : M A) (k : A -> M B) (a : A) :
  fst c = Ok a -> fst (bind c k) = fst (k a).
Proof. intros H. rewrite fst_bind, H. reflexivity. Qed.

Lemma py_sum_fs_log (xs : list pyval) (acc : pyval) :
  fs_log (snd (py_sum acc xs)) = [].
Proof.
  revert acc. induction xs as [| x xs IH]; intros acc; [ reflexivity | ].
  cbn [py_sum]. rewrite snd_bind.
  assert (Hadd : fs_log (snd (py_add acc x)) = []).
  { unfold py_add. destruct acc, x; try destruct b; try destruct b0;
      try destruct (float_of_Z _); reflexivity. }
  destruct (fst (py_add acc x)); [ | exact Hadd ].
  cbn [log_app fs_log]. rewrite Hadd, IH. reflexivity.
Qed.

Lemma append_inj_l (d a b : string) :
  (d ++ a)%string = (d ++ b)%string -> a = b.
Proof.
  induction d as [| c d IH]; simpl; [ auto | ].
  intros H. injection H as H. auto.
Qed.

(** No item file is the summary file. *)
Lemma item_file_not_summary (output : string) (i : nat) :
  item_file (Path output) i <> summary_file output.
Proof.
  unfold item_file, summary_file, path_join. intros H.
  destruct (String.eqb (Path output) "."); [ discriminate H | ].
  destruct (_ || _); apply append_inj_l in H; discriminate H.
Qed.

Section Command.

Variable env : environment.
Variable sch : scheduler.
Variables (config : dict) (input output : string).
Variables (max_tokens temperature user_id : pyval).
Variables (max_workers : Z) (delay : float).

Local Abbreviation command :=
  (process env sch config input output max_tokens temperature user_id
     max_workers delay).
Local Abbreviation batch prompts :=
  (process_prompts_concurrent env sch prompts (GenAIClient_init config)
     max_tokens temperature user_id max_workers delay (Path output)).
Local Abbreviation worker i prompt :=
  (process_single_prompt env sch prompt i (GenAIClient_init config)
     max_tokens temperature user_id (Path output)).

(** Every file event of the pool is an event of one of its units. *)
Lemma batch_fs_events (prompts : list string) (ev : fs_event) :
  In ev (fs_log (snd (batch prompts))) ->
  exists i prompt,
    nth_error prompts i = Some prompt
    /\ In ev (fs_log (snd (worker i prompt))).
Proof.
  destruct (batch_outcome env sch prompts (GenAIClient_init config)
              max_tokens temperature user_id (Path output) max_workers delay)
    as [[msg [_ [_ [_ [Hfs _]]]]] | [_ [futures [_ [_ [Hfs _]]]]]];
    rewrite Hfs; (destruct (max_workers <=? 0)%Z; [ intros [] | ]);
    rewrite run_units_fs_log; intros H; apply in_flat_map in H.
  all: destruct H as [i [_ Hi]];
    (destruct (nth_error prompts i) as [prompt |] eqn:Hp;
       [ eauto | destruct Hi ]).
Qed.

(** An event of a unit is on its own item file, and is a text. *)
Lemma worker_fs_event (i : nat) (prompt : string) (ev : fs_event) :
  In ev (fs_log (snd (worker i prompt))) ->
  ev = Created (item_file (Path output) i)
  \/ exists text, ev = Wrote (item_file (Path output) i) (Text text).
Proof.
  destruct (worker_fs_log env sch prompt i (GenAIClient_init config)
              max_tokens temperature user_id (Path output))
    as [[-> _] | [[_ [_ [-> | ->]]] | [_ [_ [text ->]]]]]; simpl;
    intuition eauto.
Qed.

(** The summary [process] persists, when it persists one. *)
Lemma summary_written (prompts : list string) (summary : pyval) :
  load_prompts env input = Ok prompts ->
  In (Wrote (summary_file output) (Json summary)) (fs_log (snd command)) ->
  exists results processing_time,
    fst (batch prompts) = Ok results
    /\ summary
       = PDict
           [ ("input_file", PStr input);
             ("total_prompts", PInt (Z.of_nat (List.length prompts)));
             ("successful", PInt (count_truthy "success" results));
             ("failed",
               PInt (Z.of_nat (List.length results)
                     - count_truthy "success" results));
             ("content_filtered",
               PInt (count_truthy "content_filtered" results));
             ("output_directory", PStr output);
             ("processing_time", processing_time);
             ("results", PList (map PDict results)) ].
Proof.
  intros Hload Hin. unfold process in Hin. rewrite Hload in Hin.
  apply in_fs_bind in Hin. destruct Hin as [[] | [ps [Hps Hin]]].
  injection Hps as <-.
  apply in_fs_bind in Hin. destruct Hin as [[] | [_ [_ Hin]]].
  destruct (List.length prompts =? 0)%nat; [ destruct Hin | ].
  apply in_fs_bind in Hin. destruct Hin as [Hin | [_ [_ Hin]]].
  { unfold mkdir in Hin. destruct (mkdir_error env (Path output)); simpl in Hin;
      intuition discriminate. }
  apply in_fs_bind in Hin. destruct Hin as [[] | [_ [_ Hin]]].
  apply in_fs_bind in Hin. destruct Hin as [Hin | [results [Hres Hin]]].
  { apply batch_fs_events in Hin. destruct Hin as [i [prompt [_ Hin]]].
    apply worker_fs_event in Hin. destruct Hin as [Hin | [text Hin]];
      discriminate. }
  apply in_fs_bind in Hin. destruct Hin as [Hin | [total [Htot Hin]]].
  { rewrite py_sum_fs_log in Hin. destruct Hin. }
  apply in_fs_bind in Hin. destruct Hin as [Hin | [_ [_ Hin]]].
  { unfold open_w in Hin. destruct (open_error env (summary_file output));
      simpl in Hin; intuition discriminate. }
  apply in_fs_bind in Hin. destruct Hin as [Hin | [_ [_ Hin]]].
  { unfold json_dump in Hin. destruct (write_error env (summary_file output));
      simpl in Hin; [ destruct Hin | ].
    destruct Hin as [Hin | []]. injection Hin as <-. eauto. }
  exfalso.
  destruct (0 <? count_truthy "content_filtered" results)%Z,
           (0 <? count_truthy "success" results)%Z;
    exact Hin.
Qed.

End Command.

(* ================================================================== *)
(** ** Ordering and counts *)
(* ================================================================== *)

Lemma nth_error_map_seq {A} (f : nat -> A) (n i : nat) :
  i < n -> nth_error (map f (seq 0 n)) i = Some (f i).
Proof.
  intros Hi. apply map_nth_error.
  rewrite nth_error_seq.
  destruct (Nat.ltb_spec i n); [ reflexivity | lia ].
Qed.

Lemma unit_future_worker (env : environment) (sch : scheduler)
    (prompts : list string) (client : GenAIClient)
    (max_tokens temperature user_id : pyval) (output_path : path)
    (i : nat) (f : future) :
  unit_future env sch prompts client max_tokens temperature user_id
    output_path i = Some f ->
  exists prompt,
    nth_error prompts i = Some prompt
    /\ fst (process_single_prompt env sch prompt i client max_tokens
              temperature user_id output_path) = f.
Proof.
  unfold unit_future. destruct (nth_error prompts i) as [prompt |];
    [ | discriminate ].
  intros H. injection H as H. eauto.
Qed.

(** The list a batch returns is in input order, and its records are the
    records of the units. *)
Lemma batch_ordered (env : environment) (sch : scheduler)
    (prompts : list string) (client : GenAIClient)
    (max_tokens temperature user_id : pyval) (max_workers : Z)
    (delay : float) (output_path : path) (results : list dict) :
  valid_scheduler (List.length prompts) sch = true ->
  fst (process_prompts_concurrent env sch prompts client max_tokens
         temperature user_id max_workers delay output_path) = Ok results ->
  List.length results = List.length prompts
  /\ forall i prompt, nth_error prompts i = Some prompt ->
       exists rec,
         nth_error results i = Some rec
         /\ fst (process_single_prompt env sch prompt i client max_tokens
                   temperature user_id output_path) = Ok rec.
Proof.
  intros Hv Hb.
  destruct (batch_results env sch prompts client max_tokens temperature
              user_id output_path max_workers delay results Hv Hb)
    as [-> Hall].
  split; [ rewrite length_map, length_seq; reflexivity | ].
  intros i prompt Hp.
  assert (Hi : i < List.length prompts) by (apply nth_error_Some; congruence).
  eexists. split; [ apply nth_error_map_seq; exact Hi | ].
  destruct (unit_future_worker _ _ _ _ _ _ _ _ _ _ (Hall i Hi))
    as [prompt' [Hp' Hw]].
  congruence.
Qed.

Lemma batch_ordered_outcomes (env : environment) (sch : scheduler)
    (prompts : list string) (client : GenAIClient)
    (max_tokens temperature user_id : pyval) (max_workers : Z)
    (delay : float) (output_path : path) (results : list dict) :
  valid_scheduler (List.length prompts) sch = true ->
  fst (process_prompts_concurrent env sch prompts client max_tokens
         temperature user_id max_workers delay output_path) = Ok results ->
  ordered_outcomes (List.length prompts) results.
Proof.
  intros Hv Hb.
  destruct (batch_ordered _ _ _ _ _ _ _ _ _ _ _ Hv Hb) as [Hlen Hall].
  split; [ exact Hlen | ].
  intros i Hi.
  destruct (nth_error prompts i) as [prompt |] eqn:Hp;
    [ | apply nth_error_None in Hp; lia ].
  destruct (Hall i prompt Hp) as [rec [Hnth Hw]].
  exists rec. split; [ exact Hnth | ].
  apply worker_record in Hw. apply Hw.
Qed.

(** In a list of unit records, the content-filtered ones are among those
    that did not succeed. *)
Lemma filtered_among_failed (results : list dict) :
  Forall (fun rec => dict_truthy rec "content_filtered" = true ->
                     dict_truthy rec "success" = false) results ->
  (0 <= count_truthy "success" results
   /\ 0 <= count_truthy "content_filtered" results
   /\ count_truthy "content_filtered" results
      <= Z.of_nat (List.length results) - count_truthy "success" results)%Z.
Proof.
  unfold count_truthy. intros H.
  split; [ lia | ]. split; [ lia | ].
  induction H as [| rec results Hrec _ IH]; cbn [filter List.length];
    [ lia | ].
  destruct (dict_truthy rec "content_filtered") eqn:Hc.
  - rewrite (Hrec eq_refl). cbn [List.length]. lia.
  - destruct (dict_truthy rec "success"); cbn [List.length]; lia.
Qed.

Lemma worker_filtered_failed (env : environment) (sch : scheduler)
    (prompt : string) (index : nat) (client : GenAIClient)
    (max_tokens temperature user_id : pyval) (output_path : path)
    (rec : dict) :
  fst (process_single_prompt env sch prompt index client max_tokens
         temperature user_id output_path) = Ok rec ->
  dict_truthy rec "content_filtered" = true ->
  dict_truthy rec "success" = false.
Proof.
  intros H. apply worker_record in H.
  destruct H as [_ [_ [_ [[_ [_ [Hc _]]] | [_ [Hs _]]]]]];
    unfold dict_truthy, dict_get_default.
  - rewrite Hc. discriminate.
  - rewrite Hs. reflexivity.
Qed.

(** C3.  The counts of a persisted summary reconcile: successful plus failed
    is the number of prompts, and the content-filtered records are counted
    among the failed ones. *)
Theorem summary_counts_reconcile (env : environment) (sch : scheduler)
    (config : dict) (input output : string)
    (max_tokens temperature user_id : pyval) (max_workers : Z)
    (delay : float) (prompts : list string) (summary : dict) :
  valid_scheduler (List.length prompts) sch = true ->
  load_prompts env input = Ok prompts ->
  In (Wrote (summary_file output) (Json (PDict summary)))
     (fs_log (snd (process env sch config input output max_tokens
                     temperature user_id max_workers delay))) ->
  exists successful failed content_filtered,
    dict_get summary "total_prompts"
    = Some (PInt (Z.of_nat (List.length prompts)))
    /\ dict_get summary "successful" = Some (PInt successful)
    /\ dict_get summary "failed" = Some (PInt failed)
    /\ dict_get summary "content_filtered" = Some (PInt content_filtered)
    /\ (successful + failed = Z.of_nat (List.length prompts))%Z
    /\ (content_filtered <= failed)%Z
    /\ (0 <= successful)%Z /\ (0 <= content_filtered)%Z.
Proof.
  intros Hv Hload Hin.
  destruct (summary_written _ _ _ _ _ _ _ _ _ _ _ _ Hload Hin)
    as [results [total [Hb Hs]]].
  injection Hs as ->.
  destruct (batch_ordered _ _ _ _ _ _ _ _ _ _ _ Hv Hb) as [Hlen Hall].
  assert (Hf : Forall (fun rec => dict_truthy rec "content_filtered" = true ->
                                  dict_truthy rec "success" = false) results).
  { apply Forall_forall. intros rec Hrec.
    apply In_nth_error in Hrec. destruct Hrec as [i Hi].
    assert (Hlt : i < List.length prompts).
    { rewrite <- Hlen. apply nth_error_Some. congruence. }
    destruct (nth_error prompts i) as [prompt |] eqn:Hp;
      [ | apply nth_error_None in Hp; lia ].
    destruct (Hall i prompt Hp) as [rec' [Hnth Hw]].
    assert (rec' = rec) by congruence. subst rec'.
    eapply worker_filtered_failed; eassumption. }
  apply filtered_among_failed in Hf.
  exists (count_truthy "success" results),
         (Z.of_nat (List.length results) - count_truthy "success" results)%Z,
         (count_truthy "content_filtered" results).
  simpl. rewrite Hlen in *. split_all; try reflexivity; lia.
Qed.

Lemma summary_counts_reconcile_witness :
  valid_scheduler 4 sample_sched = true
  /\ load_prompts sample_env "prompts.txt" = Ok sample_prompts
  /\ In (Wrote (summary_file "out") (Json (PDict sample_summary)))
        (fs_log (snd (process sample_env sample_sched [] "prompts.txt" "out"
                        PNone PNone PNone 3 1%float)))
  /\ exists successful failed content_filtered,
       dict_get sample_summary "total_prompts" = Some (PInt 4)
       /\ dict_get sample_summary "successful" = Some (PInt successful)
       /\ dict_get sample_summary "failed" = Some (PInt failed)
       /\ dict_get sample_summary "content_filtered"
          = Some (PInt content_filtered)
       /\ (successful + failed = 4)%Z
       /\ (content_filtered <= failed)%Z
       /\ (0 <= successful)%Z /\ (0 <= content_filtered)%Z.
Proof.
  assert (Hin : In (Wrote (summary_file "out") (Json (PDict sample_summary)))
                   (fs_log (snd (process sample_env sample_sched []
                                   "prompts.txt" "out" PNone PNone PNone 3
                                   1%float)))).
  { vm_compute. repeat (first [ left; reflexivity | right ]). }
  split; [ reflexivity | ].
  split; [ reflexivity | ].
  split; [ exact Hin | ].
  apply (summary_counts_reconcile sample_env sample_sched [] "prompts.txt"
           "out" PNone PNone PNone 3 1%float sample_prompts sample_summary);
    [ reflexivity | reflexivity | exact Hin ].
Defined.

(* ================================================================== *)
(** ** Concurrency does not change the outcomes *)
(* ================================================================== *)

Lemma worker_returns_under_any_clock (env : environment)
    (sch1 sch2 : scheduler) (prompt : string) (index : nat)
    (client : GenAIClient) (max_tokens temperature user_id : pyval)
    (output_path : path) (rec : dict) :
  fst (process_single_prompt env sch1 prompt index client max_tokens
         temperature user_id output_path) = Ok rec ->
  exists rec',
    fst (process_single_prompt env sch2 prompt index client max_tokens
           temperature user_id output_path) = Ok rec'
    /\ strip_time rec = strip_time rec'.
Proof.
  intros H.
  pose proof (worker_time_independent env sch1 sch2 prompt index client
                max_tokens temperature user_id output_path) as Hi.
  rewrite H in Hi.
  destruct (fst (process_single_prompt env sch2 prompt index client
                   max_tokens temperature user_id output_path)) as [rec' | e];
    [ eauto | contradiction ].
Qed.

Lemma batch_returns_under_any_scheduler (env : environment)
    (sch1 sch2 : scheduler) (prompts : list string) (client : GenAIClient)
    (max_tokens temperature user_id : pyval) (workers1 workers2 : Z)
    (delay1 delay2 : float) (output_path : path) (results1 : list dict) :
  valid_scheduler (List.length prompts) sch1 = true ->
  valid_scheduler (List.length prompts) sch2 = true ->
  (0 < workers2)%Z ->
  pause_refused env delay2 (List.length prompts) = false ->
  fst (process_prompts_concurrent env sch1 prompts client max_tokens
         temperature user_id workers1 delay1 output_path) = Ok results1 ->
  exists results2,
    fst (process_prompts_concurrent env sch2 prompts client max_tokens
           temperature user_id workers2 delay2 output_path) = Ok results2
    /\ map strip_time results1 = map strip_time results2.
Proof.
  intros Hv1 Hv2 Hw Hpause Hb1.
  destruct (batch_ordered _ _ _ _ _ _ _ _ _ _ _ Hv1 Hb1) as [Hlen1 Hall1].
  destruct (batch_returns env sch2 prompts client max_tokens temperature
              user_id output_path workers2 delay2 Hv2 Hw Hpause)
    as [results2 Hb2].
  { intros i prompt Hp. destruct (Hall1 i prompt Hp) as [rec [_ Hrec]].
    destruct (worker_returns_under_any_clock _ _ sch2 _ _ _ _ _ _ _ _ Hrec)
      as [rec' [Hrec' _]]. eauto. }
  exists results2. split; [ exact Hb2 | ].
  destruct (batch_ordered _ _ _ _ _ _ _ _ _ _ _ Hv2 Hb2) as [Hlen2 Hall2].
  apply nth_error_ext. intros i.
  rewrite !nth_error_map.
  destruct (nth_error prompts i) as [prompt |] eqn:Hp.
  - destruct (Hall1 i prompt Hp) as [rec1 [-> Hrec1]].
    destruct (Hall2 i prompt Hp) as [rec2 [-> Hrec2]].
    destruct (worker_returns_under_any_clock _ _ sch2 _ _ _ _ _ _ _ _ Hrec1)
      as [rec' [Hrec' Heq]].
    simpl. f_equal. congruence.
  - apply nth_error_None in Hp.
    assert (H1 : nth_error results1 i = None)
      by (apply nth_error_None; lia).
    assert (H2 : nth_error results2 i = None)
      by (apply nth_error_None; lia).
    rewrite H1, H2. reflexivity.
Qed.

(** Two prompts, a pool of two workers and an infinite delay: the run with
    one worker and no delay returns its two records, the other one raises
    the [OverflowError] of [time.sleep]. *)
Lemma refused_pause_loses_outcomes :
  exists sequential msg,
    fst (process_prompts_concurrent sample_env
           (mk_sched [0; 1] [0; 1] (fun _ => 0.25%float))
           ["tell a story"; "write a haiku"] sample_client PNone PNone PNone
           1 0%float "out") = Ok sequential
    /\ List.length sequential = 2
    /\ fst (process_prompts_concurrent sample_env two_unit_sched
              ["tell a story"; "write a haiku"] sample_client PNone PNone
              PNone 2 infinity "out") = Raise (OverflowError msg).
Proof.
  eexists. eexists. split; [ vm_compute; reflexivity | ].
  split; reflexivity.
Qed.

(** C9.  For a fixed backend and file system, take a batch with one worker
    and no delay and a batch with [workers] > 1 workers and any delay, under
    any two valid schedulers and clocks.  Either both raise, or both return
    and their lists agree once the elapsed times are taken out, or the
    first returns and the second raises the [OverflowError] of a pause the
    clock refused.  The second never returns when the first raises. *)
Theorem concurrency_preserves_outcomes (env : environment)
    (sch1 sch2 : scheduler) (prompts : list string) (client : GenAIClient)
    (max_tokens temperature user_id : pyval) (workers : Z) (delay : float)
    (output_path : path) :
  valid_scheduler (List.length prompts) sch1 = true ->
  valid_scheduler (List.length prompts) sch2 = true ->
  (1 < workers)%Z ->
  match fst (process_prompts_concurrent env sch1 prompts client max_tokens
               temperature user_id 1 0%float output_path),
        fst (process_prompts_concurrent env sch2 prompts client max_tokens
               temperature user_id workers delay output_path) with
  | Ok sequential, Ok concurrent =>
      pause_refused env delay (List.length prompts) = false
      /\ map strip_time sequential = map strip_time concurrent
  | Raise _, Raise _ => True
  | Ok _, Raise e =>
      pause_refused env delay (List.length prompts) = true
      /\ exists msg, sleep_error env delay = Some msg
                     /\ e = OverflowError msg
  | Raise _, Ok _ => False
  end.
Proof.
  intros Hv1 Hv2 Hw.
  destruct (fst (process_prompts_concurrent env sch1 prompts client
                   max_tokens temperature user_id 1 0%float output_path))
    as [r1 | e1] eqn:H1;
  destruct (fst (process_prompts_concurrent env sch2 prompts client
                   max_tokens temperature user_id workers delay output_path))
    as [r2 | e2] eqn:H2; [ | | | exact I ].
  - pose proof (batch_ok_accepted _ _ _ _ _ _ _ _ _ _ _ H2) as Hpause.
    split; [ exact Hpause | ].
    destruct (batch_returns_under_any_scheduler env sch1 sch2 prompts client
                max_tokens temperature user_id 1 workers 0%float delay
                output_path r1 Hv1 Hv2 ltac:(lia) Hpause H1)
      as [r2' [H2' Heq]].
    congruence.
  - destruct (pause_refused env delay (List.length prompts)) eqn:Hpause.
    + split; [ reflexivity | ].
      destruct (batch_refused env sch2 prompts client max_tokens temperature
                  user_id output_path workers delay ltac:(lia) Hpause)
        as [msg [Hmsg Hraise]].
      exists msg. split; [ exact Hmsg | congruence ].
    + destruct (batch_returns_under_any_scheduler env sch1 sch2 prompts
                  client max_tokens temperature user_id 1 workers 0%float
                  delay output_path r1 Hv1 Hv2 ltac:(lia) Hpause H1)
        as [r2' [H2' _]].
      congruence.
  - destruct (batch_returns_under_any_scheduler env sch2 sch1 prompts client
                max_tokens temperature user_id workers 1 delay 0%float
                output_path r2 Hv2 Hv1 ltac:(lia) eq_refl H2)
      as [r1' [H1' _]].
    congruence.
Qed.

Lemma concurrency_preserves_outcomes_witness :
  valid_scheduler 4 sequential_sched = true
  /\ valid_scheduler 4 sample_sched = true
  /\ (1 < 3)%Z
  /\ match fst (process_prompts_concurrent sample_env sequential_sched
                  sample_prompts sample_client PNone PNone PNone 1 0%float
                  "out"),
            fst (process_prompts_concurrent sample_env sample_sched
                  sample_prompts sample_client PNone PNone PNone 3 1%float
                  "out") with
     | Ok sequential, Ok concurrent =>
         pause_refused sample_env 1%float (List.length sample_prompts)
         = false
         /\ map strip_time sequential = map strip_time concurrent
     | Raise _, Raise _ => True
     | Ok _, Raise e =>
         pause_refused sample_env 1%float (List.length sample_prompts)
         = true
         /\ exists msg, sleep_error sample_env 1%float = Some msg
                        /\ e = OverflowError msg
     | Raise _, Ok _ => False
     end.
Proof.
  split; [ reflexivity | ].
  split; [ reflexivity | ].
  split; [ reflexivity | ].
  exact (concurrency_preserves_outcomes sample_env sequential_sched
           sample_sched sample_prompts sample_client PNone PNone PNone 3
           1%float "out" eq_refl eq_refl eq_refl).
Defined.

(* ================================================================== *)
(** ** The stored prompt text *)
(* ================================================================== *)

Lemma length_append (a b : string) :
  String.length (a ++ b)%string = String.length a + String.length b.
Proof. induction a as [| c a IH]; simpl; [ reflexivity | rewrite IH; reflexivity ]. Qed.

Lemma length_prefix (n : nat) (s : string) :
  n <= String.length s -> String.length (substring 0 n s) = n.
Proof.
  revert s. induction n as [| n IH]; intros s Hn.
  - destruct s; reflexivity.
  - destruct s as [| c s]; simpl in *; [ lia | ].
    rewrite IH by lia. reflexivity.
Qed.

Lemma prompt_preview_spec (prompt : string) :
  (String.length prompt <= 100 -> prompt_preview prompt = prompt)
  /\ (100 < String.length prompt ->
      prompt_preview prompt = (substring 0 100 prompt ++ "...")%string)
  /\ String.length (prompt_preview prompt) <= 103
  /\ (103 < String.length prompt -> prompt_preview prompt <> prompt).
Proof.
  unfold prompt_preview.
  destruct (Nat.ltb_spec 100 (String.length prompt)) as [Hlong | Hshort].
  - assert (Hlen : String.length (substring 0 100 prompt ++ "...")%string
                   = 103).
    { rewrite length_append, length_prefix by lia. reflexivity. }
    split_all.
    + lia.
    + reflexivity.
    + lia.
    + intros H E. rewrite E in Hlen. lia.
  - split_all; try reflexivity; lia.
Qed.

(** C10 as stated fails: a prompt of 103 characters ending in three dots
    is longer than 100 characters, and the record persisted in the summary
    holds its full text. *)
Lemma long_prompt_stored_in_full :
  100 < String.length dotted_prompt
  /\ In (Wrote (summary_file "out") (Json (PDict dotted_summary)))
        (fs_log (snd (process dotted_env one_unit_sched [] "prompts.txt"
                        "out" PNone PNone PNone 1 0%float)))
  /\ exists rec,
       dict_get dotted_summary "results" = Some (PList [PDict rec])
       /\ dict_get rec "prompt" = Some (PStr dotted_prompt).
Proof.
  split; [ vm_compute; lia | ].
  split.
  - vm_compute. repeat (first [ left; reflexivity | right ]).
  - eexists. split; reflexivity.
Qed.

(** C10, amended.  Every record a unit returns, and so every record of a
    persisted summary, stores the preview of its prompt: the prompt itself
    when it has at most 100 characters, its first 100 characters followed by
    three dots otherwise.  The stored text never exceeds 103 characters, and
    differs from a prompt of more than 103 characters. *)
Theorem stored_prompt_is_preview (env : environment) (sch : scheduler)
    (config : dict) (input output : string)
    (max_tokens temperature user_id : pyval) (max_workers : Z)
    (delay : float) (prompts : list string) (summary : dict) :
  valid_scheduler (List.length prompts) sch = true ->
  load_prompts env input = Ok prompts ->
  In (Wrote (summary_file output) (Json (PDict summary)))
     (fs_log (snd (process env sch config input output max_tokens
                     temperature user_id max_workers delay))) ->
  (exists results,
     dict_get summary "results" = Some (PList (map PDict results))
     /\ forall i prompt, nth_error prompts i = Some prompt ->
          exists rec,
            nth_error results i = Some rec
            /\ dict_get rec "prompt" = Some (PStr (prompt_preview prompt)))
  /\ (forall prompt index client rec,
        fst (process_single_prompt env sch prompt index client max_tokens
               temperature user_id output) = Ok rec ->
        dict_get rec "prompt" = Some (PStr (prompt_preview prompt)))
  /\ (forall prompt,
        (String.length prompt <= 100 -> prompt_preview prompt = prompt)
        /\ (100 < String.length prompt ->
            prompt_preview prompt
            = (substring 0 100 prompt ++ "...")%string)
        /\ String.length (prompt_preview prompt) <= 103
        /\ (103 < String.length prompt -> prompt_preview prompt <> prompt)).
Proof.
  intros Hv Hload Hin. split_all.
  - destruct (summary_written _ _ _ _ _ _ _ _ _ _ _ _ Hload Hin)
      as [results [total [Hb Hs]]].
    injection Hs as ->. exists results. split; [ reflexivity | ].
    destruct (batch_ordered _ _ _ _ _ _ _ _ _ _ _ Hv Hb) as [_ Hall].
    intros i prompt Hp. destruct (Hall i prompt Hp) as [rec [Hnth Hw]].
    exists rec. split; [ exact Hnth | ].
    apply worker_record in Hw. apply Hw.
  - intros prompt index client rec Hw.
    apply worker_record in Hw. apply Hw.
  - intros prompt. apply prompt_preview_spec.
Qed.

Lemma stored_prompt_is_preview_witness :
  valid_scheduler 1 one_unit_sched = true
  /\ load_prompts dotted_env "prompts.txt" = Ok [dotted_prompt]
  /\ In (Wrote (summary_file "out") (Json (PDict dotted_summary)))
        (fs_log (snd (process dotted_env one_unit_sched [] "prompts.txt"
                        "out" PNone PNone PNone 1 0%float)))
  /\ exists results,
       dict_get dotted_summary "results" = Some (PList (map PDict results))
       /\ forall i prompt, nth_error [dotted_prompt] i = Some prompt ->
            exists rec,
              nth_error results i = Some rec
              /\ dict_get rec "prompt" = Some (PStr (prompt_preview prompt)).
Proof.
  assert (Hin : In (Wrote (summary_file "out") (Json (PDict dotted_summary)))
                   (fs_log (snd (process dotted_env one_unit_sched []
                                   "prompts.txt" "out" PNone PNone PNone 1
                                   0%float)))).
  { vm_compute. repeat (first [ left; reflexivity | right ]). }
  split; [ reflexivity | ].
  split; [ reflexivity | ].
  split; [ exact Hin | ].
  apply (stored_prompt_is_preview dotted_env one_unit_sched [] "prompts.txt"
           "out" PNone PNone PNone 1 0%float [dotted_prompt] dotted_summary);
    [ reflexivity | reflexivity | exact Hin ].
Defined.

Section Classification.

Variable env : environment.
Variable sch : scheduler.
Variables (prompt : string) (index : nat) (client : GenAIClient).
Variables (max_tokens temperature user_id : pyval) (output_path : path).

Local Abbreviation worker :=
  (process_single_prompt env sch prompt index client max_tokens temperature
     user_id output_path).
Local Abbreviation result :=
  (transport_result env client prompt
     (build_params max_tokens temperature user_id)).

Lemma success_is_stored (d : dict) (text : string) :
  dict_truthy result "success" = true ->
  open_error env (item_file output_path index) = None ->
  write_error env (item_file output_path index) = None ->
  dict_get result "data" = Some (PDict d) ->
  dict_get d "generated_text" = Some (PStr text) ->
  exists rec, fst worker = Ok rec /\ kind_of rec = Success.
Proof.
  unfold process_single_prompt. rewrite generate_text_eq.
  remember result as r. clear Heqr.
  intros Hs Ho Hw Hd Ht.
  unfold open_w, py_item, file_write, py_get, dict_item.
  rewrite bind_ok. cbn [fst]. rewrite Hs, Ho.
  simpl. rewrite Hd. simpl. rewrite Ht. simpl. rewrite Hw. simpl.
  eexists. split; reflexivity.
Qed.

Lemma policy_violation_is_filtered (d : dict) :
  dict_truthy result "success" = false ->
  dict_get result "status_code" = Some (PInt 400) ->
  dict_get result "details" = Some (PDict d) ->
  dict_get d "reason" = Some (PStr "Content policy violation") ->
  exists rec, fst worker = Ok rec /\ kind_of rec = ContentFiltered.
Proof.
  unfold process_single_prompt. rewrite generate_text_eq.
  remember result as r. clear Heqr.
  intros Hs Hc Hd Hr.
  unfold py_get.
  rewrite bind_ok. cbn [fst]. rewrite Hs.
  unfold dict_get_default. rewrite Hc, Hd. simpl. rewrite Hr. simpl.
  eexists. split; reflexivity.
Qed.

Lemma other_status_is_failure (z : Z) :
  dict_truthy result "success" = false ->
  dict_get result "status_code" = Some (PInt z) -> z <> 400%Z ->
  exists rec, fst worker = Ok rec /\ kind_of rec = Failure.
Proof.
  unfold process_single_prompt. rewrite generate_text_eq.
  remember result as r. clear Heqr.
  intros Hs Hc Hz.
  rewrite bind_ok. cbn [fst]. rewrite Hs.
  unfold dict_get_default at 1. rewrite Hc. simpl.
  destruct (Z.eqb_spec z 400); [ contradiction | ]. simpl.
  eexists. split; reflexivity.
Qed.

Lemma other_reason_is_failure (d : dict) :
  dict_truthy result "success" = false ->
  dict_get_default result "details" (PDict []) = PDict d ->
  dict_get d "reason" <> Some (PStr "Content policy violation") ->
  exists rec, fst worker = Ok rec /\ kind_of rec = Failure.
Proof.
  unfold process_single_prompt. rewrite generate_text_eq.
  remember result as r. clear Heqr.
  intros Hs Hd Hr.
  rewrite bind_ok. cbn [fst]. rewrite Hs, Hd.
  assert (Hne : py_eq_str (dict_get_default d "reason" PNone)
                  "Content policy violation" = false).
  { unfold dict_get_default. destruct (dict_get d "reason") as [v |];
      [ | reflexivity ].
    destruct v; try reflexivity. simpl.
    destruct (String.eqb_spec s "Content policy violation");
      [ subst; contradiction | reflexivity ]. }
  destruct (py_eq_int (dict_get_default r "status_code" PNone) 400); simpl.
  - rewrite Hne. eexists. split; reflexivity.
  - eexists. split; reflexivity.
Qed.

Lemma kind_follows_result (rec : dict) :
  fst worker = Ok rec ->
  (kind_of rec = Success <-> dict_truthy result "success" = true).
Proof.
  intros H. apply worker_record in H.
  destruct H as [_ [_ [_ [[Hr [Hs _]] | [Hr [Hs _]]]]]];
    unfold kind_of, dict_truthy, dict_get_default in *; rewrite Hs; simpl.
  - rewrite Hr. tauto.
  - rewrite Hr. split; intros E; [ | discriminate E ].
    revert E.
    match goal with |- (if ?b then _ else _) = _ -> _ => destruct b end;
      intros E; discriminate E.
Qed.

End Classification.

(* ================================================================== *)
(** ** A failing write *)
(* ================================================================== *)

Section Abort.

Variable env : environment.
Variable sch : scheduler.
Variables (config : dict) (input output : string).
Variables (max_tokens temperature user_id : pyval).
Variables (max_workers : Z) (delay : float).

Local Abbreviation command :=
  (process env sch config input output max_tokens temperature user_id
     max_workers delay).
Local Abbreviation batch prompts :=
  (process_prompts_concurrent env sch prompts (GenAIClient_init config)
     max_tokens temperature user_id max_workers delay (Path output)).
Local Abbreviation worker i prompt :=
  (process_single_prompt env sch prompt i (GenAIClient_init config)
     max_tokens temperature user_id (Path output)).
Local Abbreviation result prompt :=
  (transport_result env (GenAIClient_init config) prompt
     (build_params max_tokens temperature user_id)).

(** A successful transport result whose file cannot be opened or written
    makes the unit raise the [OSError]. *)
Lemma write_failure_raises (i : nat) (prompt : string) (msg : string) :
  dict_truthy (result prompt) "success" = true ->
  open_error env (item_file (Path output) i) = Some msg
  \/ (open_error env (item_file (Path output) i) = None
      /\ (exists d text,
            dict_get (result prompt) "data" = Some (PDict d)
            /\ dict_get d "generated_text" = Some (PStr text))
      /\ write_error env (item_file (Path output) i) = Some msg) ->
  fst (worker i prompt) = Raise (OSError msg).
Proof.
  unfold process_single_prompt. rewrite generate_text_eq.
  remember (result prompt) as r. clear Heqr.
  intros Hs H.
  unfold open_w, py_item, file_write, py_get, dict_item.
  rewrite bind_ok. cbn [fst]. rewrite Hs.
  destruct H as [Ho | [Ho [[d [text [Hd Ht]]] Hw]]]; rewrite Ho.
  - reflexivity.
  - simpl. rewrite Hd. simpl. rewrite Ht. simpl. rewrite Hw. reflexivity.
Qed.

(** When the batch raises, so does the command, and no summary is
    written. *)
Lemma batch_failure_aborts (prompts : list string) (e : exn) :
  load_prompts env input = Ok prompts ->
  prompts <> [] ->
  fst (batch prompts) = Raise e ->
  (exists e', fst command = Raise e')
  /\ forall c, ~ In (Wrote (summary_file output) c) (fs_log (snd command)).
Proof.
  intros Hload Hne Hb.
  assert (Hlen : (List.length prompts =? 0)%nat = false).
  { destruct prompts; [ contradiction | reflexivity ]. }
  split.
  - unfold process. rewrite Hload.
    rewrite !fst_bind. cbn [lift fst echo]. rewrite Hlen.
    rewrite fst_bind. unfold mkdir.
    destruct (mkdir_error env (Path output)); [ simpl; eauto | ].
    unfold tell_fs. cbn [fst].
    rewrite !fst_bind. cbn [fst echo]. rewrite Hb. eauto.
  - intros c Hin. unfold process in Hin. rewrite Hload in Hin.
    apply in_fs_bind in Hin. destruct Hin as [[] | [ps [Hps Hin]]].
    injection Hps as <-.
    apply in_fs_bind in Hin. destruct Hin as [[] | [_ [_ Hin]]].
    rewrite Hlen in Hin.
    apply in_fs_bind in Hin. destruct Hin as [Hin | [_ [_ Hin]]].
    { unfold mkdir in Hin. destruct (mkdir_error env (Path output)); simpl in Hin;
        intuition discriminate. }
    apply in_fs_bind in Hin. destruct Hin as [[] | [_ [_ Hin]]].
    apply in_fs_bind in Hin. destruct Hin as [Hin | [results [Hres Hin]]];
      [ | congruence ].
    apply batch_fs_events in Hin. destruct Hin as [i [prompt [_ Hin]]].
    apply worker_fs_event in Hin. destruct Hin as [Hin | [text Hin]];
      [ discriminate | ].
    injection Hin as Hpath _.
    symmetry in Hpath. exact (item_file_not_summary output i Hpath).
Qed.

End Abort.

(* ================================================================== *)
(** ** The claims on classification and on failing writes *)
(* ================================================================== *)

(** C2 as stated fails twice.  A 400 result whose reason is spelt
    "content policy violation", in lower case, is classified as a plain
    failure: the comparison is with 'Content policy violation'.  And a 400
    result whose [details] is [null] yields no outcome at all: reading the
    reason raises. *)
Lemma classification_counterexample :
  (dict_truthy (transport_result sample_env sample_client
                  "blocked, lower case" []) "success" = false
   /\ dict_get (transport_result sample_env sample_client
                  "blocked, lower case" []) "status_code" = Some (PInt 400)
   /\ dict_get (transport_result sample_env sample_client
                  "blocked, lower case" []) "details"
      = Some (PDict [("reason", PStr "content policy violation");
                     ("severity", PStr "high")])
   /\ exists rec,
        fst (process_single_prompt sample_env sample_sched
               "blocked, lower case" 0 sample_client PNone PNone PNone "out")
        = Ok rec
        /\ kind_of rec = Failure)
  /\ (dict_truthy (transport_result sample_env sample_client
                     "null details" []) "success" = false
      /\ dict_get (transport_result sample_env sample_client
                     "null details" []) "status_code" = Some (PInt 400)
      /\ fst (process_single_prompt sample_env sample_sched "null details" 0
                sample_client PNone PNone PNone "out")
         = Raise (AttributeError "'NoneType' object has no attribute 'get'")).
Proof.
  split_all; try reflexivity.
  eexists. split; reflexivity.
Qed.

(** C2, amended.  A successful result whose text is stored yields a Success
    record; an unsuccessful result with status 400 whose [details] is a
    dict with reason exactly 'Content policy violation' yields a
    ContentFiltered record; an unsuccessful result with another status, or
    whose [details] is a dict with another reason or none, yields a Failure
    record; and a returned record is a Success exactly when the result was
    successful. *)
Theorem classification_of_results (env : environment) (sch : scheduler)
    (prompt : string) (index : nat) (client : GenAIClient)
    (max_tokens temperature user_id : pyval) (output_path : path) :
  (forall d text,
     dict_truthy (transport_result env client prompt
                    (build_params max_tokens temperature user_id))
       "success" = true ->
     open_error env (item_file output_path index) = None ->
     write_error env (item_file output_path index) = None ->
     dict_get (transport_result env client prompt
                 (build_params max_tokens temperature user_id)) "data"
     = Some (PDict d) ->
     dict_get d "generated_text" = Some (PStr text) ->
     exists rec,
       fst (process_single_prompt env sch prompt index client max_tokens
              temperature user_id output_path) = Ok rec
       /\ kind_of rec = Success)
  /\ (forall d,
        dict_truthy (transport_result env client prompt
                       (build_params max_tokens temperature user_id))
          "success" = false ->
        dict_get (transport_result env client prompt
                    (build_params max_tokens temperature user_id))
          "status_code" = Some (PInt 400) ->
        dict_get (transport_result env client prompt
                    (build_params max_tokens temperature user_id)) "details"
        = Some (PDict d) ->
        dict_get d "reason" = Some (PStr "Content policy violation") ->
        exists rec,
          fst (process_single_prompt env sch prompt index client max_tokens
                 temperature user_id output_path) = Ok rec
          /\ kind_of rec = ContentFiltered)
  /\ (forall z,
        dict_truthy (transport_result env client prompt
                       (build_params max_tokens temperature user_id))
          "success" = false ->
        dict_get (transport_result env client prompt
                    (build_params max_tokens temperature user_id))
          "status_code" = Some (PInt z) ->
        z <> 400%Z ->
        exists rec,
          fst (process_single_prompt env sch prompt index client max_tokens
                 temperature user_id output_path) = Ok rec
          /\ kind_of rec = Failure)
  /\ (forall d,
        dict_truthy (transport_result env client prompt
                       (build_params max_tokens temperature user_id))
          "success" = false ->
        dict_get_default
          (transport_result env client prompt
             (build_params max_tokens temperature user_id))
          "details" (PDict []) = PDict d ->
        dict_get d "reason" <> Some (PStr "Content policy violation") ->
        exists rec,
          fst (process_single_prompt env sch prompt index client max_tokens
                 temperature user_id output_path) = Ok rec
          /\ kind_of rec = Failure)
  /\ (forall rec,
        fst (process_single_prompt env sch prompt index client max_tokens
               temperature user_id output_path) = Ok rec ->
        (kind_of rec = Success
         <-> dict_truthy (transport_result env client prompt
                            (build_params max_tokens temperature user_id))
               "success" = true)).
Proof.
  split_all.
  - apply success_is_stored.
  - apply policy_violation_is_filtered.
  - apply other_status_is_failure.
  - apply other_reason_is_failure.
  - apply kind_follows_result.
Qed.

(** The defect at a concrete batch: the transport call for the second
    prompt succeeds, its file cannot be opened, and the unit raises the
    [OSError] instead of returning a Failure record; the command raises it
    in turn and writes no summary. *)
Lemma write_failure_not_downgraded :
  dict_truthy (transport_result read_only_env sample_client "write a haiku"
                 []) "success" = true
  /\ open_error read_only_env (item_file "out" 1) = Some "Permission denied"
  /\ fst (process_single_prompt read_only_env two_unit_sched "write a haiku"
            1 sample_client PNone PNone PNone "out")
     = Raise (OSError "Permission denied")
  /\ fst (process read_only_env two_unit_sched [] "prompts.txt" "out" PNone
            PNone PNone 3 1%float)
     = Raise (OSError "Permission denied")
  /\ written_summaries
       (fs_log (snd (process read_only_env two_unit_sched [] "prompts.txt"
                       "out" PNone PNone PNone 3 1%float))) = [].
Proof.
  split_all; reflexivity.
Qed.

(** C4, where the code falls short of the claim.  When the transport call
    for a prompt succeeds and its item file cannot be opened or written, the
    unit raises the [OSError] instead of returning a Failure record;
    [future.result()] raises in [process_prompts_concurrent], the command
    raises, and no summary file is written.  Neither [process_single_prompt]
    nor the collecting loop has the handler that [file] and [text] of
    [generate.py] and [report] of [usage.py] have around their writes. *)
Theorem write_failure_aborts_batch (env : environment) (sch : scheduler)
    (config : dict) (input output : string)
    (max_tokens temperature user_id : pyval) (max_workers : Z)
    (delay : float) (prompts : list string) (i : nat) (prompt : string)
    (msg : string) :
  valid_scheduler (List.length prompts) sch = true ->
  load_prompts env input = Ok prompts ->
  nth_error prompts i = Some prompt ->
  dict_truthy (transport_result env (GenAIClient_init config) prompt
                 (build_params max_tokens temperature user_id))
    "success" = true ->
  open_error env (item_file (Path output) i) = Some msg
  \/ (open_error env (item_file (Path output) i) = None
      /\ (exists d text,
            dict_get (transport_result env (GenAIClient_init config) prompt
                        (build_params max_tokens temperature user_id)) "data"
            = Some (PDict d)
            /\ dict_get d "generated_text" = Some (PStr text))
      /\ write_error env (item_file (Path output) i) = Some msg) ->
  fst (process_single_prompt env sch prompt i (GenAIClient_init config)
         max_tokens temperature user_id (Path output)) = Raise (OSError msg)
  /\ (exists e,
        fst (process_prompts_concurrent env sch prompts
               (GenAIClient_init config) max_tokens temperature user_id
               max_workers delay (Path output)) = Raise e)
  /\ (exists e,
        fst (process env sch config input output max_tokens temperature
               user_id max_workers delay) = Raise e)
  /\ forall c,
       ~ In (Wrote (summary_file output) c)
            (fs_log (snd (process env sch config input output max_tokens
                            temperature user_id max_workers delay))).
Proof.
  intros Hv Hload Hp Hs Hfail.
  pose proof (write_failure_raises env sch config output max_tokens
                temperature user_id i prompt msg Hs Hfail) as Hw.
  destruct (batch_raises env sch prompts (GenAIClient_init config) max_tokens
              temperature user_id (Path output) max_workers delay i prompt
              (OSError msg) Hv Hp Hw) as [e He].
  assert (Hne : prompts <> []).
  { intros ->. destruct i; discriminate Hp. }
  destruct (batch_failure_aborts env sch config input output max_tokens
              temperature user_id max_workers delay prompts e Hload Hne He)
    as [Hcmd Hnone].
  split_all; eauto.
Qed.

Lemma write_failure_aborts_batch_witness :
  valid_scheduler 2 two_unit_sched = true
  /\ load_prompts read_only_env "prompts.txt"
     = Ok ["tell a story"; "write a haiku"]
  /\ open_error read_only_env (item_file "out" 1) = Some "Permission denied"
  /\ (exists e,
        fst (process read_only_env two_unit_sched [] "prompts.txt" "out"
               PNone PNone PNone 3 1%float) = Raise e).
Proof.
  split; [ reflexivity | ].
  split; [ reflexivity | ].
  split; [ reflexivity | ].
  apply (write_failure_aborts_batch read_only_env two_unit_sched []
           "prompts.txt" "out" PNone PNone PNone 3 1%float
           ["tell a story"; "write a haiku"] 1 "write a haiku"
           "Permission denied");
    [ reflexivity | reflexivity | reflexivity | reflexivity
    | left; reflexivity ].
Defined.

(* ================================================================== *)
(** ** Empty input *)
(* ================================================================== *)

(** C5.  With no prompt loaded, [process] returns without raising, reports
    the failure on the error stream, sends no request and touches no
    file. *)
Theorem empty_input_reported (env : environment) (sch : scheduler)
    (config : dict) (input output : string)
    (max_tokens temperature user_id : pyval) (max_workers : Z)
    (delay : float) :
  load_prompts env input = Ok [] ->
  fst (process env sch config input output max_tokens temperature user_id
         max_workers delay) = Ok tt
  /\ requests (snd (process env sch config input output max_tokens
                      temperature user_id max_workers delay)) = []
  /\ fs_log (snd (process env sch config input output max_tokens
                    temperature user_id max_workers delay)) = []
  /\ echoes (snd (process env sch config input output max_tokens
                    temperature user_id max_workers delay))
     = [ mk_echo false [Lit "📂 Loaded "; Num 0; Lit " prompts from ";
                        Lit input];
         mk_echo true [Lit "❌ No prompts found in input file"] ].
Proof.
  intros Hload. unfold process. rewrite Hload.
  split_all; reflexivity.
Qed.

Lemma empty_input_reported_witness :
  load_prompts empty_input_env "prompts.txt" = Ok []
  /\ fst (process empty_input_env sample_sched [] "prompts.txt" "out" PNone
            PNone PNone 3 1%float) = Ok tt
  /\ requests (snd (process empty_input_env sample_sched [] "prompts.txt"
                      "out" PNone PNone PNone 3 1%float)) = []
  /\ fs_log (snd (process empty_input_env sample_sched [] "prompts.txt"
                    "out" PNone PNone PNone 3 1%float)) = [].
Proof.
  split; [ reflexivity | ].
  pose proof (empty_input_reported empty_input_env sample_sched []
                "prompts.txt" "out" PNone PNone PNone 3 1%float eq_refl)
    as [H1 [H2 [H3 _]]].
  split_all; assumption.
Defined.

(* ================================================================== *)
(** ** The files of a batch *)
(* ================================================================== *)

Section Files.

Variable env : environment.
Variable sch : scheduler.
Variables (config : dict) (input output : string).
Variables (max_tokens temperature user_id : pyval).
Variables (max_workers : Z) (delay : float).

Local Abbreviation command :=
  (process env sch config input output max_tokens temperature user_id
     max_workers delay).
Local Abbreviation worker i prompt :=
  (process_single_prompt env sch prompt i (GenAIClient_init config)
     max_tokens temperature user_id (Path output)).


(** A command that returns on a non-empty input has written its summary. *)
Lemma command_writes_summary (prompts : list string) :
  load_prompts env input = Ok prompts -> prompts <> [] ->
  fst command = Ok tt ->
  exists summary,
    In (Wrote (summary_file output) (Json (PDict summary)))
       (fs_log (snd command)).
Proof.
  intros Hload Hne H. unfold process in *. rewrite Hload in *.
  assert (Hlen : (List.length prompts =? 0)%nat = false).
  { destruct prompts; [ contradiction | reflexivity ]. }
  apply fst_bind_ok in H. destruct H as [ps [Hps H]].
  injection Hps as <-.
  apply fst_bind_ok in H. destruct H as [u1 [Hu1 H]].
  rewrite Hlen in H.
  apply fst_bind_ok in H. destruct H as [u2 [Hu2 H]].
  apply fst_bind_ok in H. destruct H as [u3 [Hu3 H]].
  apply fst_bind_ok in H. destruct H as [results [Hres H]].
  apply fst_bind_ok in H. destruct H as [total [Htot H]].
  apply fst_bind_ok in H. destruct H as [u4 [Hu4 H]].
  apply fst_bind_ok in H. destruct H as [u5 [Hu5 _]].
  eexists.
  eapply in_fs_bind_r; [ reflexivity | ].
  eapply in_fs_bind_r; [ exact Hu1 | ].
  cbv beta. rewrite Hlen.
  eapply in_fs_bind_r; [ exact Hu2 | ].
  eapply in_fs_bind_r; [ exact Hu3 | ].
  eapply in_fs_bind_r; [ exact Hres | ].
  eapply in_fs_bind_r; [ exact Htot | ].
  eapply in_fs_bind_r; [ exact Hu4 | ].
  apply in_fs_bind_l.
  unfold json_dump in *.
  destruct (write_error env (summary_file output)); [ discriminate Hu5 | ].
  simpl. left. reflexivity.
Qed.

(** A sum of elapsed times, which are floats, started from the integer 0. *)
Lemma py_add_float (acc x : pyval) :
  acc = PInt 0 \/ is_float acc = true -> is_float x = true ->
  exists c, fst (py_add acc x) = Ok c /\ is_float c = true.
Proof.
  intros [-> | Hacc] Hx; destruct x; try discriminate Hx.
  - eexists. split; reflexivity.
  - destruct acc; try discriminate Hacc. eexists. split; reflexivity.
Qed.

Lemma py_sum_returns (xs : list pyval) (acc : pyval) :
  acc = PInt 0 \/ is_float acc = true ->
  Forall (fun x => is_float x = true) xs ->
  exists total, fst (py_sum acc xs) = Ok total.
Proof.
  intros Hacc Hxs. revert acc Hacc.
  induction Hxs as [| x xs Hx _ IH]; intros acc Hacc.
  - exists acc. reflexivity.
  - cbn [py_sum]. rewrite fst_bind.
    destruct (py_add_float acc x Hacc Hx) as [c [-> Hc]].
    apply IH. right. exact Hc.
Qed.

(** The command returns when the output directory and the summary file can
    be written, the pool can be built and every unit returns. *)
Lemma command_completes (prompts : list string) :
  valid_scheduler (List.length prompts) sch = true ->
  load_prompts env input = Ok prompts -> prompts <> [] ->
  (0 < max_workers)%Z ->
  pause_refused env delay (List.length prompts) = false ->
  mkdir_error env (Path output) = None ->
  open_error env (summary_file output) = None ->
  write_error env (summary_file output) = None ->
  (forall i prompt, nth_error prompts i = Some prompt ->
     exists rec, fst (worker i prompt) = Ok rec) ->
  fst command = Ok tt.
Proof.
  intros Hv Hload Hne Hw Hpause Hmk Hop Hwr Hall.
  assert (Hlen : (List.length prompts =? 0)%nat = false).
  { destruct prompts; [ contradiction | reflexivity ]. }
  destruct (batch_returns env sch prompts (GenAIClient_init config)
              max_tokens temperature user_id (Path output) max_workers delay
              Hv Hw Hpause Hall) as [results Hb].
  destruct (batch_ordered _ _ _ _ _ _ _ _ _ _ _ Hv Hb) as [Hrl Hrec].
  destruct (py_sum_returns
              (map (fun r => dict_get_default r "processing_time" (PInt 0))
                 results) (PInt 0) (or_introl eq_refl)) as [total Htotal].
  { apply Forall_forall. intros x Hx. apply in_map_iff in Hx.
    destruct Hx as [rec [<- Hin]].
    apply In_nth_error in Hin. destruct Hin as [i Hi].
    assert (Hlt : i < List.length prompts).
    { rewrite <- Hrl. apply nth_error_Some. congruence. }
    destruct (nth_error prompts i) as [prompt |] eqn:Hp;
      [ | apply nth_error_None in Hp; lia ].
    destruct (Hrec i prompt Hp) as [rec' [Hnth Hwk]].
    assert (rec' = rec) by congruence. subst rec'.
    apply worker_record in Hwk. destruct Hwk as [_ [_ [Ht _]]].
    unfold dict_get_default. rewrite Ht. reflexivity. }
  unfold process. rewrite Hload.
  erewrite fst_bind_step by reflexivity.
  erewrite fst_bind_step by reflexivity.
  rewrite Hlen.
  rewrite (fst_bind_step _ _ tt)
    by (unfold mkdir; rewrite Hmk; reflexivity).
  erewrite fst_bind_step by reflexivity.
  rewrite (fst_bind_step _ _ results Hb).
  rewrite (fst_bind_step _ _ total Htotal).
  rewrite (fst_bind_step _ _ tt)
    by (unfold open_w; rewrite Hop; reflexivity).
  rewrite (fst_bind_step _ _ tt)
    by (unfold json_dump; rewrite Hwr; reflexivity).
  do 3 (erewrite fst_bind_step by reflexivity).
  destruct (0 <? count_truthy "content_filtered" results)%Z,
           (0 <? count_truthy "success" results)%Z;
    reflexivity.
Qed.

End Files.


(** *** The digits of a file name *)











Section Written.

Variable env : environment.
Variable sch : scheduler.
Variables (config : dict) (input output : string).
Variables (max_tokens temperature user_id : pyval).
Variables (max_workers : Z) (delay : float).

Local Abbreviation command :=
  (process env sch config input output max_tokens temperature user_id
     max_workers delay).
Local Abbreviation batch prompts :=
  (process_prompts_concurrent env sch prompts (GenAIClient_init config)
     max_tokens temperature user_id max_workers delay (Path output)).
Local Abbreviation worker i prompt :=
  (process_single_prompt env sch prompt i (GenAIClient_init config)
     max_tokens temperature user_id (Path output)).
Local Abbreviation result prompt :=
  (transport_result env (GenAIClient_init config) prompt
     (build_params max_tokens temperature user_id)).




End Written.




(* ================================================================== *)
(** ** Per-request overrides *)
(* ================================================================== *)

(** An override that is true as a condition reaches the payload; one that
    is false as a condition ([None], but also 0, 0.0 and the empty string)
    is replaced by the configured default. *)
Lemma overrides_in_payload (client : GenAIClient) (prompt : string)
    (max_tokens temperature user_id : pyval) :
  dict_get (generate_text_payload client prompt
              (build_params max_tokens temperature user_id)) "max_tokens"
  = Some (if truthy max_tokens then max_tokens
          else dict_get_default (config client) "default_max_tokens"
                 (PInt 1000))
  /\ dict_get (generate_text_payload client prompt
                 (build_params max_tokens temperature user_id)) "temperature"
     = Some (if truthy temperature then temperature
             else dict_get_default (config client) "default_temperature"
                    (PFloat 0.7%float))
  /\ dict_get (generate_text_payload client prompt
                 (build_params max_tokens temperature user_id)) "user_id"
     = Some (if truthy user_id then user_id
             else dict_get_default (config client) "default_user_id"
                    (PStr "cli_user")).
Proof.
  unfold build_params.
  destruct (truthy max_tokens), (truthy temperature), (truthy user_id);
    split_all; reflexivity.
Qed.

(** C8 fails on the code.  A temperature override of 0.0 handed to a unit
    is dropped: the request carries the configured default 0.7.  The client
    itself would send a 0.0 it is given, and an override of 0.5 is sent. *)
Theorem zero_temperature_override_dropped (env : environment)
    (sch : scheduler) :
  requests (snd (process_single_prompt env sch "hello" 0 sample_client
                   PNone (PFloat 0%float) PNone "out"))
  = [ mk_request
        (PStr "https://2i9yquihz5.execute-api.us-east-2.amazonaws.com/Prod")
        [ ("prompt", PStr "hello");
          ("max_tokens", PInt 1000);
          ("temperature", PFloat 0.7%float);
          ("user_id", PStr "cli_user") ]
        (PInt 30) ]
  /\ requests (snd (process_single_prompt env sch "hello" 0 sample_client
                      PNone (PFloat 0.5%float) PNone "out"))
     = [ mk_request
           (PStr "https://2i9yquihz5.execute-api.us-east-2.amazonaws.com/Prod")
           [ ("prompt", PStr "hello");
             ("max_tokens", PInt 1000);
             ("temperature", PFloat 0.5%float);
             ("user_id", PStr "cli_user") ]
           (PInt 30) ]
  /\ dict_get (generate_text_payload sample_client "hello"
                 [("temperature", PFloat 0%float)]) "temperature"
     = Some (PFloat 0%float).
Proof.
  split_all.
  - destruct (worker_channels env sch "hello" 0 sample_client PNone
                (PFloat 0%float) PNone "out") as [-> _]. reflexivity.
  - destruct (worker_channels env sch "hello" 0 sample_client PNone
                (PFloat 0.5%float) PNone "out") as [-> _]. reflexivity.
  - reflexivity.
Qed.

(* ================================================================== *)
(** ** The ordering invariant *)
(* ================================================================== *)

(** C1.  With a valid scheduler, the list [process_prompts_concurrent]
    returns has one record per prompt and the record at position [i] carries
    index [i], whatever the order of completion; the list persisted in
    [batch_summary.json] is such a list.  When the pool can be built, the
    clock takes the pause between two submissions and every unit returns an
    outcome, the list is returned, and persisted if the output directory
    and the summary file can be written; when the clock refuses the pause,
    no list is returned: the batch raises the [OverflowError]. *)
Theorem outcomes_in_input_order (env : environment) (sch : scheduler)
    (config : dict) (input output : string)
    (max_tokens temperature user_id : pyval) (max_workers : Z)
    (delay : float) (prompts : list string) :
  prompts <> [] ->
  valid_scheduler (List.length prompts) sch = true ->
  load_prompts env input = Ok prompts ->
  (forall results,
     fst (process_prompts_concurrent env sch prompts (GenAIClient_init config)
            max_tokens temperature user_id max_workers delay (Path output))
     = Ok results ->
     ordered_outcomes (List.length prompts) results)
  /\ (forall summary,
        In (Wrote (summary_file output) (Json (PDict summary)))
           (fs_log (snd (process env sch config input output max_tokens
                           temperature user_id max_workers delay))) ->
        exists results,
          dict_get summary "results" = Some (PList (map PDict results))
          /\ ordered_outcomes (List.length prompts) results)
  /\ ((0 < max_workers)%Z ->
      pause_refused env delay (List.length prompts) = false ->
      (forall i prompt, nth_error prompts i = Some prompt ->
         exists rec,
           fst (process_single_prompt env sch prompt i
                  (GenAIClient_init config) max_tokens temperature user_id
                  (Path output)) = Ok rec) ->
      (exists results,
         fst (process_prompts_concurrent env sch prompts
                (GenAIClient_init config) max_tokens temperature user_id
                max_workers delay (Path output)) = Ok results
         /\ ordered_outcomes (List.length prompts) results)
      /\ (mkdir_error env (Path output) = None ->
          open_error env (summary_file output) = None ->
          write_error env (summary_file output) = None ->
          exists summary,
            In (Wrote (summary_file output) (Json (PDict summary)))
               (fs_log (snd (process env sch config input output max_tokens
                               temperature user_id max_workers delay)))))
  /\ ((0 < max_workers)%Z ->
      pause_refused env delay (List.length prompts) = true ->
      exists msg,
        sleep_error env delay = Some msg
        /\ fst (process_prompts_concurrent env sch prompts
                  (GenAIClient_init config) max_tokens temperature user_id
                  max_workers delay (Path output))
           = Raise (OverflowError msg)).
Proof.
  intros Hne Hv Hload. split_all.
  - intros results Hb. eapply batch_ordered_outcomes; eassumption.
  - intros summary Hin.
    destruct (summary_written _ _ _ _ _ _ _ _ _ _ _ _ Hload Hin)
      as [results [total [Hb Hs]]].
    exists results. split.
    + injection Hs as ->. reflexivity.
    + eapply batch_ordered_outcomes; eassumption.
  - intros Hw Hpause Hall. split.
    + destruct (batch_returns env sch prompts (GenAIClient_init config)
                  max_tokens temperature user_id (Path output) max_workers
                  delay Hv Hw Hpause Hall) as [results Hb].
      exists results. split; [ exact Hb | ].
      eapply batch_ordered_outcomes; eassumption.
    + intros Hmk Hop Hwr.
      eapply command_writes_summary; try eassumption.
      eapply command_completes; eassumption.
  - intros Hw Hpause. apply batch_refused; assumption.
Qed.

Lemma outcomes_in_input_order_witness :
  sample_prompts <> []
  /\ valid_scheduler 4 sample_sched = true
  /\ load_prompts sample_env "prompts.txt" = Ok sample_prompts
  /\ pause_refused sample_env 1%float 4 = false
  /\ exists results,
       fst (process_prompts_concurrent sample_env sample_sched sample_prompts
              (GenAIClient_init []) PNone PNone PNone 3 1%float (Path "out"))
       = Ok results
       /\ ordered_outcomes 4 results.
Proof.
  split; [ discriminate | ].
  split; [ reflexivity | ].
  split; [ reflexivity | ].
  split; [ reflexivity | ].
  refine (proj1 (proj1 (proj2 (proj2 (outcomes_in_input_order sample_env
            sample_sched [] "prompts.txt" "out" PNone PNone PNone 3 1%float
            sample_prompts _ _ _))) _ _ _));
    [ discriminate | reflexivity | reflexivity | reflexivity | reflexivity
    | ].
  intros i prompt H.
  do 4 (destruct i as [| i];
        [ injection H as <-; eexists; reflexivity | ]).
  destruct i; discriminate H.
Defined.

(* ================================================================== *)
(** ** Traces *)
(* ================================================================== *)

Lemma fst_and_then {A B} (c : Cmd A) (k : A -> Cmd B) :
  fst (and_then c k)
  = match fst c with Done a => fst (k a) | Failed e => Failed e end.
Proof.
  destruct c as [[a | e] t]; simpl; [ destruct (k a) | ]; reflexivity.
Qed.

Lemma snd_and_then {A B} (c : Cmd A) (k : A -> Cmd B) :
  snd (and_then c k)
  = match fst c with
    | Done a => snd c ++ snd (k a)
    | Failed _ => snd c
    end.
Proof.
  destruct c as [[a | e] t]; simpl; [ destruct (k a) | ]; reflexivity.
Qed.

Lemma and_then_done {A B} (a : A) (t : list event) (k : A -> Cmd B) :
  and_then (Done a, t) k = (fst (k a), t ++ snd (k a)).
Proof. simpl. destruct (k a). reflexivity. Qed.

Lemma and_then_failed {A B} (e : error) (t : list event) (k : A -> Cmd B) :
  and_then (Failed e, t) k = (Failed e, t).
Proof. reflexivity. Qed.

Lemma run_generate_text (env : environment) (self : GenAIClient)
    (prompt : string) (kwargs : dict) :
  run (generate_text env self prompt kwargs)
  = (Done (transport_result env self prompt kwargs),
     [Posted (request_of self prompt kwargs)]).
Proof. unfold run. rewrite generate_text_eq. reflexivity. Qed.

(* ================================================================== *)
(** ** The usage endpoint and the health check *)
(* ================================================================== *)

Ltac usage_cases w self user_id days :=
  unfold Client.get_usage_stats, Client.requests_get;
  fold (usage_request_of self user_id days);
  destruct (http_get w (usage_request_of self user_id days)) as [resp | e];
  simpl.

(** Whatever the usage endpoint answers, [get_usage_stats] returns a record
    after exactly one GET. *)
Lemma get_usage_stats_returns (w : world) (self : GenAIClient)
    (user_id days : pyval) :
  exists r,
    Client.get_usage_stats w self user_id days
    = (Done r, [Got (usage_request_of self user_id days)]).
Proof.
  usage_cases w self user_id days; [ | eauto ].
  destruct (status_code resp =? 200)%Z.
  - destruct (resp_json resp) as [v | e]; simpl; eauto.
  - destruct (String.eqb (resp_content resp) EmptyString); simpl; eauto.
    destruct (resp_json resp) as [v | e]; simpl;
      [ destruct v | ]; simpl; eauto.
Qed.

Lemma get_usage_stats_eq (w : world) (self : GenAIClient)
    (user_id days : pyval) :
  Client.get_usage_stats w self user_id days
  = (Done (usage_result w self user_id days),
     [Got (usage_request_of self user_id days)]).
Proof.
  destruct (get_usage_stats_returns w self user_id days) as [r Hr].
  unfold usage_result. rewrite Hr. reflexivity.
Qed.

Ltac usage_unfold self user_id days :=
  unfold usage_result, Client.get_usage_stats, Client.requests_get;
  fold (usage_request_of self user_id days).

(** [get_usage_stats] never raises and sends exactly one GET, to the given
    user when the identifier is true as a condition and to the configured
    default user otherwise, with a [days] parameter unless [days] equals 7.
    A 200 answer with a decodable body gives [success] true with the parsed
    statistics; every exception, the timeout and the undecodable body
    included, gives status code 500 with the text of the exception; any
    other status gives a record with [success] false, an error and a status
    code. *)
Theorem get_usage_stats_uniform_result (w : world) (self : GenAIClient)
    (user_id days : pyval) :
  Client.get_usage_stats w self user_id days
  = (Done (usage_result w self user_id days),
     [Got (mk_usage_request (base_url self)
             (if truthy user_id then user_id
              else dict_get_default (config self) "default_user_id"
                     (PStr "cli_user"))
             (if py_eq_int days 7 then [] else [("days", days)])
             (timeout self))])
  /\ (forall e,
        http_get w (usage_request_of self user_id days) = Failed e ->
        usage_result w self user_id days
        = [ ("success", PBool false);
            ("error", PStr ("Error fetching stats: " ++ error_text e)%string);
            ("status_code", PInt 500) ])
  /\ (forall resp e,
        http_get w (usage_request_of self user_id days) = Done resp ->
        status_code resp = 200%Z -> resp_json resp = Raise e ->
        usage_result w self user_id days
        = [ ("success", PBool false);
            ("error", PStr ("Error fetching stats: " ++ exn_str e)%string);
            ("status_code", PInt 500) ])
  /\ (forall resp v,
        http_get w (usage_request_of self user_id days) = Done resp ->
        status_code resp = 200%Z -> resp_json resp = Ok v ->
        usage_result w self user_id days
        = [ ("success", PBool true); ("data", v);
            ("status_code", PInt 200) ])
  /\ (forall resp,
        http_get w (usage_request_of self user_id days) = Done resp ->
        status_code resp <> 200%Z ->
        uniform_failure (usage_result w self user_id days))
  /\ (dict_get (usage_result w self user_id days) "success"
      = Some (PBool true)
      \/ uniform_failure (usage_result w self user_id days)).
Proof.
  split_all.
  - rewrite get_usage_stats_eq. unfold usage_request_of.
    destruct (py_eq_int days 7); reflexivity.
  - intros e H. usage_unfold self user_id days. rewrite H. reflexivity.
  - intros resp e H Hs Hj. usage_unfold self user_id days. rewrite H. simpl.
    rewrite Hs, Hj. reflexivity.
  - intros resp v H Hs Hj. usage_unfold self user_id days. rewrite H. simpl.
    rewrite Hs, Hj. reflexivity.
  - intros resp H Hs. usage_unfold self user_id days. rewrite H. simpl.
    destruct (Z.eqb_spec (status_code resp) 200) as [E | E];
      [ contradiction | ].
    destruct (String.eqb (resp_content resp) EmptyString); simpl;
      [ failure_shape | ].
    destruct (resp_json resp) as [v | e]; simpl;
      [ destruct v | ]; failure_shape.
  - usage_unfold self user_id days.
    destruct (http_get w (usage_request_of self user_id days)) as [resp | e];
      simpl; [ | right; failure_shape ].
    destruct (status_code resp =? 200)%Z.
    + destruct (resp_json resp) as [v | e]; simpl;
        [ left; reflexivity | right; failure_shape ].
    + right.
      destruct (String.eqb (resp_content resp) EmptyString); simpl;
        [ failure_shape | ].
      destruct (resp_json resp) as [v | e]; simpl;
        [ destruct v | ]; failure_shape.
Qed.

(** The [success] field of a transport result is a boolean, true exactly
    for a 200 answer with a decodable body. *)
Lemma transport_success (env : environment) (self : GenAIClient)
    (prompt : string) (kwargs : dict) :
  exists b,
    dict_get (transport_result env self prompt kwargs) "success"
    = Some (PBool b)
    /\ (b = true <->
        exists resp v,
          http_post env (request_of self prompt kwargs) = Ok resp
          /\ status_code resp = 200%Z /\ resp_json resp = Ok v).
Proof.
  transport_cases env self prompt kwargs.
  - destruct (Z.eqb_spec (status_code resp) 200) as [E | E].
    + destruct (resp_json resp) as [v | e] eqn:Hj; simpl.
      * exists true. split; [ reflexivity | ]. split; [ eauto | reflexivity ].
      * exists false. split; [ destruct e; reflexivity | ].
        split; [ discriminate | ].
        intros [resp' [v [H [_ Hv]]]]. injection H as <-. congruence.
    + exists false. split.
      * destruct (status_code resp =? 400)%Z.
        -- destruct (resp_json resp) as [v | e]; simpl;
             [ destruct v | destruct e ]; reflexivity.
        -- destruct (String.eqb (resp_content resp) EmptyString); simpl;
             [ reflexivity | ].
           destruct (resp_json resp) as [v | e]; simpl;
             [ destruct v | destruct e ]; reflexivity.
      * split; [ discriminate | ].
        intros [resp' [v [H [Hs _]]]]. injection H as <-. contradiction.
  - exists false. split; [ destruct e; reflexivity | ].
    split; [ discriminate | ]. intros [resp [v [H _]]]. discriminate H.
Qed.

Lemma health_check_returns (w : world) (self : GenAIClient) :
  exists healthy,
    Client.health_check w self
    = (Done (PBool healthy), [Posted (health_request self)])
    /\ (healthy = true <->
        exists resp v,
          http_post (net w) (health_request self) = Ok resp
          /\ status_code resp = 200%Z /\ resp_json resp = Ok v).
Proof.
  destruct (transport_success (net w) self "test" [("max_tokens", PInt 10)])
    as [b [Hb Hiff]].
  exists b. split; [ | exact Hiff ].
  unfold Client.health_check. rewrite run_generate_text.
  rewrite and_then_done. unfold dict_item. rewrite Hb. reflexivity.
Qed.

(** [health_check] never raises, posts exactly one request (the prompt
    "test" with [max_tokens] 10 and the configured defaults otherwise), and
    returns [True] exactly when the backend answers it with status 200 and
    a decodable body. *)
Theorem health_check_reflects_backend (w : world) (self : GenAIClient) :
  exists healthy,
    Client.health_check w self
    = (Done (PBool healthy),
       [Posted (mk_request (base_url self)
                  [ ("prompt", PStr "test");
                    ("max_tokens", PInt 10);
                    ("temperature",
                      dict_get_default (config self) "default_temperature"
                        (PFloat 0.7%float));
                    ("user_id",
                      dict_get_default (config self) "default_user_id"
                        (PStr "cli_user")) ]
                  (timeout self))])
    /\ (healthy = true <->
        exists resp v,
          http_post (net w) (health_request self) = Ok resp
          /\ status_code resp = 200%Z /\ resp_json resp = Ok v).
Proof.
  destruct (health_check_returns w self) as [b [H Hiff]].
  exists b. split; [ exact H | exact Hiff ].
Qed.

(* ================================================================== *)
(** ** The status and quick commands *)
(* ================================================================== *)

Lemma posts_app (a b : list event) : posts (a ++ b) = posts a ++ posts b.
Proof. apply flat_map_app. Qed.

Lemma gets_app (a b : list event) : gets (a ++ b) = gets a ++ gets b.
Proof. apply flat_map_app. Qed.

Lemma files_app (a b : list event) : files (a ++ b) = files a ++ files b.
Proof. apply flat_map_app. Qed.

Lemma saves_app (a b : list event) : saves (a ++ b) = saves a ++ saves b.
Proof. apply flat_map_app. Qed.

(** [status] always posts the health request, and asks the usage endpoint
    (for the configured user, without a [days] parameter) exactly when the
    health check succeeded; when it failed, the command prints the failure
    and returns. *)
Theorem status_asks_usage_only_when_healthy (w : world) (config : dict) :
  exists healthy,
    (healthy = true <->
     exists resp v,
       http_post (net w) (health_request (GenAIClient_init config)) = Ok resp
       /\ status_code resp = 200%Z /\ resp_json resp = Ok v)
    /\ posts (snd (Main.status w config))
       = [health_request (GenAIClient_init config)]
    /\ gets (snd (Main.status w config))
       = (if healthy
          then [mk_usage_request (base_url (GenAIClient_init config))
                  (CLIConfig.get config "default_user_id" (PStr "cli_user"))
                  [] (timeout (GenAIClient_init config))]
          else [])
    /\ (healthy = false ->
        fst (Main.status w config) = Done tt
        /\ printed false (snd (Main.status w config))
           = [ [Str "🤖 AWS GenAI Bot CLI Status"];
               [Str (repeat_char "="%char 40)];
               [Str "API Endpoint: ";
                Obj (CLIConfig.get config "api_endpoint" PNone)];
               [Str "User ID: ";
                Obj (CLIConfig.get config "default_user_id" PNone)];
               [Str "
Testing API connection..."];
               [Str "API connection failed"];
               [Str "Run 'genai config test' for detailed diagnostics"] ]).
Proof.
  destruct (health_check_returns w (GenAIClient_init config))
    as [b [Hhc Hiff]].
  exists b. split; [ exact Hiff | ].
  unfold Main.status. rewrite Hhc, get_usage_stats_eq.
  remember (usage_result w (GenAIClient_init config)
              (CLIConfig.get config "default_user_id" PNone) (PInt 7))
    as stats_result.
  assert (Hreq : usage_request_of (GenAIClient_init config)
                   (CLIConfig.get config "default_user_id" PNone) (PInt 7)
                 = mk_usage_request (base_url (GenAIClient_init config))
                     (CLIConfig.get config "default_user_id" (PStr "cli_user"))
                     [] (timeout (GenAIClient_init config))).
  { unfold usage_request_of, CLIConfig.get, dict_get_default. simpl.
    destruct (dict_get config "default_user_id") as [v |] eqn:Hu;
      simpl; [ | reflexivity ].
    destruct (truthy v); reflexivity. }
  rewrite Hreq. clear Hreq.
  unfold say, say_err, tell, py_get, py_item, dict_item. simpl.
  destruct b; simpl.
  - repeat (break_match; simpl); split_all; try reflexivity;
      intros; discriminate.
  - split_all; try reflexivity. intros _. split; reflexivity.
Qed.

(* ================================================================== *)
(** ** Loading the prompts *)
(* ================================================================== *)

Lemma lstrip_first (space : ascii -> bool) (s : string) (c : ascii) :
  first_char (lstrip space s) = Some c -> space c = false.
Proof.
  induction s as [| a s IH]; simpl; [ discriminate | ].
  destruct (space a) eqn:Ha; [ exact IH | ].
  simpl. intros H. injection H as <-. exact Ha.
Qed.

Lemma rstrip_first (space : ascii -> bool) (s : string) (c : ascii) :
  first_char (rstrip space s) = Some c -> first_char s = Some c.
Proof.
  destruct s as [| a s]; simpl; [ discriminate | ].
  destruct (rstrip space s); [ destruct (space a) | ]; simpl;
    [ discriminate | auto | auto ].
Qed.

Lemma rstrip_last (space : ascii -> bool) (s : string) (c : ascii) :
  last_char (rstrip space s) = Some c -> space c = false.
Proof.
  induction s as [| a s IH]; simpl; [ discriminate | ].
  destruct (rstrip space s) as [| b kept] eqn:Hk.
  - destruct (space a) eqn:Ha; simpl; [ discriminate | ].
    intros H. injection H as <-. exact Ha.
  - simpl. exact IH.
Qed.

Lemma strip_clean (space : ascii -> bool) (s : string) :
  (forall c, first_char (strip space s) = Some c -> space c = false)
  /\ (forall c, last_char (strip space s) = Some c -> space c = false).
Proof.
  unfold strip. split; intros c H.
  - apply rstrip_first in H. eapply lstrip_first. exact H.
  - eapply rstrip_last. exact H.
Qed.

Lemma concat_file_lines (s : string) :
  String.concat EmptyString (file_lines s) = s.
Proof.
  induction s as [| c s IH]; [ reflexivity | ].
  cbn [file_lines].
  destruct (Ascii.eqb c "010"%char).
  - destruct (file_lines s) as [| l ls]; simpl in *; congruence.
  - destruct (file_lines s) as [| l ls]; simpl in *; [ congruence | ].
    destruct ls; simpl in *; congruence.
Qed.

Lemma nonempty_spec (s : string) : nonempty s = true <-> s <> EmptyString.
Proof.
  unfold nonempty. destruct (String.eqb_spec s EmptyString); simpl;
    split; congruence.
Qed.

Lemma load_prompts_text_eq (w : world) (input_file content : string) :
  path_exists w input_file = true ->
  str_lower w (path_suffix w input_file) <> ".json" ->
  read_text w input_file = Done content ->
  Batch.load_prompts w input_file
  = (Done (PList (map PStr
                    (filter nonempty
                       (map (strip (isspace w)) (file_lines content))))),
     []).
Proof.
  intros He Hs Hr. unfold Batch.load_prompts. rewrite He. simpl.
  destruct (String.eqb_spec (str_lower w (path_suffix w input_file)) ".json");
    [ contradiction | ].
  rewrite Hr. reflexivity.
Qed.

(** For an input file that exists, is not a [.json] file and can be read,
    [load_prompts] returns the lines of the text in their order, each
    stripped, the empty ones left out: no loaded prompt is empty or begins
    or ends with white space, and there are at most as many prompts as
    lines.  The lines are the text cut after each newline. *)
Theorem load_prompts_text_clean (w : world) (input_file content : string) :
  path_exists w input_file = true ->
  str_lower w (path_suffix w input_file) <> ".json" ->
  read_text w input_file = Done content ->
  exists prompts,
    Batch.load_prompts w input_file = (Done (PList (map PStr prompts)), [])
    /\ prompts
       = filter nonempty (map (strip (isspace w)) (file_lines content))
    /\ String.concat EmptyString (file_lines content) = content
    /\ Forall (fun p =>
                 p <> EmptyString
                 /\ (forall c, first_char p = Some c -> isspace w c = false)
                 /\ (forall c, last_char p = Some c -> isspace w c = false))
              prompts
    /\ List.length prompts <= List.length (file_lines content).
Proof.
  intros He Hs Hr.
  exists (filter nonempty (map (strip (isspace w)) (file_lines content))).
  split_all.
  - apply load_prompts_text_eq; assumption.
  - reflexivity.
  - apply concat_file_lines.
  - apply Forall_forall. intros p Hp.
    apply filter_In in Hp. destruct Hp as [Hin Hne].
    apply in_map_iff in Hin. destruct Hin as [line [<- _]].
    split; [ apply nonempty_spec; exact Hne | apply strip_clean ].
  - rewrite <- (length_map (strip (isspace w)) (file_lines content)).
    apply filter_length_le.
Qed.

Lemma load_prompts_text_clean_witness :
  path_exists sample_world "prompts.txt" = true
  /\ str_lower sample_world (path_suffix sample_world "prompts.txt")
     <> ".json"
  /\ read_text sample_world "prompts.txt" = Done sample_text
  /\ Batch.load_prompts sample_world "prompts.txt"
     = (Done (PList [PStr "tell a story"; PStr "write a haiku"]), []).
Proof.
  split; [ reflexivity | ].
  split; [ discriminate | ].
  split; [ reflexivity | ].
  destruct (load_prompts_text_clean sample_world "prompts.txt" sample_text
              eq_refl ltac:(discriminate) eq_refl) as [prompts [H [-> _]]].
  exact H.
Defined.

(** A text input file whose lines are all blank loads no prompt, so that
    [process], in an environment that hands over what the loader returns,
    reports the failure, sends no request and touches no file. *)
Theorem blank_file_reports_no_prompts (env : environment) (w : world)
    (sch : scheduler) (config : dict) (input output content : string)
    (max_tokens temperature user_id : pyval) (max_workers : Z)
    (delay : float) :
  environment_loads env w input ->
  path_exists w input = true ->
  str_lower w (path_suffix w input) <> ".json" ->
  read_text w input = Done content ->
  Forall (fun line => strip (isspace w) line = EmptyString)
         (file_lines content) ->
  Batch.load_prompts w input = (Done (PList []), [])
  /\ fst (process env sch config input output max_tokens temperature user_id
            max_workers delay) = Ok tt
  /\ requests (snd (process env sch config input output max_tokens
                      temperature user_id max_workers delay)) = []
  /\ fs_log (snd (process env sch config input output max_tokens
                    temperature user_id max_workers delay)) = []
  /\ map to_stderr
         (echoes (snd (process env sch config input output max_tokens
                         temperature user_id max_workers delay)))
     = [false; true].
Proof.
  intros Henv He Hs Hr Hblank.
  assert (Hnone : filter nonempty
                    (map (strip (isspace w)) (file_lines content)) = []).
  { induction Hblank as [| line ls Hl _ IH]; simpl; [ reflexivity | ].
    rewrite Hl. simpl. exact IH. }
  pose proof (load_prompts_text_eq w input content He Hs Hr) as Hload.
  rewrite Hnone in Hload.
  assert (Hempty : load_prompts env input = Ok []).
  { apply Henv. rewrite Hload. reflexivity. }
  split; [ exact Hload | ].
  unfold process. rewrite Hempty. split_all; reflexivity.
Qed.

Lemma blank_file_reports_no_prompts_witness :
  environment_loads empty_input_env sample_world "blank.txt"
  /\ path_exists sample_world "blank.txt" = true
  /\ read_text sample_world "blank.txt" = Done "  
	
"
  /\ fst (process empty_input_env sample_sched [] "blank.txt" "out" PNone
            PNone PNone 3 1%float) = Ok tt.
Proof.
  assert (Henv : environment_loads empty_input_env sample_world "blank.txt").
  { intros prompts H. vm_compute in H.
    destruct prompts; [ reflexivity | discriminate H ]. }
  split; [ exact Henv | ].
  split; [ reflexivity | ].
  split; [ reflexivity | ].
  apply (blank_file_reports_no_prompts empty_input_env sample_world
           sample_sched [] "blank.txt" "out" "  
	
" PNone PNone PNone 3 1%float Henv eq_refl ltac:(discriminate) eq_refl).
  repeat constructor.
Defined.

(* ================================================================== *)
(** ** generate file *)
(* ================================================================== *)

Ltac break_match_but_loop :=
  match goal with
  | |- context [match ?x with _ => _ end] =>
      lazymatch x with
      | context [match _ with _ => _ end] => fail
      | context [Generate.file_loop] => fail
      | _ => first [ is_var x; destruct x | destruct x eqn:? ]
      end
  end.

Lemma file_loop_spec (w : world) (client : GenAIClient) (params : dict)
    (output_dir : path) (total : nat) (prompts : list string) :
  forall (i : nat) (successful failed : Z),
  exists successful' failed',
    fst (Generate.file_loop w client params output_dir total prompts i
           successful failed) = Done (successful', failed')
    /\ (successful' + failed'
        = successful + failed + Z.of_nat (List.length prompts))%Z
    /\ (successful <= successful')%Z /\ (failed <= failed')%Z
    /\ posts (snd (Generate.file_loop w client params output_dir total
                     prompts i successful failed))
       = map (fun prompt => request_of client prompt params) prompts
    /\ (successful' - successful
        = Z.of_nat
            (List.length
               (written
                  (files (snd (Generate.file_loop w client params output_dir
                                 total prompts i successful failed))))))%Z
    /\ Forall (fun e =>
                 exists j, i <= j < i + List.length prompts
                   /\ (e = Created (Generate.output_file output_dir j)
                       \/ exists text,
                            e = Wrote (Generate.output_file output_dir j)
                                  (Text text)))
              (files (snd (Generate.file_loop w client params output_dir
                             total prompts i successful failed))).
Proof.
  induction prompts as [| prompt rest IH]; intros i successful failed.
  - exists successful, failed. simpl. split_all; try reflexivity; try lia.
    constructor.
  - cbn [Generate.file_loop]. rewrite run_generate_text.
    remember (transport_result (net w) client prompt params) as result.
    unfold say, say_err, tell, open_w, py_item, file_write, dict_item, run,
      done, fail.
    simpl.
    repeat (break_match_but_loop; simpl).
    all: match goal with
         | |- context [Generate.file_loop _ _ _ _ _ _ _ ?s ?f] =>
             destruct (IH (S i) s f)
               as [s' [f' [Hfst [Hsum [Hs [Hf [Hposts [Hw Hall]]]]]]]];
             destruct (Generate.file_loop w client params output_dir total
                         rest (S i) s f) as [r t]
         end.
    all: simpl in Hfst; subst r; exists s', f'.
    all: unfold posts, files, written in *;
      cbn [flat_map app List.length fst snd map] in *.
    all: split_all; try reflexivity; try lia; try (f_equal; assumption).
    all: repeat (apply Forall_cons;
                 [ exists i; split; [ simpl; lia | eauto ] | ]).
    all: eapply Forall_impl; [ | exact Hall ]; simpl;
      intros e [j [Hj He]]; exists j; split; [ lia | exact He ].
Qed.

Lemma printed_app (to_err : bool) (t1 t2 : list event) :
  printed to_err (t1 ++ t2) = printed to_err t1 ++ printed to_err t2.
Proof. apply flat_map_app. Qed.

(** [generate file] ends normally whenever the output directory can be
    made and the prompt file can be read: it sends one request per prompt,
    in the order of the file, every prompt is counted once, as successful
    or as failed, the successful ones are exactly the result files that
    received their text, and the two counters are the ones printed at the
    end.  A result file that cannot be written is counted as failed and the
    command goes on. *)
Theorem file_counts_every_prompt (w : world) (config : dict)
    (file output_dir : string) (max_tokens temperature user_id : pyval)
    (content : string) :
  mkdir_error (net w) (Path output_dir) = None ->
  read_text w file = Done content ->
  let prompts := Generate.prompts_of_text w content in
  let command :=
    Generate.file w config file output_dir max_tokens temperature user_id in
  exists successful failed : Z,
    fst command = Done tt
    /\ (0 <= successful)%Z /\ (0 <= failed)%Z
    /\ (successful + failed = Z.of_nat (List.length prompts))%Z
    /\ posts (snd command)
       = map (fun prompt =>
                request_of (GenAIClient_init config) prompt
                  (build_params max_tokens temperature user_id))
             prompts
    /\ successful = Z.of_nat (List.length (written (files (snd command))))
    /\ exists before,
         printed false (snd command)
         = before ++ [[Str "✅ Successful: "; Obj (PInt successful)];
                      [Str "❌ Failed: "; Obj (PInt failed)];
                      [Str "📁 Results saved to: "; Str output_dir]].
Proof.
  intros Hmkdir Hread prompts command. subst command prompts.
  unfold Generate.file, mkdir, run. rewrite Hmkdir, Hread.
  unfold say, tell, lift_result, tell_fs, and_then, result_of, events_of.
  cbv beta iota zeta.
  generalize (Generate.prompts_of_text w content). intros prompts.
  destruct (file_loop_spec w (GenAIClient_init config)
              (build_params max_tokens temperature user_id)
              (Path output_dir)
              (List.length prompts) prompts 1 0 0)
    as [successful [failed [Hfst [Hsum [Hs [Hf [Hposts [Hw _]]]]]]]].
  destruct (Generate.file_loop w (GenAIClient_init config)
              (build_params max_tokens temperature user_id)
              (Path output_dir)
              (List.length prompts) prompts 1 0 0) as [r t].
  simpl in Hfst, Hposts, Hw. subst r.
  exists successful, failed.
  cbn [fst snd requests fs_log echoes sleeps map app].
  split_all; try reflexivity; try lia.
  - unfold posts. cbn [flat_map app]. rewrite flat_map_app.
    cbn [flat_map app]. rewrite app_nil_r. exact Hposts.
  - unfold files. cbn [flat_map app]. rewrite flat_map_app.
    cbn [flat_map app]. rewrite app_nil_r.
    unfold written at 1. cbn [flat_map app].
    change (successful
            = Z.of_nat (List.length (written (files t)))).
    lia.
  - exists ([Str "📄 Processing ";
             Obj (PInt (Z.of_nat (List.length prompts)));
             Str " prompts from "; Str file]
            :: printed false t
            ++ [[Str "
📊 File processing completed!"]]).
    unfold printed. cbn [flat_map app Bool.eqb]. rewrite flat_map_app.
    cbn [flat_map app Bool.eqb]. rewrite <- app_assoc. reflexivity.
Qed.

Lemma file_counts_every_prompt_witness :
  mkdir_error (net sample_world) (Path "out") = None
  /\ read_text sample_world "prompts.txt" = Done sample_text
  /\ fst (Generate.file sample_world [] "prompts.txt" "out"
            PNone PNone PNone) = Done tt.
Proof.
  split; [ reflexivity | ].
  split; [ reflexivity | ].
  destruct (file_counts_every_prompt sample_world [] "prompts.txt" "out"
              PNone PNone PNone sample_text eq_refl eq_refl)
    as [successful [failed [H _]]].
  exact H.
Defined.

(* ================================================================== *)
(** ** config set, get and reset *)
(* ================================================================== *)

Lemma dict_get_set_same (d : dict) (k : string) (v : pyval) :
  dict_get (dict_set d k v) k = Some v.
Proof.
  induction d as [| [k' v'] rest IH]; simpl.
  - rewrite String.eqb_refl. reflexivity.
  - destruct (String.eqb k' k) eqn:E; simpl; rewrite E; auto.
Qed.

Lemma dict_get_set_other (d : dict) (k k' : string) (v : pyval) :
  k <> k' -> dict_get (dict_set d k v) k' = dict_get d k'.
Proof.
  intros Hne. induction d as [| [k0 v0] rest IH]; simpl.
  - destruct (String.eqb_spec k k'); [ contradiction | reflexivity ].
  - destruct (String.eqb_spec k0 k) as [-> | Hk]; simpl.
    + destruct (String.eqb_spec k k'); [ contradiction | reflexivity ].
    + rewrite IH. reflexivity.
Qed.

Ltac by_key key :=
  destruct (String.eqb_spec key "api_endpoint") as [-> | ?];
  [ | destruct (String.eqb_spec key "default_user_id") as [-> | ?];
  [ | destruct (String.eqb_spec key "default_max_tokens") as [-> | ?];
  [ | destruct (String.eqb_spec key "default_temperature") as [-> | ?];
  [ | destruct (String.eqb_spec key "output_format") as [-> | ?];
  [ | destruct (String.eqb_spec key "log_level") as [-> | ?];
  [ | destruct (String.eqb_spec key "timeout") as [-> | ?] ]]]]]].

Ltac tidy :=
  repeat match goal with
         | H : negb _ = true |- _ => apply negb_true_iff in H
         | H : negb _ = false |- _ => apply negb_false_iff in H
         | H : (_ || _)%bool = true |- _ => apply orb_true_iff in H
         | H : (_ || _)%bool = false |- _ =>
             apply orb_false_iff in H; destruct H
         | H : (_ <? _)%Z = false |- _ => apply Z.ltb_ge in H
         | H : String.eqb _ _ = true |- _ => apply String.eqb_eq in H
         | H : _ \/ _ |- _ => destruct H
         | H : false = true |- _ => discriminate H
         end.

Ltac unknown_key :=
  repeat match goal with
         | H : ?key <> ?lit |- context [String.eqb ?key ?lit] =>
             rewrite (proj2 (String.eqb_neq key lit) H)
         end.

(** Runs [config set] symbolically: one goal per key and per answer of the
    conversions, the prompt and the writing of the file. *)
Ltac run_set key :=
  unfold ConfigCmd.set, ConfigCmd.check_value, ConfigCmd.check_endpoint,
    CLIConfig.save_config, ConfigCmd.member, ConfigCmd.valid_keys;
  unfold say, say_err, tell, lift_result, done, and_then;
  by_key key;
  cbn [existsb];
  unknown_key;
  repeat (cbn [existsb String.eqb Ascii.eqb Bool.eqb orb andb negb app
               fst snd];
          cbv beta iota zeta;
          try break_match).

(** [config set] changes the configuration only by storing a value that
    passed its checks.  Either nothing is stored and nothing is saved, or
    the value stored under the key is described by the key: a number of
    tokens from 1 to 4000, a timeout from 1 to 300, a temperature that is
    neither below 0 nor above 1, one of the two output formats, one of the
    four log levels in upper case, an endpoint that starts with https:// and
    that names amazonaws.com or localhost unless the user confirmed it, and,
    for a key outside the known ones, the text as given after the user
    confirmed.  When a conversion or the prompt fails nothing is saved. *)
Theorem set_stores_checked_values (w : world) (config : dict)
    (key value : string) :
  let command := ConfigCmd.set w config key value in
  (forall e, fst command = Failed e -> saves (snd command) = [])
  /\ forall config', fst command = Done config' ->
       (config' = config /\ saves (snd command) = [])
       \/ exists v,
            config' = CLIConfig.set config key v
            /\ saves (snd command)
               = match save_error w with None => [config'] | Some _ => [] end
            /\ In [Str "✅ Configuration updated: "; Str key; Str " = "; Obj v]
                  (printed false (snd command))
            /\ (key = "default_max_tokens" ->
                exists n, v = PInt n /\ parse_int w value = Done n
                          /\ (1 <= n <= 4000)%Z)
            /\ (key = "timeout" ->
                exists n, v = PInt n /\ parse_int w value = Done n
                          /\ (1 <= n <= 300)%Z)
            /\ (key = "default_temperature" ->
                exists f, v = PFloat f /\ parse_float w value = Done f
                          /\ PrimFloat.ltb f 0%float = false
                          /\ PrimFloat.ltb 1%float f = false)
            /\ (key = "output_format" ->
                v = PStr value /\ (value = "text" \/ value = "json"))
            /\ (key = "log_level" ->
                v = PStr (str_upper w value)
                /\ In (str_upper w value) ["DEBUG"; "INFO"; "WARNING"; "ERROR"])
            /\ (key = "api_endpoint" ->
                v = PStr value
                /\ String.prefix "https://" value = true
                /\ (contains "amazonaws.com" value = true
                    \/ contains "localhost" value = true
                    \/ confirm w "Continue anyway?" = Done true))
            /\ (key = "default_user_id" -> v = PStr value)
            /\ (ConfigCmd.member key ConfigCmd.valid_keys = false ->
                v = PStr value /\ confirm w "Continue anyway?" = Done true).
Proof.
  intros command. subst command.
  run_set key.
  all: (split;
        [ intros ? H; try discriminate H; reflexivity
        | intros config' H; try discriminate H; injection H as <-;
          first [ left; split; reflexivity
                | right; eexists; split; [ reflexivity | split_all ] ] ]).
  all: try reflexivity.
  all: try (unfold printed; simpl; tauto).
  all: intros Hkey; try discriminate Hkey; try contradiction; tidy.
  all: try (eexists; split_all; try reflexivity; lia).
  all: try (subst; simpl; split_all; auto 10; fail).
  all: eexists; split_all; try reflexivity; assumption.
Qed.

(** [config set default_temperature] stores and saves every number that
    compares neither below 0 nor above 1.  A NaN is such a number: it is
    stored as the default temperature. *)
Theorem set_temperature_stores_unordered (w : world) (config : dict)
    (value : string) (f : float) :
  parse_float w value = Done f ->
  PrimFloat.ltb f 0%float = false ->
  PrimFloat.ltb 1%float f = false ->
  let command := ConfigCmd.set w config "default_temperature" value in
  fst command
  = Done (CLIConfig.set config "default_temperature" (PFloat f))
  /\ saves (snd command)
     = match save_error w with
       | None => [CLIConfig.set config "default_temperature" (PFloat f)]
       | Some _ => []
       end.
Proof.
  intros Hparse Hlow Hhigh command. subst command.
  unfold ConfigCmd.set, ConfigCmd.check_value, CLIConfig.save_config,
    ConfigCmd.member, ConfigCmd.valid_keys.
  unfold say, say_err, tell, lift_result, done, and_then.
  cbn [existsb String.eqb Ascii.eqb Bool.eqb orb andb negb app fst snd].
  rewrite Hparse. cbv beta iota zeta. rewrite Hlow, Hhigh.
  cbn [orb negb]. cbv beta iota zeta.
  destruct (save_error w); split; reflexivity.
Qed.

Lemma set_temperature_stores_unordered_witness :
  parse_float sample_world "nan" = Done PrimFloat.nan
  /\ PrimFloat.eqb PrimFloat.nan PrimFloat.nan = false
  /\ saves (snd (ConfigCmd.set sample_world [] "default_temperature" "nan"))
     = [[("default_temperature", PFloat PrimFloat.nan)]].
Proof.
  split; [ reflexivity | ].
  split; [ reflexivity | ].
  destruct (set_temperature_stores_unordered sample_world [] "nan"
              PrimFloat.nan eq_refl eq_refl eq_refl) as [_ H].
  exact H.
Defined.

Lemma dict_set_get_id (d : dict) (k : string) (v : pyval) :
  dict_get d k = Some v -> dict_set d k v = d.
Proof.
  induction d as [| [k' v'] rest IH]; simpl; [ discriminate | ].
  destruct (String.eqb k' k).
  - intros H. injection H as ->. reflexivity.
  - intros H. rewrite IH by exact H. reflexivity.
Qed.

Ltac lookup_after_sets :=
  repeat first [ rewrite dict_get_set_same
               | rewrite dict_get_set_other by discriminate ].

(** [config reset] puts the seven defaults in place, leaves every other key
    of the configuration as it was, saves the result, and resetting twice is
    resetting once. *)
Theorem reset_restores_defaults (w : world) (config : dict) :
  exists config',
    fst (ConfigCmd.reset w config) = Done config'
    /\ (forall key value, In (key, value) ConfigCmd.defaults ->
        forall default, CLIConfig.get config' key default = value)
    /\ (forall key, ConfigCmd.member key ConfigCmd.valid_keys = false ->
        forall default,
          CLIConfig.get config' key default
          = CLIConfig.get config key default)
    /\ saves (snd (ConfigCmd.reset w config))
       = match save_error w with None => [config'] | Some _ => [] end
    /\ fst (ConfigCmd.reset w config') = Done config'.
Proof.
  unfold ConfigCmd.reset, CLIConfig.save_config, CLIConfig.set,
    CLIConfig.get, dict_get_default, ConfigCmd.defaults.
  unfold say, tell, done, and_then.
  cbn [fold_left fst snd].
  eexists. split_all.
  - destruct (save_error w); reflexivity.
  - intros key value Hin default. simpl in Hin.
    repeat match type of Hin with
           | _ \/ _ => destruct Hin as [Hin | Hin]
           | False => contradiction
           end.
    all: injection Hin as <- <-; lookup_after_sets; reflexivity.
  - intros key Hkey default.
    unfold ConfigCmd.member, ConfigCmd.valid_keys in Hkey.
    cbn [existsb] in Hkey. tidy.
    repeat match goal with
           | H : String.eqb _ _ = false |- _ =>
               apply String.eqb_neq in H
           end.
    repeat rewrite dict_get_set_other by congruence.
    reflexivity.
  - destruct (save_error w); reflexivity.
  - repeat (rewrite dict_set_get_id
              by (lookup_after_sets; reflexivity)).
    destruct (save_error w); reflexivity.
Qed.

(* ================================================================== *)
(** ** generate text *)
(* ================================================================== *)

Lemma run_open_w (env : environment) (p : path) :
  run (open_w env p)
  = match open_error env p with
    | Some msg => (Failed (error_of (OSError msg)), [])
    | None => (Done tt, [Filed (Created p)])
    end.
Proof. unfold run, open_w. destruct (open_error env p); reflexivity. Qed.

Lemma run_file_write (env : environment) (p : path) (v : pyval) :
  run (file_write env p v)
  = match v with
    | PStr s =>
        match write_error env p with
        | Some msg => (Failed (error_of (OSError msg)), [])
        | None => (Done tt, [Filed (Wrote p (Text s))])
        end
    | _ => (Failed (error_of
                      (TypeError ("write() argument must be str, not "
                                  ++ type_name v)%string)), [])
    end.
Proof.
  unfold run, file_write.
  destruct v; try reflexivity. destruct (write_error env p); reflexivity.
Qed.

Lemma run_json_dump (env : environment) (p : path) (v : pyval) :
  run (json_dump env p v)
  = match write_error env p with
    | Some msg => (Failed (error_of (OSError msg)), [])
    | None => (Done tt, [Filed (Wrote p (Json v))])
    end.
Proof. unfold run, json_dump. destruct (write_error env p); reflexivity. Qed.

Lemma run_py_get (v : pyval) (k : string) (default : pyval) :
  run (py_get v k default)
  = match v with
    | PDict d => (Done (dict_get_default d k default), [])
    | _ => (Failed (error_of
                      (AttributeError
                         ("'" ++ type_name v
                          ++ "' object has no attribute 'get'")%string)), [])
    end.
Proof. unfold run, py_get. destruct v; reflexivity. Qed.


Lemma run_py_item (v : pyval) (k : string) :
  exists e,
    run (py_item v k)
    = match v with
      | PDict d =>
          match dict_get d k with
          | Some x => (Done x, [])
          | None => (Failed (error_of (KeyError k)), [])
          end
      | _ => (Failed e, [])
      end.
Proof.
  unfold run, py_item, dict_item.
  destruct v; try (eexists; reflexivity).
  exists (error_of (KeyError k)). destruct (dict_get d k); reflexivity.
Qed.

Lemma quiet_app (t1 t2 : list event) : quiet t1 -> quiet t2 -> quiet (t1 ++ t2).
Proof.
  unfold quiet. intros [H1 [H2 H3]] [H4 [H5 H6]].
  rewrite posts_app, files_app, printed_app, H1, H2, H3, H4, H5, H6.
  auto.
Qed.

Lemma say_metadata_quiet (metadata : pyval) :
  quiet (snd (Generate.say_metadata metadata)).
Proof.
  unfold Generate.say_metadata.
  destruct metadata; try (repeat split; reflexivity).
  assert (Hfold : forall (items : list (string * pyval)) (c : Cmd unit),
             quiet (snd c) ->
             quiet (snd (fold_left
                           (fun (so_far : Cmd unit) (kv : string * pyval) =>
                              and_then so_far
                                (fun _ =>
                                   say [Titled (replace_underscores (fst kv));
                                        Str ": "; Obj (snd kv)]))
                           items c))).
  { induction items as [| kv rest IH]; intros c Hc; simpl; [ exact Hc | ].
    apply IH. rewrite snd_and_then. destruct (fst c).
    - apply quiet_app; [ exact Hc | ]. repeat split; reflexivity.
    - exact Hc. }
  apply Hfold. repeat split; reflexivity.
Qed.

Ltac break_match_but_metadata :=
  match goal with
  | |- context [match ?x with _ => _ end] =>
      lazymatch x with
      | context [match _ with _ => _ end] => fail
      | context [Generate.say_metadata] => fail
      | _ => first [ is_var x; destruct x | destruct x eqn:? ]
      end
  end.

Ltac metadata_said :=
  match goal with
  | |- context [Generate.say_metadata ?m] =>
      let Hq := fresh "Hq" in
      pose proof (say_metadata_quiet m) as Hq;
      destruct (Generate.say_metadata m) as [[[] | ?] ?];
      cbn [snd] in Hq;
      destruct Hq as [? [? ?]]
  end.

(** Runs a command symbolically: one goal per path through its body. *)
Ltac run_command :=
  unfold try_catch, and_then, say, say_err, tell, done, fail, lift_result,
    run, py_item, dict_item, py_get, open_w, file_write, json_dump, raise,
    ret, tell_fs, result_of, events_of, log_empty;
  repeat (cbv beta iota zeta;
          cbn [fst snd app map requests fs_log echoes sleeps negb andb orb];
          first [ break_match_but_metadata | metadata_said ]);
  cbv beta iota zeta;
  cbn [fst snd app map requests fs_log echoes sleeps negb andb orb].








(* ================================================================== *)
(** ** usage report *)
(* ================================================================== *)






(* ================================================================== *)
(** ** quick and config test *)
(* ================================================================== *)

Lemma transport_ok (env : environment) (self : GenAIClient)
    (prompt : string) (kwargs : dict) (resp : response) (data : pyval) :
  http_post env (request_of self prompt kwargs) = Ok resp ->
  status_code resp = 200%Z ->
  resp_json resp = Ok data ->
  transport_result env self prompt kwargs
  = [ ("success", PBool true); ("data", data); ("status_code", PInt 200) ].
Proof.
  intros Hpost Hstatus Hjson.
  unfold transport_result, generate_text, generate_text_try, requests_post,
    response_json.
  fold (request_of self prompt kwargs).
  rewrite Hpost. simpl. rewrite Hstatus, Hjson. reflexivity.
Qed.

Lemma transport_unreachable (env : environment) (self : GenAIClient)
    (prompt : string) (kwargs : dict) :
  http_post env (request_of self prompt kwargs) = Raise ConnectionError ->
  transport_result env self prompt kwargs
  = [ ("success", PBool false);
      ("error", PStr "Connection error - Could not reach API");
      ("status_code", PInt 503) ].
Proof.
  intros Hpost.
  unfold transport_result, generate_text, generate_text_try, requests_post,
    response_json.
  fold (request_of self prompt kwargs).
  rewrite Hpost. reflexivity.
Qed.

(** A 200 answer whose document has no [generated_text] makes [quick] end
    with a [KeyError] after printing nothing, while [generate text] on the
    same answer prints the error and ends normally. *)
Theorem quick_raises_on_odd_payload (w : world) (config : dict)
    (prompt output_format : string) (save : option string)
    (resp : response) (data : dict) :
  let client := GenAIClient_init config in
  http_post (net w) (request_of client prompt []) = Ok resp ->
  status_code resp = 200%Z ->
  resp_json resp = Ok (PDict data) ->
  dict_get data "generated_text" = None ->
  Main.quick w config prompt
  = (Failed (mk_error "KeyError" "'generated_text'"),
     [Posted (request_of client prompt [])])
  /\ Generate.text w config prompt PNone PNone PNone output_format save
     = (Done tt,
        [Posted (request_of client prompt []);
         Echoed true [Str "❌ Error: "; Str "'generated_text'"]]).
Proof.
  intros client Hpost Hstatus Hjson Hmissing.
  unfold Main.quick, Generate.text. fold client.
  change (build_params PNone PNone PNone) with ([] : dict).
  rewrite run_generate_text.
  rewrite (transport_ok _ _ _ _ _ _ Hpost Hstatus Hjson).
  unfold try_catch, and_then, say, say_err, tell, done, run, py_item,
    dict_item, ret, raise, result_of, events_of, log_empty, dict_truthy.
  simpl. rewrite Hmissing. simpl. split; reflexivity.
Qed.

Lemma quick_raises_on_odd_payload_witness :
  fst (Main.quick odd_world [] "write a haiku")
  = Failed (mk_error "KeyError" "'generated_text'")
  /\ fst (Generate.text odd_world [] "write a haiku" PNone PNone PNone
            "text" None) = Done tt.
Proof.
  destruct (quick_raises_on_odd_payload odd_world [] "write a haiku" "text"
              None (mk_response 200 "{}" (Ok (PDict []))) []
              eq_refl eq_refl eq_refl eq_refl) as [Hquick Htext].
  rewrite Hquick, Htext. split; reflexivity.
Defined.

(** When the API cannot be reached at all, [config test] ends normally and
    names the failure a server-side issue: the connection error is recorded
    with status code 503, and every status code from 500 on gets that
    hint. *)
Theorem test_blames_server_when_unreachable (w : world) (config : dict) :
  let client := GenAIClient_init config in
  let request :=
    request_of client "Hello, this is a test message"
      [("max_tokens", PInt 50)] in
  http_post (net w) request = Raise ConnectionError ->
  ConfigCmd.test w config
  = (Done tt,
     [ Echoed false [Str "🔍 Testing connection to: ";
                     Obj (CLIConfig.get config "api_endpoint" PNone)];
       Echoed false [Str "📡 Sending test request..."];
       Posted request;
       Echoed true [Str "❌ Connection failed"];
       Echoed false [Str "Error: ";
                     Obj (PStr "Connection error - Could not reach API")];
       Echoed false [Str "💡 This appears to be a server-side issue"];
       Echoed false [Str "
🔧 Troubleshooting:"];
       Echoed false [Str "1. Verify your API endpoint with 'genai config show'"];
       Echoed false [Str "2. Check if your AWS GenAI Bot service is deployed"];
       Echoed false [Str "3. Ensure the API Gateway is properly configured"] ]).
Proof.
  intros client request Hpost. subst request.
  unfold ConfigCmd.test. fold client.
  rewrite run_generate_text.
  rewrite (transport_unreachable _ _ _ _ Hpost).
  reflexivity.
Qed.

Lemma test_blames_server_when_unreachable_witness :
  In [Str "💡 This appears to be a server-side issue"]
     (printed false (snd (ConfigCmd.test offline_world []))).
Proof.
  rewrite (test_blames_server_when_unreachable offline_world [] eq_refl).
  vm_compute. auto 10.
Defined.

(* ================================================================== *)
(** ** config show and config init *)
(* ================================================================== *)

Lemma show_items_done (items : dict) :
  fst (ConfigCmd.show_items items) = Done tt
  <-> Forall (fun kv =>
                fst kv <> "api_endpoint" -> fst kv <> "default_user_id" ->
                contains "token" (fst kv) = true ->
                exists value_part, thousands (snd kv) = Done value_part)
             items.
Proof.
  induction items as [| [key value] rest IH].
  - split; [ constructor | reflexivity ].
  - cbn [ConfigCmd.show_items]. rewrite fst_and_then.
    unfold say, tell, lift_result, and_then. cbn [fst snd].
    destruct (String.eqb_spec key "api_endpoint") as [-> | Hendpoint].
    { cbn [fst]. rewrite IH. split.
      - intros H. constructor; [ | exact H ]. intros Hk. contradiction.
      - intros H. inversion H. assumption. }
    destruct (String.eqb_spec key "default_user_id") as [-> | Huser].
    { cbn [fst]. rewrite IH. split.
      - intros H. constructor; [ | exact H ]. intros _ Hk. contradiction.
      - intros H. inversion H. assumption. }
    destruct (contains "token" key) eqn:Htoken.
    + destruct (thousands value) as [value_part | e] eqn:Hvalue; cbn [fst].
      * rewrite IH. split.
        -- intros H. constructor; [ | exact H ]. intros _ _ _. eauto.
        -- intros H. inversion H. assumption.
      * split; [ discriminate | ].
        intros H. inversion H as [| ? ? Hhead _]. cbn [fst snd] in Hhead.
        destruct (Hhead Hendpoint Huser Htoken) as [value_part Hpart].
        congruence.
    + assert (Hdone : forall c1 c2 : Cmd unit,
                 fst c1 = Done tt -> fst c2 = Done tt ->
                 fst (if String.eqb key "timeout" then c1 else c2) = Done tt).
      { intros c1 c2 H1 H2. destruct (String.eqb key "timeout"); assumption. }
      rewrite Hdone by reflexivity. rewrite IH. split.
      * intros H. constructor; [ | exact H ]. cbn [fst]. intros _ _ Hk.
        congruence.
      * intros H. inversion H. assumption.
Qed.

(** [config show] ends normally exactly when every value stored under a key
    that contains [token], the API endpoint and the default user apart, is a
    number: it formats such a value with a thousands separator, outside any
    handler, so that a text there ends the command with an exception. *)
Theorem show_needs_numbers_under_token_keys (config : dict) :
  fst (ConfigCmd.show config) = Done tt
  <-> Forall (fun kv =>
                fst kv <> "api_endpoint" -> fst kv <> "default_user_id" ->
                contains "token" (fst kv) = true ->
                exists value_part, thousands (snd kv) = Done value_part)
             config.
Proof.
  unfold ConfigCmd.show, CLIConfig.display, say, tell.
  rewrite !and_then_done. cbn [fst].
  apply show_items_done.
Qed.

Lemma test_saves_nothing (w : world) (config : dict) :
  saves (snd (ConfigCmd.test w config)) = [].
Proof.
  unfold ConfigCmd.test. rewrite run_generate_text.
  generalize (transport_result (net w) (GenAIClient_init config)
                "Hello, this is a test message" [("max_tokens", PInt 50)]).
  intros result.
  run_command.
  all: reflexivity.
Qed.

(** [config init] saves the endpoint the user typed without any of the
    checks of [config set]: an endpoint that does not start with https:// is
    stored and written to the configuration file, while [config set] turns
    the same text down and stores nothing. *)
Theorem init_saves_unchecked_endpoint (w : world) (config : dict)
    (endpoint : string) (user : pyval) :
  confirm w "Do you want to change the API endpoint?" = Done true ->
  ask w "Enter your API Gateway endpoint"
    (CLIConfig.get config "api_endpoint" PNone) = Done (PStr endpoint) ->
  ask w "Enter your default user ID"
    (CLIConfig.get config "default_user_id" PNone) = Done user ->
  confirm w "Do you want to set custom default parameters?" = Done false ->
  save_error w = None ->
  String.prefix "https://" endpoint = false ->
  saves (snd (ConfigCmd.init w config))
  = [CLIConfig.set (CLIConfig.set config "api_endpoint" (PStr endpoint))
       "default_user_id" user]
  /\ ConfigCmd.set w config "api_endpoint" endpoint
     = (Done config,
        [Echoed true [Str "❌ Error: api_endpoint must start with https://"]]).
Proof.
  intros Hchange Hendpoint Huser Hcustom Hsave Hprefix. split.
  - unfold ConfigCmd.init, CLIConfig.save_config.
    rewrite Hchange, Hendpoint, Hcustom, Hsave.
    unfold say, tell, done, lift_result, and_then.
    cbv beta iota zeta.
    unfold CLIConfig.get, CLIConfig.set, dict_get_default in *.
    rewrite dict_get_set_other by discriminate.
    rewrite Huser.
    cbv beta iota zeta.
    pose proof (test_saves_nothing w
                  (dict_set (dict_set config "api_endpoint" (PStr endpoint))
                     "default_user_id" user)) as Htest.
    destruct (ConfigCmd.test w
                (dict_set (dict_set config "api_endpoint" (PStr endpoint))
                   "default_user_id" user)) as [r t].
    cbn [snd] in Htest.
    destruct (confirm w "Test the connection now?") as [[|] | e];
      cbn [fst snd app]; [ destruct r | | ].
    all: unfold saves in *;
      repeat first [ rewrite flat_map_app
                   | progress cbn [fst snd flat_map app] ];
      rewrite ?Htest; reflexivity.
  - unfold ConfigCmd.set, ConfigCmd.check_value, ConfigCmd.check_endpoint,
      ConfigCmd.member, ConfigCmd.valid_keys.
    cbn [existsb String.eqb Ascii.eqb Bool.eqb orb andb negb].
    rewrite Hprefix. reflexivity.
Qed.

Lemma init_saves_unchecked_endpoint_witness :
  saves (snd (ConfigCmd.init sample_world []))
  = [[("api_endpoint", PStr "http://example.org/api");
      ("default_user_id", PNone)]]
  /\ saves (snd (ConfigCmd.set sample_world [] "api_endpoint"
                   "http://example.org/api")) = [].
Proof.
  destruct (init_saves_unchecked_endpoint sample_world []
              "http://example.org/api" PNone
              eq_refl eq_refl eq_refl eq_refl eq_refl eq_refl)
    as [Hinit Hset].
  rewrite Hinit, Hset. split; reflexivity.
Defined.

(* ================================================================== *)
(** ** usage stats and usage summary *)
(* ================================================================== *)







